(** * crypto-chart-ng: wire codec, candle store and streaming connection

    A shallow embedding of the streaming-aggregation core of the SDK:
    - [binary-deserializer.ts]: the little-endian candle-batch and trade codecs;
    - [CryptoChartSDK]: the candle series, [handleRealTimeTrade],
      [fetchLatestCandle] and [initialize];
    - [WebSocketService]: [attemptReconnect] and [handleTextMessage];
    - [ApiService.fetchHistoryCandles].

    JavaScript numbers that carry prices and volumes are IEEE-754 binary64
    values, modelled by the Standard Library's [spec_float] at precision 53
    and maximal exponent 1024 (one NaN, signed zeros, infinities).  Numbers
    that carry timestamps are produced by [Number(BigInt)] on a signed 64-bit
    integer: they are integer-valued binary64 values and are held as the
    integer in [Z] they denote.  The arithmetic on them is binary64
    arithmetic all the same: the quotient of [Math.floor (t / 60)] is
    computed by [SFdiv], and products and differences are rounded to the
    nearest binary64 value.  Comparisons of two such integers are exact. *)

From Stdlib Require Import Ascii String ZArith List Bool Lia SpecFloat Sorted.
From coqutil Require Import Byte Word.LittleEndianList.
Import ListNotations.
Local Open Scope Z_scope.

(** ** JavaScript numbers as binary64 values *)

Module Float64.

Definition prec : Z := 53.
Definition emax : Z := 1024.

Definition number := spec_float.

(** A [spec_float] denotes a binary64 value when its mantissa and exponent
    are in canonical form. *)
Definition is_float64 (x : number) : bool := valid_binary prec emax x.

Definition NaN : number := S754_nan.
Definition of_Z (z : Z) : number := binary_normalize prec emax z 0 false.

Definition add : number -> number -> number := SFadd prec emax.
Definition sub : number -> number -> number := SFsub prec emax.
Definition mul : number -> number -> number := SFmul prec emax.
Definition div : number -> number -> number := SFdiv prec emax.

(** The relational operators [<], [<=] and [>=]; all are false on NaN. *)
Definition lt (x y : number) : bool := SFltb x y.
Definition le (x y : number) : bool := SFleb x y.
Definition ge (x y : number) : bool := SFleb y x.

Definition isNaN (x : number) : bool :=
  match x with
  | S754_nan => true
  | _ => false
  end.

(** [Math.max a b]: NaN if either argument is NaN; [+0] is larger than
    [-0]; otherwise the second argument when it is strictly greater. *)
Definition Math_max (a b : number) : number :=
  match a, b with
  | S754_nan, _ | _, S754_nan => S754_nan
  | S754_zero true, S754_zero false => b
  | _, _ => if lt a b then b else a
  end.

(** [Math.min a b]: NaN if either argument is NaN; [-0] is smaller than
    [+0]; otherwise the second argument when it is strictly smaller. *)
Definition Math_min (a b : number) : number :=
  match a, b with
  | S754_nan, _ | _, S754_nan => S754_nan
  | S754_zero false, S754_zero true => b
  | _, _ => if lt b a then b else a
  end.

(** *** The binary64 interchange format *)

Definition sign_bit (s : bool) : Z := if s then 2 ^ 63 else 0.

(** The 64-bit pattern [DataView.setFloat64] stores.  For a finite value
    [m * 2^e] in canonical form the biased exponent and the fraction add
    up to [(e + 1074) * 2^52 + m], for normal and subnormal values alike.
    NaN is stored as the quiet NaN [0x7FF8000000000000]. *)
Definition to_bits (x : number) : Z :=
  match x with
  | S754_zero s => sign_bit s
  | S754_infinity s => sign_bit s + 2047 * 2 ^ 52
  | S754_nan => 2047 * 2 ^ 52 + 2 ^ 51
  | S754_finite s m e => sign_bit s + ((e + 1074) * 2 ^ 52 + Zpos m)
  end.

(** The value [DataView.getFloat64] reads from a 64-bit pattern: sign bit,
    11 bits of biased exponent [E], 52 bits of fraction [f]; every pattern
    with [E = 2047] and [f <> 0] reads as NaN. *)
Definition of_bits (b : Z) : number :=
  let s := 2 ^ 63 <=? b in
  let E := (b / 2 ^ 52) mod 2048 in
  let f := b mod 2 ^ 52 in
  if E =? 0 then
    if f =? 0 then S754_zero s else S754_finite s (Z.to_pos f) (-1074)
  else if E =? 2047 then
    if f =? 0 then S754_infinity s else S754_nan
  else S754_finite s (Z.to_pos (f + 2 ^ 52)) (E - 1075).

End Float64.

(** ** Integers on the wire *)

(** [BigInt.asIntN 64]: the signed reading of a 64-bit pattern. *)
Definition asIntN64 (u : Z) : Z :=
  let w := u mod 2 ^ 64 in
  if w <? 2 ^ 63 then w else w - 2 ^ 64.

(** [Number(v)] for a BigInt [v]: the nearest binary64 value, ties to even.
    An integer below [2^53] in magnitude is kept; a larger one loses its
    low [sh] bits, rounded to nearest. *)
Definition Number_of_BigInt (v : Z) : Z :=
  let a := Z.abs v in
  if a <? 2 ^ 53 then v
  else
    let sh := Z.log2 a - 52 in
    let q := a / 2 ^ sh in
    let r := a mod 2 ^ sh in
    let half := 2 ^ (sh - 1) in
    let q' := if (half <? r) || ((r =? half) && Z.odd q) then q + 1 else q in
    Z.sgn v * (q' * 2 ^ sh).

(** An integer that is a binary64 value: at most 53 significant bits. *)
Definition is_float64_integer (v : Z) : bool :=
  let a := Z.abs v in
  (a <? 2 ^ 53) || (a mod 2 ^ (Z.log2 a - 52) =? 0).

(** ** Arithmetic on integer-valued numbers *)

(** [a * b] and [a - b] for integer-valued numbers: IEEE-754 arithmetic
    returns the exact result rounded to the nearest binary64 value, ties to
    even.  The exact product or difference of two integers is an integer,
    and its rounding is the one [Number_of_BigInt] computes. *)
Definition number_mul (a b : Z) : Z := Number_of_BigInt (a * b).

Definition number_sub (a b : Z) : Z := Number_of_BigInt (a - b).

(** [Math.floor x] as an integer, for a finite [x]: the value [m * 2^e]
    shifted down to the units, rounding towards minus infinity.  The zeros
    give 0; infinities and NaN, which the quotient of a finite number by 60
    never is, are given 0 as well. *)
Definition Math_floor (x : Float64.number) : Z :=
  match x with
  | S754_finite s m e => Z.shiftl (if s then Zneg m else Zpos m) e
  | _ => 0
  end.

(** [Math.floor (a / b)] for integer-valued [a] and [b]: the quotient is
    the binary64 one. *)
Definition floor_div (a b : Z) : Z :=
  Math_floor (Float64.div (Float64.of_Z a) (Float64.of_Z b)).

(** Pairs of integer-valued numbers, small and large, of either sign, on
    which [number_mul] and [number_sub] are compared with [SFmul] and
    [SFsub] below. *)
Definition rounding_samples : list (Z * Z) :=
  let around (c : Z) := map (fun k => Number_of_BigInt (c + Z.of_nat k - 20)) (seq 0 41) in
  flat_map (fun a => map (fun b => (a, b))
                       [0; 60; 3600; -3600; 2 ^ 53; 2 ^ 53 + 2; 71571703861297360;
                        - 2 ^ 62; 2 ^ 63; 1; -1])
    (flat_map around [0; 2 ^ 53; 2 ^ 56; 15 * 2 ^ 59; 2 ^ 63; 71571703861297504; - 2 ^ 55]).

Definition rounds_as_binary64 (ab : Z * Z) : bool :=
  SFeqb (Float64.sub (Float64.of_Z (fst ab)) (Float64.of_Z (snd ab)))
    (Float64.of_Z (number_sub (fst ab) (snd ab)))
  && SFeqb (Float64.mul (Float64.of_Z (fst ab)) (Float64.of_Z (snd ab)))
       (Float64.of_Z (number_mul (fst ab) (snd ab)))
  && is_float64_integer (number_sub (fst ab) (snd ab))
  && is_float64_integer (number_mul (fst ab) (snd ab)).

(** ** DataView over an ArrayBuffer *)

(** What the codec can throw: a [RangeError] of a [DataView] access outside
    the buffer, and the two [Error]s of the size checks, which carry the
    numbers interpolated in their messages. *)
Inductive exn :=
| RangeError
| InvalidDataSize (expected got : Z)
| InvalidTradeSize (got : Z).

Inductive result (A : Type) :=
| Ok (a : A)
| Throw (e : exn).

Arguments Ok {A} a.
Arguments Throw {A} e.

Definition bind {A B : Type} (r : result A) (k : A -> result B) : result B :=
  match r with
  | Ok a => k a
  | Throw e => Throw e
  end.

Notation "x <- r ;; k" := (bind r (fun x => k))
  (at level 61, r at next level, right associativity).

Definition ArrayBuffer (n : nat) : list byte := repeat Byte.x00 n.

Definition byteLength (data : list byte) : Z := Z.of_nat (length data).

(** The [n] bytes at [offset]; a [RangeError] when they do not all lie
    inside the buffer. *)
Definition view_get (data : list byte) (offset n : nat) : result (list byte) :=
  if (offset + n <=? length data)%nat
  then Ok (firstn n (skipn offset data))
  else Throw RangeError.

Definition view_set (data : list byte) (offset : nat) (bs : list byte)
  : result (list byte) :=
  if (offset + length bs <=? length data)%nat
  then Ok (firstn offset data ++ bs ++ skipn (offset + length bs) data)
  else Throw RangeError.

(** The accessors are used with [littleEndian = true] throughout. *)
Definition getUint32 (data : list byte) (offset : nat) : result Z :=
  bs <- view_get data offset 4 ;; Ok (le_combine bs).

Definition getBigInt64 (data : list byte) (offset : nat) : result Z :=
  bs <- view_get data offset 8 ;; Ok (asIntN64 (le_combine bs)).

Definition getFloat64 (data : list byte) (offset : nat) : result Float64.number :=
  bs <- view_get data offset 8 ;; Ok (Float64.of_bits (le_combine bs)).

Definition setUint32 (data : list byte) (offset : nat) (v : Z) : result (list byte) :=
  view_set data offset (le_split 4 v).

Definition setBigInt64 (data : list byte) (offset : nat) (v : Z) : result (list byte) :=
  view_set data offset (le_split 8 v).

Definition setFloat64 (data : list byte) (offset : nat) (x : Float64.number)
  : result (list byte) :=
  view_set data offset (le_split 8 (Float64.to_bits x)).

(** ** The data model ([types.ts]) *)

Record Candle := {
  OpenPrice : Float64.number;
  ClosePrice : Float64.number;
  HighPrice : Float64.number;
  LowPrice : Float64.number;
  VolumeIn : Float64.number;
  VolumeOut : Float64.number;
  Timestamp : Z
}.

Record RealTimeTrade := {
  TradeTime : Z;
  USD : Float64.number;
  Amount : Float64.number;
  Price : Float64.number
}.

(** ** The wire codec ([binary-deserializer.ts]) *)

(** One pass of the loop body of [deserializeCandleData]: seven reads of 8
    bytes, the offset advancing by 8 after each. *)
Definition read_candle (data : list byte) (offset : nat) : result Candle :=
  timestamp <- getBigInt64 data offset ;;
  openPrice <- getFloat64 data (offset + 8) ;;
  closePrice <- getFloat64 data (offset + 16) ;;
  highPrice <- getFloat64 data (offset + 24) ;;
  lowPrice <- getFloat64 data (offset + 32) ;;
  volumeUSD <- getFloat64 data (offset + 40) ;;
  volume <- getFloat64 data (offset + 48) ;;
  Ok {| Timestamp := Number_of_BigInt timestamp;
        OpenPrice := openPrice;
        ClosePrice := closePrice;
        HighPrice := highPrice;
        LowPrice := lowPrice;
        VolumeIn := volumeUSD;
        VolumeOut := volume |}.

(** The loop [for (let i = 0; i < count; i++)], pushing one candle per
    iteration in reading order.  The offset is 56 further on when the next
    iteration starts: the size check counts 64 bytes per candle, the loop
    consumes 56, and the last [8 * count] bytes of the buffer are never read. *)
Fixpoint read_candles (data : list byte) (count offset : nat) : result (list Candle) :=
  match count with
  | O => Ok []
  | S n =>
      c <- read_candle data offset ;;
      cs <- read_candles data n (offset + 56) ;;
      Ok (c :: cs)
  end.

Definition deserializeCandleData (data : list byte) : result (list Candle) :=
  count <- getUint32 data 0 ;;
  let expectedSize := 4 + count * 64 in
  if negb (byteLength data =? expectedSize)
  then Throw (InvalidDataSize expectedSize (byteLength data))
  else read_candles data (Z.to_nat count) 4.

Definition deserializeRealTimeTradeData (data : list byte) : result RealTimeTrade :=
  if negb (byteLength data =? 24)
  then Throw (InvalidTradeSize (byteLength data))
  else
    tradeTime <- getBigInt64 data 0 ;;
    usd <- getFloat64 data 8 ;;
    amount <- getFloat64 data 16 ;;
    Ok {| TradeTime := Number_of_BigInt tradeTime;
          USD := usd;
          Amount := amount;
          Price := Float64.div usd amount |}.

(** One pass of the loop body of [createMockBinaryData]: seven writes of 8
    bytes.  [BigInt] of an integer timestamp is that integer; [setBigInt64]
    keeps its low 64 bits. *)
Definition write_candle (buffer : list byte) (offset : nat) (candle : Candle)
  : result (list byte) :=
  buffer <- setBigInt64 buffer offset (Timestamp candle) ;;
  buffer <- setFloat64 buffer (offset + 8) (OpenPrice candle) ;;
  buffer <- setFloat64 buffer (offset + 16) (ClosePrice candle) ;;
  buffer <- setFloat64 buffer (offset + 24) (HighPrice candle) ;;
  buffer <- setFloat64 buffer (offset + 32) (LowPrice candle) ;;
  buffer <- setFloat64 buffer (offset + 40) (VolumeIn candle) ;;
  setFloat64 buffer (offset + 48) (VolumeOut candle).

Fixpoint write_candles (buffer : list byte) (offset : nat) (candles : list Candle)
  : result (list byte) :=
  match candles with
  | [] => Ok buffer
  | candle :: rest =>
      buffer <- write_candle buffer offset candle ;;
      write_candles buffer (offset + 56) rest
  end.

(** The buffer has 64 bytes per candle and the loop fills 56 of them, so the
    records are packed and the last [8 * candles.length] bytes stay zero. *)
Definition createMockBinaryData (candles : list Candle) : result (list byte) :=
  let buffer := ArrayBuffer (4 + length candles * 64) in
  buffer <- setUint32 buffer 0 (Z.of_nat (length candles)) ;;
  write_candles buffer 4 candles.

(** Modelled from the spec: the trade-event encoder.  The source has a
    decoder for trade events and no encoder; the spec describes the record as
    exactly 24 bytes, little-endian: int64 tradeTime, float64 quoteAmount,
    float64 baseAmount, the price being derived and never transmitted. *)
Definition encodeTrade (trade : RealTimeTrade) : result (list byte) :=
  let buffer := ArrayBuffer 24 in
  buffer <- setBigInt64 buffer 0 (TradeTime trade) ;;
  buffer <- setFloat64 buffer 8 (USD trade) ;;
  setFloat64 buffer 16 (Amount trade).

(** Integers the int64 field carries unchanged: in the signed 64-bit range
    and exactly representable as a JavaScript number. *)
Definition int64_number (t : Z) : bool :=
  (- 2 ^ 63 <=? t) && (t <? 2 ^ 63) && is_float64_integer t.

Definition candle_on_wire (c : Candle) : bool :=
  int64_number (Timestamp c)
  && Float64.is_float64 (OpenPrice c) && Float64.is_float64 (ClosePrice c)
  && Float64.is_float64 (HighPrice c) && Float64.is_float64 (LowPrice c)
  && Float64.is_float64 (VolumeIn c) && Float64.is_float64 (VolumeOut c).

Definition trade_on_wire (t : RealTimeTrade) : bool :=
  int64_number (TradeTime t)
  && Float64.is_float64 (USD t) && Float64.is_float64 (Amount t).

(** *** The layout of an encoded batch *)

(** The 56 bytes the codec reads and writes per candle. *)
Definition candle_bytes (c : Candle) : list byte :=
  le_split 8 (Timestamp c)
  ++ le_split 8 (Float64.to_bits (OpenPrice c))
  ++ le_split 8 (Float64.to_bits (ClosePrice c))
  ++ le_split 8 (Float64.to_bits (HighPrice c))
  ++ le_split 8 (Float64.to_bits (LowPrice c))
  ++ le_split 8 (Float64.to_bits (VolumeIn c))
  ++ le_split 8 (Float64.to_bits (VolumeOut c)).

(** The count and the packed records; the encoder leaves [8 * length cs]
    zero bytes after them. *)
Definition batch_bytes (cs : list Candle) : list byte :=
  le_split 4 (Z.of_nat (length cs)) ++ concat (map candle_bytes cs).

(** ** JavaScript arrays *)

(** [arr.slice(start)]: a negative [start] counts from the end. *)
Definition slice_from {A : Type} (start : Z) (arr : list A) : list A :=
  let len := Z.of_nat (length arr) in
  let k := if start <? 0 then Z.max (len + start) 0 else Z.min start len in
  skipn (Z.to_nat k) arr.

(** [arr[i] = x] for an index inside the array. *)
Fixpoint array_set {A : Type} (arr : list A) (i : nat) (x : A) : list A :=
  match arr, i with
  | [], _ => []
  | _ :: rest, O => x :: rest
  | y :: rest, S j => y :: array_set rest j x
  end.

(** [arr.findIndex(p)]; [None] stands for the result [-1]. *)
Fixpoint findIndex {A : Type} (p : A -> bool) (arr : list A) : option nat :=
  match arr with
  | [] => None
  | x :: rest => if p x then Some O else option_map S (findIndex p rest)
  end.

(** [arr.sort((a, b) => a.Timestamp - b.Timestamp)]: the sort is stable, so
    its result is the one stable insertion sort computes. *)
Fixpoint insert_by_timestamp (c : Candle) (sorted : list Candle) : list Candle :=
  match sorted with
  | [] => [c]
  | d :: rest =>
      if Timestamp c <=? Timestamp d then c :: d :: rest
      else d :: insert_by_timestamp c rest
  end.

Definition sort_by_timestamp (arr : list Candle) : list Candle :=
  fold_right insert_by_timestamp [] arr.

(** ** The facade ([CryptoChartSDK]) *)

(** [x || d] on an optional number: [undefined] and [0] are falsy. *)
Definition or_default (x : option Z) (d : Z) : Z :=
  match x with
  | Some v => if v =? 0 then d else v
  | None => d
  end.

(** A string or [null] in a condition: [null] and the empty string are falsy. *)
Definition truthy_string (x : option string) : bool :=
  match x with
  | Some EmptyString => false
  | Some _ => true
  | None => false
  end.

Record ChartConfig := {
  maxCandles : option Z;
  updateInterval : option Z
}.

(** The constructor's [{ maxCandles: 1000, updateInterval: 60000, ...chartConfig }]. *)
Definition default_ChartConfig (given : ChartConfig) : ChartConfig :=
  {| maxCandles := match maxCandles given with Some v => Some v | None => Some 1000 end;
     updateInterval :=
       match updateInterval given with Some v => Some v | None => Some 60000 end |}.

Record ChartData := {
  data_candles : list Candle;
  data_lastUpdate : option Z;
  data_isLoading : bool;
  data_error : option string
}.

(** What the facade lets its surroundings observe, in order of emission. *)
Inductive notification :=
| ChartUpdate (data : ChartData)
| ErrorReport (message : string)
| PollingStarted (interval : Z)
| ConnectionStarted.

Record SDK := {
  candles : list Candle;
  lastUpdate : option Z;
  isLoading : bool;
  error : option string;
  currentTokenId : option string;
  chartConfig : ChartConfig;
  emitted : list notification
}.

Definition new_SDK (given : ChartConfig) : SDK :=
  {| candles := []; lastUpdate := None; isLoading := false; error := None;
     currentTokenId := None; chartConfig := default_ChartConfig given;
     emitted := [] |}.

Definition set_candles (cs : list Candle) (s : SDK) : SDK :=
  {| candles := cs; lastUpdate := lastUpdate s; isLoading := isLoading s;
     error := error s; currentTokenId := currentTokenId s;
     chartConfig := chartConfig s; emitted := emitted s |}.

Definition set_lastUpdate (t : option Z) (s : SDK) : SDK :=
  {| candles := candles s; lastUpdate := t; isLoading := isLoading s;
     error := error s; currentTokenId := currentTokenId s;
     chartConfig := chartConfig s; emitted := emitted s |}.

Definition set_isLoading (b : bool) (s : SDK) : SDK :=
  {| candles := candles s; lastUpdate := lastUpdate s; isLoading := b;
     error := error s; currentTokenId := currentTokenId s;
     chartConfig := chartConfig s; emitted := emitted s |}.

Definition set_error (e : option string) (s : SDK) : SDK :=
  {| candles := candles s; lastUpdate := lastUpdate s; isLoading := isLoading s;
     error := e; currentTokenId := currentTokenId s;
     chartConfig := chartConfig s; emitted := emitted s |}.

Definition set_currentTokenId (t : option string) (s : SDK) : SDK :=
  {| candles := candles s; lastUpdate := lastUpdate s; isLoading := isLoading s;
     error := error s; currentTokenId := t;
     chartConfig := chartConfig s; emitted := emitted s |}.

Definition emit (n : notification) (s : SDK) : SDK :=
  {| candles := candles s; lastUpdate := lastUpdate s; isLoading := isLoading s;
     error := error s; currentTokenId := currentTokenId s;
     chartConfig := chartConfig s; emitted := emitted s ++ [n] |}.

(** [getChartData] copies the array, so a snapshot is a value. *)
Definition getChartData (s : SDK) : ChartData :=
  {| data_candles := candles s; data_lastUpdate := lastUpdate s;
     data_isLoading := isLoading s; data_error := error s |}.

Definition notifyChartUpdate (s : SDK) : SDK := emit (ChartUpdate (getChartData s)) s.

Definition notifyError (message : string) (s : SDK) : SDK := emit (ErrorReport message) s.

Definition is_ErrorReport (n : notification) : bool :=
  match n with
  | ErrorReport _ => true
  | _ => false
  end.

(** The minute a trade falls in: [Math.floor(trade.TradeTime / 60) * 60],
    in binary64 arithmetic. *)
Definition tradeMinuteTimestamp (trade : RealTimeTrade) : Z :=
  number_mul (floor_div (TradeTime trade) 60) 60.

(** [tradeMinuteTimestamp - latestCandleTimestamp], in binary64 arithmetic. *)
Definition timeDiff (trade : RealTimeTrade) (latestCandle : Candle) : Z :=
  number_sub (tradeMinuteTimestamp trade) (Timestamp latestCandle).

(** [tradeMinuteTimestamp - (60 * 60)], in binary64 arithmetic. *)
Definition cutoffTimestamp (trade : RealTimeTrade) : Z :=
  number_sub (tradeMinuteTimestamp trade) (60 * 60).

(** Timestamps of at most [2^51] seconds in magnitude: there the minute of
    a trade, its distance to a candle and the cutoff are computed without
    rounding. *)
Definition small_timestamp (t : Z) : Prop := - 2 ^ 51 <= t <= 2 ^ 51.

(** [handleRealTimeTrade]; [now] is the clock read by [new Date()]. *)
Definition handleRealTimeTrade (now : Z) (trade : RealTimeTrade) (s : SDK) : SDK :=
  let s := set_lastUpdate (Some now) s in
  match nth_error (candles s) (length (candles s) - 1) with
  | None => s
  | Some latestCandle =>
      let timeDiff := timeDiff trade latestCandle in
      let isCurrentOrRecentCandle := (timeDiff >=? 0) && (timeDiff <=? 120) in
      if isCurrentOrRecentCandle then
        let updatedCandle :=
          {| OpenPrice := OpenPrice latestCandle;
             ClosePrice := Price trade;
             HighPrice := Float64.Math_max (HighPrice latestCandle) (Price trade);
             LowPrice := Float64.Math_min (LowPrice latestCandle) (Price trade);
             VolumeIn := Float64.add (VolumeIn latestCandle) (USD trade);
             VolumeOut := Float64.add (VolumeOut latestCandle) (Amount trade);
             Timestamp := Timestamp latestCandle |} in
        notifyChartUpdate
          (set_candles (array_set (candles s) (length (candles s) - 1) updatedCandle) s)
      else if timeDiff <? 0 then
        let cutoffTimestamp := cutoffTimestamp trade in
        let beforeCount := length (candles s) in
        let s := set_candles
                   (filter (fun candle => Timestamp candle >=? cutoffTimestamp) (candles s)) s in
        if negb (length (candles s) =? beforeCount)%nat then notifyChartUpdate s else s
      else s
  end.

(** [startPeriodicUpdates]: (re)arms the poll timer when an interval and a
    token are set. *)
Definition startPeriodicUpdates (s : SDK) : SDK :=
  match updateInterval (chartConfig s) with
  | Some interval =>
      if negb (interval =? 0) && truthy_string (currentTokenId s)
      then emit (PollingStarted interval) s else s
  | None => s
  end.

(** [fetchLatestCandle], from the point where [fetchSingleCandle] has
    answered with [fetched] ([None] for [null]; it never throws).  [now] is
    [Date.now()] in milliseconds. *)
Definition fetchLatestCandle (now : Z) (fetched : option Candle) (s : SDK) : SDK :=
  if negb (truthy_string (currentTokenId s)) then s
  else
    match fetched with
    | None => s
    | Some newCandle =>
        let cs :=
          match findIndex (fun candle => Timestamp candle =? Timestamp newCandle) (candles s) with
          | Some existingIndex => array_set (candles s) existingIndex newCandle
          | None => sort_by_timestamp (candles s ++ [newCandle])
          end in
        let maxCandles := or_default (maxCandles (chartConfig s)) 1000 in
        let cs :=
          if Z.of_nat (length cs) >? maxCandles then slice_from (- maxCandles) cs else cs in
        let cutoffTimestamp := now / 1000 - 24 * 60 * 60 in
        let cs := filter (fun candle => Timestamp candle >=? cutoffTimestamp) cs in
        notifyChartUpdate (set_lastUpdate (Some now) (set_candles cs s))
    end.

(** ** The history collaborator ([ApiService.fetchHistoryCandles]) *)

(** How the HTTP request ends: it fails (network error, error status), it
    answers with an empty body, or it answers with base64 text, for which
    [decoded] is what [base64ToUint8Array] returns ([None] when it throws). *)
Inductive http_outcome :=
| HttpFailed
| HttpEmptyBody
| HttpBase64 (decoded : option (list byte)).

(** Every failure inside the [try] ends in [catch], which returns [[]]. *)
Definition fetchHistoryCandles (response : http_outcome) : list Candle :=
  match response with
  | HttpFailed => []
  | HttpEmptyBody => []
  | HttpBase64 None => []
  | HttpBase64 (Some binaryData) =>
      match deserializeCandleData binaryData with
      | Ok candles => candles
      | Throw _ => []
      end
  end.

(** The outcomes in which the history fetch fails: the request errors, the
    body is not base64, or the decoded bytes are not a candle batch. *)
Definition history_fetch_fails (response : http_outcome) : bool :=
  match response with
  | HttpFailed => true
  | HttpEmptyBody => false
  | HttpBase64 None => true
  | HttpBase64 (Some binaryData) =>
      match deserializeCandleData binaryData with
      | Ok _ => false
      | Throw _ => true
      end
  end.

(** [initialize], with the answer of the history request as [response].
    Nothing in the [try] block throws, so its [catch] is not taken. *)
Definition initialize (now : Z) (tokenId : string) (connectWebSocket : bool)
  (response : http_outcome) (s : SDK) : SDK :=
  let s := set_currentTokenId (Some tokenId) s in
  let s := set_isLoading true s in
  let s := set_error None s in
  let s := set_candles [] s in
  let historicalCandles := fetchHistoryCandles response in
  let s := set_candles historicalCandles s in
  let s := set_lastUpdate (Some now) s in
  let s := startPeriodicUpdates s in
  let s := notifyChartUpdate s in
  let s := if connectWebSocket then emit ConnectionStarted s else s in
  set_isLoading false s.

(** ** The streaming connection ([WebSocketService]) *)

(** A parsed JSON text. *)
#[local] Unset Elimination Schemes.

Inductive json :=
| JNull
| JBool (b : bool)
| JNumber (x : Float64.number)
| JString (s : string)
| JArray (items : list json)
| JObject (members : list (string * json)).

#[local] Set Elimination Schemes.

Fixpoint assoc (key : string) (members : list (string * json)) : option json :=
  match members with
  | [] => None
  | (k, v) :: rest => if String.eqb k key then Some v else assoc key rest
  end.

(** [v.key] on a non-null value; [None] is [undefined], which is also what
    a number, a string, a boolean or an array answer for the keys read here. *)
Definition property (key : string) (v : json) : option json :=
  match v with
  | JObject members => assoc key members
  | _ => None
  end.

(** [x === 'literal']. *)
Definition is_string (x : option json) (literal : string) : bool :=
  match x with
  | Some (JString s) => String.eqb s literal
  | _ => false
  end.

(** A value in a condition. *)
Definition truthy (x : option json) : bool :=
  match x with
  | None | Some JNull => false
  | Some (JBool b) => b
  | Some (JNumber (S754_zero _)) | Some (JNumber S754_nan) => false
  | Some (JNumber _) => true
  | Some (JString s) => negb (String.eqb s EmptyString)
  | Some (JArray _) | Some (JObject _) => true
  end.

Inductive readyState := CONNECTING | OPEN | CLOSING | CLOSED.

Record WebSocketConfig := {
  cfg_reconnectDelay : option Z;
  cfg_maxReconnectAttempts : option Z
}.

(** What the service does to its surroundings, in order. *)
Inductive ws_effect :=
| SocketCreated
| ReconnectTimerSet (delay : Z)
| ErrorReported (message : string)
| Connected
| Disconnected
| SubscriptionChanged (subscribeId : option json).

Record WebSocketService := {
  config : WebSocketConfig;
  ws : option readyState;
  reconnectAttempts : Z;
  maxReconnectAttempts : Z;
  reconnectDelay : Z;
  isConnecting : bool;
  connectionTimeout : bool;
  subscribeId : option json;
  isSubscribed : bool;
  reconnectTimers : list Z;
  effects : list ws_effect
}.

Definition new_WebSocketService (cfg : WebSocketConfig) : WebSocketService :=
  {| config := cfg; ws := None; reconnectAttempts := 0;
     maxReconnectAttempts := or_default (cfg_maxReconnectAttempts cfg) 5;
     reconnectDelay := or_default (cfg_reconnectDelay cfg) 1000;
     isConnecting := false; connectionTimeout := false;
     subscribeId := None; isSubscribed := false;
     reconnectTimers := []; effects := [] |}.

Definition set_socket (r : option readyState) (connecting timeout : bool)
  (s : WebSocketService) : WebSocketService :=
  {| config := config s; ws := r; reconnectAttempts := reconnectAttempts s;
     maxReconnectAttempts := maxReconnectAttempts s;
     reconnectDelay := reconnectDelay s;
     isConnecting := connecting; connectionTimeout := timeout;
     subscribeId := subscribeId s; isSubscribed := isSubscribed s;
     reconnectTimers := reconnectTimers s; effects := effects s |}.

Definition set_reconnect (attempts delay : Z) (timers : list Z)
  (s : WebSocketService) : WebSocketService :=
  {| config := config s; ws := ws s; reconnectAttempts := attempts;
     maxReconnectAttempts := maxReconnectAttempts s;
     reconnectDelay := delay;
     isConnecting := isConnecting s; connectionTimeout := connectionTimeout s;
     subscribeId := subscribeId s; isSubscribed := isSubscribed s;
     reconnectTimers := timers; effects := effects s |}.

Definition set_subscription (id : option json) (subscribed : bool)
  (s : WebSocketService) : WebSocketService :=
  {| config := config s; ws := ws s; reconnectAttempts := reconnectAttempts s;
     maxReconnectAttempts := maxReconnectAttempts s;
     reconnectDelay := reconnectDelay s;
     isConnecting := isConnecting s; connectionTimeout := connectionTimeout s;
     subscribeId := id; isSubscribed := subscribed;
     reconnectTimers := reconnectTimers s; effects := effects s |}.

Definition perform (e : ws_effect) (s : WebSocketService) : WebSocketService :=
  {| config := config s; ws := ws s; reconnectAttempts := reconnectAttempts s;
     maxReconnectAttempts := maxReconnectAttempts s;
     reconnectDelay := reconnectDelay s;
     isConnecting := isConnecting s; connectionTimeout := connectionTimeout s;
     subscribeId := subscribeId s; isSubscribed := isSubscribed s;
     reconnectTimers := reconnectTimers s; effects := effects s ++ [e] |}.

(** [connect], for a URL the [WebSocket] constructor accepts: it opens a
    socket and arms the 5 s connection timeout, unless a connection attempt
    is already in progress. *)
Definition connect (s : WebSocketService) : WebSocketService :=
  if isConnecting s then s
  else perform SocketCreated (set_socket (Some CONNECTING) true true s).

(** [attemptReconnect]: below the maximum it counts the attempt, schedules
    [connect] after the current delay and doubles the delay up to 30 s; at
    the maximum it reports the error and schedules nothing. *)
Definition attemptReconnect (s : WebSocketService) : WebSocketService :=
  if reconnectAttempts s <? maxReconnectAttempts s then
    perform (ReconnectTimerSet (reconnectDelay s))
      (set_reconnect (reconnectAttempts s + 1)
         (Z.min (reconnectDelay s * 2) 30000)
         (reconnectTimers s ++ [reconnectDelay s]) s)
  else perform (ErrorReported "Failed to reconnect after maximum attempts") s.

(** The [onopen], [onclose] and [onerror] handlers installed by [connect]. *)
Definition ws_onopen (s : WebSocketService) : WebSocketService :=
  let s := set_socket (Some OPEN) false false s in
  let s := set_reconnect 0 (or_default (cfg_reconnectDelay (config s)) 1000)
             (reconnectTimers s) s in
  perform Connected s.

Definition ws_onclose (s : WebSocketService) : WebSocketService :=
  let s := set_socket (Some CLOSED) false false s in
  let s := perform Disconnected s in
  attemptReconnect s.

Definition ws_onerror (s : WebSocketService) : WebSocketService :=
  let s := set_socket (ws s) false false s in
  perform (ErrorReported "WebSocket connection error") s.

(** The callback that [attemptReconnect] hands to [setTimeout]. *)
Definition reconnect_timer_callback (s : WebSocketService) : WebSocketService :=
  if negb (isConnecting s) then connect s else s.

(** What can happen to the service from outside: the transport opens the
    socket, signals an error on it or closes it (these events reach only a
    socket that is not yet closed), and a pending reconnect timer expires.
    The socket events are those of the current socket, the one [this.ws]
    holds; the close event of a socket that [disconnect] has released is
    not among them: see [ws_onclose_released]. *)
Inductive ws_event :=
| SocketOpens
| SocketErrors
| SocketCloses
| ReconnectTimerExpires.

Definition ws_step (e : ws_event) (s : WebSocketService) : WebSocketService :=
  match e with
  | SocketOpens =>
      match ws s with
      | Some CONNECTING => ws_onopen s
      | _ => s
      end
  | SocketErrors =>
      match ws s with
      | Some CONNECTING | Some OPEN | Some CLOSING => ws_onerror s
      | _ => s
      end
  | SocketCloses =>
      match ws s with
      | Some CONNECTING | Some OPEN | Some CLOSING => ws_onclose s
      | _ => s
      end
  | ReconnectTimerExpires =>
      match reconnectTimers s with
      | [] => s
      | _ :: pending =>
          reconnect_timer_callback
            (set_reconnect (reconnectAttempts s) (reconnectDelay s) pending s)
      end
  end.

Definition ws_run (events : list ws_event) (s : WebSocketService) : WebSocketService :=
  fold_left (fun s e => ws_step e s) events s.

(** One failed connection: the socket closes, after an error event when
    [with_error] is set, and the retry timer, if one was set, expires and
    calls [connect]. *)
Definition connection_failure (with_error : bool) : list ws_event :=
  (if with_error then [SocketErrors] else []) ++ [SocketCloses; ReconnectTimerExpires].

Fixpoint consecutive_failures (with_error : bool) (n : nat) : list ws_event :=
  match n with
  | O => []
  | S k => connection_failure with_error ++ consecutive_failures with_error k
  end.

Definition is_exhausted (e : ws_effect) : bool :=
  match e with
  | ErrorReported m => String.eqb m "Failed to reconnect after maximum attempts"
  | _ => false
  end.

Definition is_timer (e : ws_effect) : bool :=
  match e with
  | ReconnectTimerSet _ => true
  | _ => false
  end.

Definition is_error (e : ws_effect) : bool :=
  match e with
  | ErrorReported _ => true
  | _ => false
  end.

Section TextMessages.

(** [JSON.parse]; [None] when it throws a [SyntaxError]. *)
Variable JSON_parse : string -> option json.

(** [message.replace('subscribe_id:', '')] when [message] starts with that
    prefix: the first occurrence is the prefix itself. *)
Definition drop_subscribe_id_prefix (message : string) : string :=
  String.substring 13 (String.length message - 13) message.

(** The legacy plain-text forms, handled in the [catch] of the JSON branch. *)
Definition handlePlainText (message : string) (s : WebSocketService) : WebSocketService :=
  if String.prefix "subscribe_id:" message then
    let subscribeId := drop_subscribe_id_prefix message in
    perform (SubscriptionChanged (Some (JString subscribeId)))
      (set_subscription (Some (JString subscribeId)) true s)
  else if String.eqb message "unsubscribed" then
    perform (SubscriptionChanged (Some (JString EmptyString)))
      (set_subscription None false s)
  else s.

(** [handleTextMessage].  Reading a property of [null] throws inside the
    inner [try], which lands in the plain-text branch like a parse error. *)
Definition handleTextMessage (message : string) (s : WebSocketService) : WebSocketService :=
  match JSON_parse message with
  | None | Some JNull => handlePlainText message s
  | Some jsonData =>
      if is_string (property "action" jsonData) "subscribed"
         && truthy (property "subscribe_id" jsonData)
      then
        perform (SubscriptionChanged (property "subscribe_id" jsonData))
          (set_subscription (property "subscribe_id" jsonData) true s)
      else if is_string (property "action" jsonData) "unsubscribed"
              && is_string (property "status" jsonData) "success"
      then
        perform (SubscriptionChanged (Some (JString EmptyString)))
          (set_subscription None false s)
      else s
  end.

End TextMessages.

(** ** Sample data *)

Definition sample_candle (timestamp open close high low : Z) : Candle :=
  {| OpenPrice := Float64.of_Z open; ClosePrice := Float64.of_Z close;
     HighPrice := Float64.of_Z high; LowPrice := Float64.of_Z low;
     VolumeIn := Float64.of_Z 100; VolumeOut := Float64.of_Z 10;
     Timestamp := timestamp |}.

Definition sample_trade (tradeTime usd amount : Z) : RealTimeTrade :=
  {| TradeTime := tradeTime; USD := Float64.of_Z usd; Amount := Float64.of_Z amount;
     Price := Float64.div (Float64.of_Z usd) (Float64.of_Z amount) |}.

(** A facade tracking a token, with the given series. *)
Definition sample_SDK (given : ChartConfig) (cs : list Candle) : SDK :=
  set_candles cs (set_currentTokenId (Some "token"%string) (new_SDK given)).

Definition no_ChartConfig : ChartConfig :=
  {| maxCandles := None; updateInterval := None |}.

(** A trade event of 24 bytes: time 100, USD 1.0, amount +0.0. *)
Definition zero_amount_payload : list byte :=
  le_split 8 100 ++ le_split 8 0x3FF0000000000000 ++ le_split 8 0.

(** A 28-byte buffer whose count field is 1. *)
Definition short_batch : list byte := le_split 4 1 ++ ArrayBuffer 24.

(** A service whose first connection attempt is under way, and one whose
    first connection is established. *)
Definition connecting (cfg : WebSocketConfig) : WebSocketService :=
  connect (new_WebSocketService cfg).

Definition connected (cfg : WebSocketConfig) : WebSocketService :=
  ws_step SocketOpens (connecting cfg).

Definition started (established : bool) (cfg : WebSocketConfig) : WebSocketService :=
  if established then connected cfg else connecting cfg.

Definition five_attempts (delay : option Z) : WebSocketConfig :=
  {| cfg_reconnectDelay := delay; cfg_maxReconnectAttempts := Some 5 |}.

(** The text [{"action":"subscribed","subscribe_id":"abc","status":"error"}]
    and what [JSON.parse] makes of it. *)
Definition quoted (s : string) : string :=
  String "034"%char (s ++ String "034"%char EmptyString)%string.

Definition rejected_ack_text : string :=
  ("{" ++ quoted "action" ++ ":" ++ quoted "subscribed" ++ ","
       ++ quoted "subscribe_id" ++ ":" ++ quoted "abc" ++ ","
       ++ quoted "status" ++ ":" ++ quoted "error" ++ "}")%string.

Definition rejected_ack : json :=
  JObject [("action", JString "subscribed"); ("subscribe_id", JString "abc");
           ("status", JString "error")]%string.

(** [JSON.parse] as far as the sample text goes. *)
Definition sample_JSON_parse (message : string) : option json :=
  if String.eqb message rejected_ack_text then Some rejected_ack else None.

(** ** The rest of the collaborator ([ApiService.fetchSingleCandle]) *)

(** The first candle of the decoded batch; [None] is [null], which is also
    what every failure inside the [try] ends in. *)
Definition fetchSingleCandle (response : http_outcome) : option Candle :=
  match response with
  | HttpFailed => None
  | HttpEmptyBody => None
  | HttpBase64 None => None
  | HttpBase64 (Some binaryData) =>
      match deserializeCandleData binaryData with
      | Ok [] => None
      | Ok (candle :: _) => Some candle
      | Throw _ => None
      end
  end.

(** One tick of the poll timer set by [startPeriodicUpdates], with the
    answer of the single-candle request as [response]. *)
Definition pollOnce (now : Z) (response : http_outcome) (s : SDK) : SDK :=
  fetchLatestCandle now (fetchSingleCandle response) s.

(** What the int64 field makes of an integer timestamp on the way through
    [setBigInt64], [getBigInt64] and [Number]. *)
Definition wire_timestamp (t : Z) : Z := Number_of_BigInt (asIntN64 t).

Definition wire_image (c : Candle) : Candle :=
  {| OpenPrice := OpenPrice c; ClosePrice := ClosePrice c;
     HighPrice := HighPrice c; LowPrice := LowPrice c;
     VolumeIn := VolumeIn c; VolumeOut := VolumeOut c;
     Timestamp := wire_timestamp (Timestamp c) |}.

Definition candle_floats (c : Candle) : bool :=
  Float64.is_float64 (OpenPrice c) && Float64.is_float64 (ClosePrice c)
  && Float64.is_float64 (HighPrice c) && Float64.is_float64 (LowPrice c)
  && Float64.is_float64 (VolumeIn c) && Float64.is_float64 (VolumeOut c).

(** ** The rest of the facade ([CryptoChartSDK]) *)

(** Timestamps in strictly increasing order. *)
Fixpoint strictly_increasing (ts : list Z) : bool :=
  match ts with
  | [] => true
  | t :: rest =>
      match rest with
      | [] => true
      | u :: _ => (t <? u) && strictly_increasing rest
      end
  end.

Definition chronological (cs : list Candle) : Prop :=
  strictly_increasing (map Timestamp cs) = true.

Definition before (a b : Candle) : Prop := Timestamp a < Timestamp b.

Definition set_chartConfig (c : ChartConfig) (s : SDK) : SDK :=
  {| candles := candles s; lastUpdate := lastUpdate s; isLoading := isLoading s;
     error := error s; currentTokenId := currentTokenId s;
     chartConfig := c; emitted := emitted s |}.

(** The cutoff of [cleanupOldData]:
    [Math.floor(Date.now() / 1000) - (olderThanHours * 60 * 60)].  The hours
    are any number, whole or not; [now] is [Date.now()], an integer number
    of milliseconds within the range of [Date], where the floor of the
    quotient is the exact one. *)
Definition cleanup_cutoff (now : Z) (olderThanHours : Float64.number) : Float64.number :=
  Float64.sub (Float64.of_Z (now / 1000))
    (Float64.mul (Float64.mul olderThanHours (Float64.of_Z 60)) (Float64.of_Z 60)).

(** [candle.Timestamp >= cutoffTimestamp]; false when the cutoff is NaN. *)
Definition not_older (cutoff : Float64.number) (candle : Candle) : bool :=
  Float64.ge (Float64.of_Z (Timestamp candle)) cutoff.

(** [cleanupOldData(olderThanHours)]. *)
Definition cleanupOldData (now : Z) (olderThanHours : Float64.number) (s : SDK) : SDK :=
  if (length (candles s) =? 0)%nat then s
  else
    let beforeCount := length (candles s) in
    let cutoffTimestamp := cleanup_cutoff now olderThanHours in
    let s := set_candles (filter (not_older cutoffTimestamp) (candles s)) s in
    let maxCandles := or_default (maxCandles (chartConfig s)) 1000 in
    let s := if Z.of_nat (length (candles s)) >? maxCandles
             then set_candles (slice_from (- maxCandles) (candles s)) s
             else s in
    let removedCount := Z.of_nat beforeCount - Z.of_nat (length (candles s)) in
    if removedCount >? 0 then notifyChartUpdate s else s.

(** [{ ...this.chartConfig, ...newConfig }]: the keys [newConfig] has win. *)
Definition merge_ChartConfig (old new : ChartConfig) : ChartConfig :=
  {| maxCandles := match maxCandles new with Some v => Some v | None => maxCandles old end;
     updateInterval :=
       match updateInterval new with Some v => Some v | None => updateInterval old end |}.

(** [updateChartConfig(newConfig)]. *)
Definition updateChartConfig (newConfig : ChartConfig) (s : SDK) : SDK :=
  let s := set_chartConfig (merge_ChartConfig (chartConfig s) newConfig) s in
  let s :=
    match maxCandles newConfig with
    | Some m =>
        if negb (m =? 0) && (Z.of_nat (length (candles s)) >? m)
        then notifyChartUpdate (set_candles (slice_from (- m) (candles s)) s)
        else s
    | None => s
    end in
  match updateInterval newConfig with
  | Some _ => startPeriodicUpdates s
  | None => s
  end.

(** The three steps of [fetchLatestCandle] on the series: replace the
    candle of the same timestamp or push and sort; keep the latest
    [maxCandles]; drop what is older than 24 hours. *)
Definition upsert (cs : list Candle) (newCandle : Candle) : list Candle :=
  match findIndex (fun candle => Timestamp candle =? Timestamp newCandle) cs with
  | Some existingIndex => array_set cs existingIndex newCandle
  | None => sort_by_timestamp (cs ++ [newCandle])
  end.

Definition limit_in_force (s : SDK) : Z := or_default (maxCandles (chartConfig s)) 1000.

Definition cap (limit : Z) (cs : list Candle) : list Candle :=
  if Z.of_nat (length cs) >? limit then slice_from (- limit) cs else cs.

Definition fresh (now : Z) (candle : Candle) : bool :=
  Timestamp candle >=? now / 1000 - 24 * 60 * 60.

(** The candle [handleRealTimeTrade] writes over the latest one. *)
Definition merged (latest : Candle) (trade : RealTimeTrade) : Candle :=
  {| OpenPrice := OpenPrice latest;
     ClosePrice := Price trade;
     HighPrice := Float64.Math_max (HighPrice latest) (Price trade);
     LowPrice := Float64.Math_min (LowPrice latest) (Price trade);
     VolumeIn := Float64.add (VolumeIn latest) (USD trade);
     VolumeOut := Float64.add (VolumeOut latest) (Amount trade);
     Timestamp := Timestamp latest |}.

(** The handler [setupWebSocketCallbacks] gives to [wsService.onError]. *)
Definition sdk_onError (message : string) (s : SDK) : SDK :=
  notifyError message (set_error (Some message) s).

(** ** The rest of the streaming connection ([WebSocketService]) *)

(** The requests of [types.ts]; [send] writes their JSON text. *)
Inductive WebSocketRequest :=
| SubscribeRequest (token_id : string)
| UnsubscribeRequest (subscribe_id : json).

Definition ws_isConnected (w : WebSocketService) : bool :=
  match ws w with
  | Some OPEN => true
  | _ => false
  end.

(** [send]: what is written to the socket, [None] when the message is
    dropped with a warning. *)
Definition ws_send (message : WebSocketRequest) (w : WebSocketService)
  : option WebSocketRequest :=
  if ws_isConnected w then Some message else None.

Definition ws_subscribe (tokenId : string) (w : WebSocketService)
  : option WebSocketRequest :=
  ws_send (SubscribeRequest tokenId) w.

Definition ws_unsubscribe (w : WebSocketService) : option WebSocketRequest :=
  if truthy (subscribeId w) then
    match subscribeId w with
    | Some id => ws_send (UnsubscribeRequest id) w
    | None => None
    end
  else None.

(** [disconnect]: the socket, if there is one, is told to close and is
    released; the subscription state is reset.  Timers are left alone. *)
Definition ws_disconnect (w : WebSocketService) : WebSocketService :=
  set_subscription None false
    (set_socket None (isConnecting w) (connectionTimeout w) w).

(** The [onclose] handler when it runs for a socket that [disconnect] has
    told to close and released.  The handler closes over the service, not
    over the socket: it does all it does for the current socket, but
    [this.ws], by now [null] or a newer socket, is not the socket that
    closed and keeps its state. *)
Definition ws_onclose_released (w : WebSocketService) : WebSocketService :=
  let w := set_socket (ws w) false false w in
  let w := perform Disconnected w in
  attemptReconnect w.

(** [handleBinaryMessage]: the trade handed to the trade callback, or the
    error report of the [catch]. *)
Definition handleBinaryMessage (data : list byte) (w : WebSocketService)
  : WebSocketService * option RealTimeTrade :=
  match deserializeRealTimeTradeData data with
  | Ok trade => (w, Some trade)
  | Throw _ => (perform (ErrorReported "Failed to deserialize binary data") w, None)
  end.

(** A binary frame arriving at a facade wired by [setupWebSocketCallbacks]:
    a decoded trade goes through [handleRealTimeTrade] and on to the
    consumer's trade callback, a decode failure goes to [sdk_onError]. *)
Definition receiveBinaryFrame (now : Z) (data : list byte)
  (w : WebSocketService) (s : SDK) : WebSocketService * SDK * option RealTimeTrade :=
  match handleBinaryMessage data w with
  | (w', Some trade) => (w', handleRealTimeTrade now trade s, Some trade)
  | (w', None) => (w', sdk_onError "Failed to deserialize binary data" s, None)
  end.

(** [CryptoChartSDK.subscribe(tokenId?)], with the service it talks to. *)
Definition subscribe (tokenId : option string) (w : WebSocketService) (s : SDK)
  : SDK * option WebSocketRequest :=
  let targetTokenId := if truthy_string tokenId then tokenId else currentTokenId s in
  if negb (truthy_string targetTokenId) then
    (notifyError "No token ID set. Call initialize() first." s, None)
  else if negb (ws_isConnected w) then
    (notifyError "WebSocket is not connected" s, None)
  else
    let s := if truthy_string tokenId then set_currentTokenId tokenId s else s in
    match targetTokenId with
    | Some target => (s, ws_subscribe target w)
    | None => (s, None)
    end.

(** The delays of the retry timers set so far. *)
Definition timer_delays (es : list ws_effect) : list Z :=
  flat_map (fun e => match e with ReconnectTimerSet d => [d] | _ => [] end) es.

(** The delay in force after [k] calls of [attemptReconnect] below the
    maximum, from the delay [d0]. *)
Fixpoint backoff (d0 : Z) (k : nat) : Z :=
  match k with
  | O => d0
  | S j => Z.min (backoff d0 j * 2) 30000
  end.

(** A service with a live socket and no retry timer pending. *)
Definition retrying (w : WebSocketService) : Prop :=
  (ws w = Some CONNECTING \/ ws w = Some OPEN) /\ reconnectTimers w = [].

(** The retries left before [attemptReconnect] gives up. *)
Definition retry_budget (w : WebSocketService) : nat :=
  Z.to_nat (maxReconnectAttempts w - reconnectAttempts w).

Definition subscription_consistent (w : WebSocketService) : Prop :=
  isSubscribed w = match subscribeId w with Some _ => true | None => false end.

(** * Sanity checks of the number model *)

Example Number_2p53_plus_1 : Number_of_BigInt (2 ^ 53 + 1) = 2 ^ 53.
Proof. reflexivity. Qed.

Example Number_2p53_plus_3 : Number_of_BigInt (2 ^ 53 + 3) = 2 ^ 53 + 4.
Proof. reflexivity. Qed.

Example Number_int64_max : Number_of_BigInt (2 ^ 63 - 1) = 2 ^ 63.
Proof. reflexivity. Qed.

Example of_Z_ten : Float64.of_Z 10 = S754_finite false 5629499534213120 (-49).
Proof. reflexivity. Qed.

Example to_bits_one : Float64.to_bits (Float64.of_Z 1) = 0x3FF0000000000000.
Proof. reflexivity. Qed.

Example to_bits_minus_two : Float64.to_bits (Float64.of_Z (-2)) = 0xC000000000000000.
Proof. reflexivity. Qed.

Example of_bits_ten : Float64.of_bits 0x4024000000000000 = Float64.of_Z 10.
Proof. reflexivity. Qed.

Example of_bits_special :
  Float64.of_bits 0x7FF0000000000000 = S754_infinity false
  /\ Float64.of_bits 0xFFF0000000000000 = S754_infinity true
  /\ Float64.of_bits 0x7FF0000000000001 = Float64.NaN
  /\ Float64.of_bits 0x8000000000000000 = S754_zero true
  /\ Float64.of_bits 1 = S754_finite false 1 (-1074).
Proof. repeat split. Qed.

Example sample_values_are_float64 :
  forallb candle_on_wire [sample_candle 60 10 10 11 9; sample_candle 120 10 12 12 10] = true
  /\ Float64.is_float64 (Price (sample_trade 125 1 3)) = true.
Proof. split; reflexivity. Qed.

(** The rounding of a product or a difference of integers, against
    [SFmul] and [SFsub], and [Math.floor] of a quotient. *)
Example number_mul_is_SFmul :
  Float64.mul (Float64.of_Z 1192861731021625) (Float64.of_Z 60)
  = Float64.of_Z (number_mul 1192861731021625 60)
  /\ number_mul 1192861731021625 60 = 71571703861297504
  /\ 1192861731021625 * 60 = 71571703861297500.
Proof. repeat split. Qed.

Example number_sub_is_SFsub :
  Float64.sub (Float64.of_Z (15 * 2 ^ 59)) (Float64.of_Z 3600)
  = Float64.of_Z (number_sub (15 * 2 ^ 59) 3600)
  /\ number_sub (15 * 2 ^ 59) 3600 = 15 * 2 ^ 59 - 4096
  /\ Float64.sub (Float64.of_Z 120) (Float64.of_Z 60) = Float64.of_Z (number_sub 120 60).
Proof. repeat split. Qed.

Example number_arithmetic_samples :
  length rounding_samples = 3157%nat
  /\ forallb rounds_as_binary64 rounding_samples = true.
Proof. split; vm_compute; reflexivity. Qed.

Example floor_div_samples :
  floor_div 125 60 = 2 /\ floor_div (-1) 60 = -1 /\ floor_div (-60) 60 = -1
  /\ floor_div 59 60 = 0 /\ floor_div 71571703861297496 60 = 1192861731021625
  /\ floor_div (2 ^ 63) 60 = 153722867280912928.
Proof. repeat split. Qed.

Example quotient_by_zero :
  Float64.div (Float64.of_Z 1) (S754_zero false) = S754_infinity false
  /\ Float64.div (S754_zero false) (S754_zero false) = Float64.NaN.
Proof. split; reflexivity. Qed.

Example Math_max_zeros :
  Float64.Math_max (S754_zero true) (S754_zero false) = S754_zero false
  /\ Float64.Math_max (S754_zero false) (S754_zero true) = S754_zero false.
Proof. split; reflexivity. Qed.

Example sort_is_stable :
  map Timestamp (sort_by_timestamp
    [sample_candle 120 1 1 1 1; sample_candle 60 2 2 2 2; sample_candle 120 3 3 3 3])
  = [60; 120; 120]
  /\ map OpenPrice (sort_by_timestamp
    [sample_candle 120 1 1 1 1; sample_candle 60 2 2 2 2; sample_candle 120 3 3 3 3])
  = [Float64.of_Z 2; Float64.of_Z 1; Float64.of_Z 3].
Proof. split; reflexivity. Qed.

Example legacy_acknowledgement :
  subscribeId (handleTextMessage sample_JSON_parse "subscribe_id:abc"
                 (new_WebSocketService (five_attempts None)))
  = Some (JString "abc").
Proof. reflexivity. Qed.

(** * Facts about binary64 values *)

Lemma digits2_pos_bounds (m : positive) :
  2 ^ (Zpos (digits2_pos m) - 1) <= Zpos m < 2 ^ Zpos (digits2_pos m).
Proof.
  induction m as [m IH | m IH |]; cbn [digits2_pos].
  - rewrite Pos2Z.inj_succ.
    replace (Z.succ (Zpos (digits2_pos m)) - 1) with (Z.succ (Zpos (digits2_pos m) - 1)) by lia.
    rewrite !Z.pow_succ_r by lia. lia.
  - rewrite Pos2Z.inj_succ.
    replace (Z.succ (Zpos (digits2_pos m)) - 1) with (Z.succ (Zpos (digits2_pos m) - 1)) by lia.
    rewrite !Z.pow_succ_r by lia. lia.
  - cbn. lia.
Qed.

(** A finite binary64 value has an exponent in [-1074, 971] and a mantissa
    below [2^53], which reaches [2^52] unless the exponent is minimal. *)
Lemma is_float64_finite (s : bool) (m : positive) (e : Z) :
  Float64.is_float64 (S754_finite s m e) = true ->
  -1074 <= e <= 971 /\ Zpos m < 2 ^ 53 /\ (2 ^ 52 <= Zpos m \/ e = -1074).
Proof.
  unfold Float64.is_float64, valid_binary, bounded, canonical_mantissa, fexp, emin,
    Float64.prec, Float64.emax.
  intros H. apply andb_true_iff in H. destruct H as [Hc He].
  apply Z.eqb_eq in Hc. apply Z.leb_le in He.
  pose proof (digits2_pos_bounds m) as [Hlo Hhi].
  set (d := Zpos (digits2_pos m)) in *.
  assert (Hd : d <= 53) by lia.
  assert (Hm : Zpos m < 2 ^ 53).
  { apply Z.lt_le_trans with (2 ^ d); [exact Hhi|]. apply Z.pow_le_mono_r; lia. }
  split; [lia|]. split; [exact Hm|].
  destruct (Z.eq_dec e (-1074)) as [->|Hne]; [now right|left].
  assert (d = 53) by lia. subst d. rewrite H in Hlo. exact Hlo.
Qed.

(** The three fields of a 64-bit pattern: sign, biased exponent, fraction. *)
Lemma bit_fields (s : bool) (E f : Z) :
  0 <= E < 2048 -> 0 <= f < 2 ^ 52 ->
  let b := Float64.sign_bit s + (E * 2 ^ 52 + f) in
  (2 ^ 63 <=? b) = s /\ (b / 2 ^ 52) mod 2048 = E /\ b mod 2 ^ 52 = f.
Proof.
  intros HE Hf b. subst b. unfold Float64.sign_bit. destruct s.
  - replace (2 ^ 63 + (E * 2 ^ 52 + f)) with (f + (E + 1 * 2048) * 2 ^ 52) by lia.
    split; [apply Z.leb_le; nia|].
    rewrite Z.div_add, Z.mod_add, Z.div_small by lia. cbn [Z.add].
    rewrite Z.mod_add by lia. split; apply Z.mod_small; lia.
  - replace (0 + (E * 2 ^ 52 + f)) with (f + E * 2 ^ 52) by lia.
    split; [apply Z.leb_gt; nia|].
    rewrite Z.div_add, Z.mod_add, Z.div_small by lia. cbn [Z.add].
    split; apply Z.mod_small; lia.
Qed.

Lemma to_bits_range (x : Float64.number) :
  Float64.is_float64 x = true -> 0 <= Float64.to_bits x < 2 ^ 64.
Proof.
  destruct x as [s | s | | s m e]; intros H; unfold Float64.to_bits, Float64.sign_bit.
  - destruct s; lia.
  - destruct s; lia.
  - lia.
  - apply is_float64_finite in H. destruct s; nia.
Qed.

(** Reading back the pattern of a binary64 value gives that value. *)
Lemma of_bits_to_bits (x : Float64.number) :
  Float64.is_float64 x = true -> Float64.of_bits (Float64.to_bits x) = x.
Proof.
  destruct x as [s | s | | s m e]; intros H;
    [destruct s; reflexivity | destruct s; reflexivity | reflexivity |].
  apply is_float64_finite in H. destruct H as (He & Hm & Hn).
  unfold Float64.of_bits, Float64.to_bits.
  destruct (Z_lt_le_dec (Z.pos m) (2 ^ 52)) as [Hsub | Hnorm].
  - assert (e = -1074) by lia. subst e.
    replace ((-1074 + 1074) * 2 ^ 52 + Z.pos m) with (0 * 2 ^ 52 + Z.pos m) by lia.
    destruct (bit_fields s 0 (Z.pos m)) as (-> & -> & ->); [lia | lia |].
    reflexivity.
  - replace ((e + 1074) * 2 ^ 52 + Z.pos m)
      with ((e + 1075) * 2 ^ 52 + (Z.pos m - 2 ^ 52)) by lia.
    destruct (bit_fields s (e + 1075) (Z.pos m - 2 ^ 52)) as (-> & -> & ->); [lia | lia |].
    destruct (Z.eqb_spec (e + 1075) 0); [lia|].
    destruct (Z.eqb_spec (e + 1075) 2047); [lia|].
    f_equal; [|lia].
    replace (Z.pos m - 2 ^ 52 + 2 ^ 52) with (Z.pos m) by lia. reflexivity.
Qed.

(** * Facts about integers on the wire *)

Lemma asIntN64_id (t : Z) : - 2 ^ 63 <= t < 2 ^ 63 -> asIntN64 (t mod 2 ^ 64) = t.
Proof.
  intros H. unfold asIntN64. rewrite Z.mod_mod by lia.
  destruct (Z_lt_le_dec t 0) as [Hneg | Hpos].
  - replace (t mod 2 ^ 64) with (t + 2 ^ 64).
    + destruct (Z.ltb_spec (t + 2 ^ 64) (2 ^ 63)); lia.
    + apply Z.mod_unique with (-1); lia.
  - rewrite Z.mod_small by lia.
    destruct (Z.ltb_spec t (2 ^ 63)); lia.
Qed.

Lemma Number_of_float64_integer (v : Z) :
  is_float64_integer v = true -> Number_of_BigInt v = v.
Proof.
  unfold is_float64_integer, Number_of_BigInt. intros H.
  destruct (Z.ltb_spec (Z.abs v) (2 ^ 53)) as [Hsmall | Hbig]; [reflexivity|].
  cbn [orb] in H. apply Z.eqb_eq in H.
  assert (Hlog : 53 <= Z.log2 (Z.abs v)) by (apply Z.log2_le_pow2; lia).
  set (sh := Z.log2 (Z.abs v) - 52) in *.
  assert (Hhalf : 0 < 2 ^ (sh - 1)) by (apply Z.pow_pos_nonneg; lia).
  rewrite H.
  destruct (Z.ltb_spec (2 ^ (sh - 1)) 0); [lia|].
  destruct (Z.eqb_spec 0 (2 ^ (sh - 1))); [lia|].
  cbn [orb andb].
  assert (Hpow : 0 < 2 ^ sh) by (apply Z.pow_pos_nonneg; lia).
  pose proof (Z.div_mod (Z.abs v) (2 ^ sh) ltac:(lia)) as Hdm.
  rewrite H in Hdm.
  replace (Z.abs v / 2 ^ sh * 2 ^ sh) with (Z.abs v) by lia.
  rewrite Z.mul_comm. apply Z.abs_sgn.
Qed.

Lemma int64_number_roundtrip (t : Z) :
  int64_number t = true ->
  Number_of_BigInt (asIntN64 (le_combine (le_split 8 t))) = t.
Proof.
  unfold int64_number. intros H.
  apply andb_true_iff in H. destruct H as [H Hf].
  apply andb_true_iff in H. destruct H as [Hlo Hhi].
  apply Z.leb_le in Hlo. apply Z.ltb_lt in Hhi.
  rewrite le_combine_split. change (Z.of_nat 8 * 8) with 64.
  rewrite asIntN64_id by lia. apply Number_of_float64_integer, Hf.
Qed.

Lemma float64_roundtrip (x : Float64.number) :
  Float64.is_float64 x = true ->
  Float64.of_bits (le_combine (le_split 8 (Float64.to_bits x))) = x.
Proof.
  intros H. rewrite le_combine_split. change (Z.of_nat 8 * 8) with 64.
  rewrite Z.mod_small by (apply to_bits_range, H).
  apply of_bits_to_bits, H.
Qed.

(** * Facts about the DataView accessors *)

Lemma view_get_here (bs rest : list byte) (n : nat) :
  n = length bs -> view_get (bs ++ rest) 0 n = Ok bs.
Proof.
  intros ->. unfold view_get. rewrite length_app.
  destruct (Nat.leb_spec (0 + length bs) (length bs + length rest)); [|lia].
  cbn [skipn]. rewrite firstn_app, Nat.sub_diag, firstn_all. cbn [firstn].
  now rewrite app_nil_r.
Qed.

Lemma view_get_after (pre data : list byte) (k off n : nat) :
  k = length pre -> view_get (pre ++ data) (k + off) n = view_get data off n.
Proof.
  intros ->. unfold view_get. rewrite length_app.
  replace (length pre + off + n <=? length pre + length data)%nat
    with (off + n <=? length data)%nat.
  - rewrite skipn_app, skipn_all2 by lia.
    replace (length pre + off - length pre)%nat with off by lia. reflexivity.
  - destruct (Nat.leb_spec (off + n) (length data));
      destruct (Nat.leb_spec (length pre + off + n) (length pre + length data)); lia.
Qed.

Lemma skipn_repeat_sub {A : Type} (x : A) (k n : nat) :
  skipn k (repeat x n) = repeat x (n - k).
Proof.
  revert n. induction k as [|k IH]; intros n.
  - now rewrite Nat.sub_0_r.
  - destruct n as [|n]; [reflexivity|]. cbn [repeat skipn]. apply IH.
Qed.

(** Writing at the end of the part written so far of a zeroed buffer. *)
Lemma view_set_fill (written bs : list byte) (off free : nat) :
  off = length written -> (length bs <= free)%nat ->
  view_set (written ++ ArrayBuffer free) off bs
  = Ok ((written ++ bs) ++ ArrayBuffer (free - length bs)).
Proof.
  intros -> Hfree. unfold view_set, ArrayBuffer.
  rewrite length_app, repeat_length.
  destruct (Nat.leb_spec (length written + length bs) (length written + free)); [|lia].
  rewrite firstn_app, Nat.sub_diag, firstn_all. cbn [firstn]. rewrite app_nil_r.
  rewrite skipn_app, skipn_all2 by lia.
  replace (length written + length bs - length written)%nat with (length bs) by lia.
  rewrite skipn_repeat_sub. cbn [app]. now rewrite <- app_assoc.
Qed.

(** * The candle batch on the wire *)

Lemma length_candle_bytes (c : Candle) : length (candle_bytes c) = 56%nat.
Proof. unfold candle_bytes. rewrite !length_app, !length_le_split. reflexivity. Qed.

Lemma length_concat_candle_bytes (cs : list Candle) :
  length (concat (map candle_bytes cs)) = (length cs * 56)%nat.
Proof.
  induction cs as [|c cs IH]; [reflexivity|].
  cbn [map concat length]. rewrite length_app, length_candle_bytes, IH. lia.
Qed.

Lemma length_batch_bytes (cs : list Candle) :
  length (batch_bytes cs) = (4 + length cs * 56)%nat.
Proof.
  unfold batch_bytes. now rewrite length_app, length_le_split, length_concat_candle_bytes.
Qed.

Ltac fill_field :=
  rewrite view_set_fill by (rewrite ?length_app, ?length_le_split; lia);
  cbn [bind]; rewrite length_le_split.

Lemma write_candle_fill (written : list byte) (off free : nat) (c : Candle) :
  off = length written ->
  write_candle (written ++ ArrayBuffer (56 + free)) off c
  = Ok ((written ++ candle_bytes c) ++ ArrayBuffer free).
Proof.
  intros ->. unfold write_candle, setBigInt64, setFloat64, candle_bytes.
  do 6 fill_field.
  rewrite view_set_fill by (rewrite ?length_app, ?length_le_split; lia).
  rewrite length_le_split.
  replace (56 + free - 8 - 8 - 8 - 8 - 8 - 8 - 8)%nat with free by lia.
  now rewrite <- !app_assoc.
Qed.

Lemma write_candles_fill (cs : list Candle) :
  forall (written : list byte) (off free : nat),
    off = length written ->
    write_candles (written ++ ArrayBuffer (length cs * 56 + free)) off cs
    = Ok ((written ++ concat (map candle_bytes cs)) ++ ArrayBuffer free).
Proof.
  induction cs as [|c cs IH]; intros written off free ->.
  - cbn. now rewrite app_nil_r.
  - cbn [write_candles length map concat].
    replace (S (length cs) * 56 + free)%nat with (56 + (length cs * 56 + free))%nat by lia.
    rewrite write_candle_fill by reflexivity. cbn [bind].
    rewrite IH by (rewrite length_app, length_candle_bytes; lia).
    now rewrite <- !app_assoc.
Qed.

(** The encoder never throws, and its output is the count followed by the
    records. *)
Lemma createMockBinaryData_bytes (cs : list Candle) :
  createMockBinaryData cs = Ok (batch_bytes cs ++ ArrayBuffer (length cs * 8)).
Proof.
  unfold createMockBinaryData, setUint32, batch_bytes.
  change (ArrayBuffer (4 + length cs * 64)) with ([] ++ ArrayBuffer (4 + length cs * 64)).
  rewrite view_set_fill by (rewrite ?length_le_split; cbn [length]; lia).
  cbn [bind app]. rewrite length_le_split.
  replace (4 + length cs * 64 - 4)%nat with (length cs * 56 + length cs * 8)%nat by lia.
  rewrite write_candles_fill by (now rewrite length_le_split).
  reflexivity.
Qed.

Lemma candle_on_wire_fields (c : Candle) :
  candle_on_wire c = true ->
  int64_number (Timestamp c) = true
  /\ Float64.is_float64 (OpenPrice c) = true /\ Float64.is_float64 (ClosePrice c) = true
  /\ Float64.is_float64 (HighPrice c) = true /\ Float64.is_float64 (LowPrice c) = true
  /\ Float64.is_float64 (VolumeIn c) = true /\ Float64.is_float64 (VolumeOut c) = true.
Proof.
  unfold candle_on_wire. intros H.
  do 6 (apply andb_true_iff in H; destruct H as [H ?]).
  repeat split; assumption.
Qed.

Ltac skip_field off :=
  rewrite (view_get_after (le_split 8 _) _ 8 off) by (now rewrite length_le_split).

Ltac read_field :=
  rewrite view_get_here by (now rewrite length_le_split); cbn [bind].

Lemma read_candle_bytes (pre rest : list byte) (off : nat) (c : Candle) :
  off = length pre -> candle_on_wire c = true ->
  read_candle (pre ++ candle_bytes c ++ rest) off = Ok c.
Proof.
  intros -> Hc. apply candle_on_wire_fields in Hc.
  destruct Hc as (Ht & Ho & Hcl & Hh & Hl & Hvi & Hvo).
  unfold read_candle, getBigInt64, getFloat64, candle_bytes.
  rewrite <- (Nat.add_0_r (length pre)) at 1.
  rewrite !view_get_after by reflexivity.
  rewrite <- !app_assoc.
  read_field.
  skip_field 0%nat. read_field.
  skip_field 8%nat. skip_field 0%nat. read_field.
  skip_field 16%nat. skip_field 8%nat. skip_field 0%nat. read_field.
  skip_field 24%nat. skip_field 16%nat. skip_field 8%nat. skip_field 0%nat. read_field.
  skip_field 32%nat. skip_field 24%nat. skip_field 16%nat. skip_field 8%nat.
  skip_field 0%nat. read_field.
  skip_field 40%nat. skip_field 32%nat. skip_field 24%nat. skip_field 16%nat.
  skip_field 8%nat. skip_field 0%nat. read_field.
  rewrite int64_number_roundtrip by assumption.
  rewrite !float64_roundtrip by assumption.
  destruct c; reflexivity.
Qed.

Lemma read_candles_bytes (cs : list Candle) :
  forall (pre rest : list byte) (off : nat),
    off = length pre -> forallb candle_on_wire cs = true ->
    read_candles (pre ++ concat (map candle_bytes cs) ++ rest) (length cs) off = Ok cs.
Proof.
  induction cs as [|c cs IH]; intros pre rest off -> Hcs; [reflexivity|].
  cbn [forallb] in Hcs. apply andb_true_iff in Hcs. destruct Hcs as [Hc Hcs].
  cbn [read_candles length map concat].
  rewrite <- app_assoc.
  rewrite read_candle_bytes by auto. cbn [bind].
  replace (pre ++ candle_bytes c ++ concat (map candle_bytes cs) ++ rest)
    with ((pre ++ candle_bytes c) ++ concat (map candle_bytes cs) ++ rest)
    by (now rewrite <- app_assoc).
  rewrite IH by (rewrite ?length_app, ?length_candle_bytes; auto).
  reflexivity.
Qed.

Lemma deserialize_batch_bytes (cs : list Candle) :
  Z.of_nat (length cs) < 2 ^ 32 -> forallb candle_on_wire cs = true ->
  deserializeCandleData (batch_bytes cs ++ ArrayBuffer (length cs * 8)) = Ok cs.
Proof.
  intros Hlen Hcs. unfold deserializeCandleData, getUint32.
  unfold batch_bytes at 1. rewrite <- app_assoc.
  rewrite view_get_here by (now rewrite length_le_split). cbn [bind].
  rewrite le_combine_split. change (Z.of_nat 4 * 8) with 32.
  rewrite Z.mod_small by lia.
  unfold byteLength. rewrite length_app, length_batch_bytes.
  unfold ArrayBuffer at 1. rewrite repeat_length.
  destruct (Z.eqb_spec (Z.of_nat (4 + length cs * 56 + length cs * 8))
              (4 + Z.of_nat (length cs) * 64)); [|lia].
  cbn [negb]. rewrite Nat2Z.id. unfold batch_bytes. rewrite <- app_assoc.
  apply read_candles_bytes; [now rewrite length_le_split | exact Hcs].
Qed.

Lemma encodeTrade_bytes (t : RealTimeTrade) :
  encodeTrade t
  = Ok (le_split 8 (TradeTime t) ++ le_split 8 (Float64.to_bits (USD t))
        ++ le_split 8 (Float64.to_bits (Amount t))).
Proof.
  unfold encodeTrade, setBigInt64, setFloat64.
  change (ArrayBuffer 24) with ([] ++ ArrayBuffer 24).
  rewrite view_set_fill by (rewrite ?length_le_split; cbn [length]; lia).
  cbn [bind app]. rewrite length_le_split.
  rewrite view_set_fill by (rewrite ?length_le_split; lia).
  cbn [bind]. rewrite length_le_split.
  rewrite view_set_fill by (rewrite ?length_app, ?length_le_split; lia).
  rewrite length_le_split. cbn [Nat.sub ArrayBuffer repeat].
  now rewrite app_nil_r, <- app_assoc.
Qed.

Lemma deserialize_encoded_trade (t : RealTimeTrade) :
  trade_on_wire t = true ->
  deserializeRealTimeTradeData
    (le_split 8 (TradeTime t) ++ le_split 8 (Float64.to_bits (USD t))
     ++ le_split 8 (Float64.to_bits (Amount t)))
  = Ok {| TradeTime := TradeTime t; USD := USD t; Amount := Amount t;
          Price := Float64.div (USD t) (Amount t) |}.
Proof.
  unfold trade_on_wire. intros H.
  do 2 (apply andb_true_iff in H; destruct H as [H ?]).
  unfold deserializeRealTimeTradeData, byteLength, getBigInt64, getFloat64.
  rewrite !length_app, !length_le_split. cbn [Nat.add Z.of_nat Z.eqb negb Pos.eqb Pos.of_succ_nat Pos.succ].
  read_field.
  skip_field 0%nat. read_field.
  skip_field 8%nat. skip_field 0%nat.
  rewrite <- (app_nil_r (le_split 8 (Float64.to_bits (Amount t)))).
  read_field.
  rewrite int64_number_roundtrip by assumption.
  rewrite !float64_roundtrip by assumption.
  reflexivity.
Qed.

(** * The size check of the candle decoder *)

Lemma view_get_in_bounds (data : list byte) (off n : nat) :
  (off + n <= length data)%nat -> exists bs, view_get data off n = Ok bs.
Proof.
  intros H. unfold view_get.
  destruct (Nat.leb_spec (off + n) (length data)); [eauto | lia].
Qed.

Lemma read_candle_in_bounds (data : list byte) (off : nat) :
  (off + 56 <= length data)%nat -> exists c, read_candle data off = Ok c.
Proof.
  intros H. unfold read_candle, getBigInt64, getFloat64.
  destruct (view_get_in_bounds data off 8) as [b0 ->]; [lia|].
  destruct (view_get_in_bounds data (off + 8) 8) as [b1 ->]; [lia|].
  destruct (view_get_in_bounds data (off + 16) 8) as [b2 ->]; [lia|].
  destruct (view_get_in_bounds data (off + 24) 8) as [b3 ->]; [lia|].
  destruct (view_get_in_bounds data (off + 32) 8) as [b4 ->]; [lia|].
  destruct (view_get_in_bounds data (off + 40) 8) as [b5 ->]; [lia|].
  destruct (view_get_in_bounds data (off + 48) 8) as [b6 ->]; [lia|].
  cbn [bind]. eauto.
Qed.

Lemma read_candles_in_bounds (data : list byte) (n : nat) :
  forall off : nat,
    (off + 56 * n <= length data)%nat ->
    exists cs, read_candles data n off = Ok cs /\ length cs = n.
Proof.
  induction n as [|n IH]; intros off H; cbn [read_candles].
  - exists []. split; reflexivity.
  - destruct (read_candle_in_bounds data off) as [c ->]; [lia|].
    destruct (IH (off + 56)%nat) as (cs & -> & Hlen); [lia|].
    cbn [bind]. exists (c :: cs). split; [reflexivity|]. cbn [length]. now rewrite Hlen.
Qed.

(** C5.  On a buffer of at least 4 bytes the count can be read, and
    [deserializeCandleData] throws its [Invalid data size] error exactly
    when the length differs from [4 + count * 64]: it throws that error when
    the length differs, and returns [count] candles when it does not.  A
    28-byte buffer announcing one candle is refused with that error. *)
Theorem deserializeCandleData_size_check :
  (forall data : list byte,
      (4 <= length data)%nat ->
      exists count,
        getUint32 data 0 = Ok count
        /\ (byteLength data <> 4 + count * 64 ->
            deserializeCandleData data
            = Throw (InvalidDataSize (4 + count * 64) (byteLength data)))
        /\ (byteLength data = 4 + count * 64 ->
            exists cs, deserializeCandleData data = Ok cs
                       /\ Z.of_nat (length cs) = count))
  /\ (forall data : list byte,
         length data = 28%nat -> getUint32 data 0 = Ok 1 ->
         deserializeCandleData data = Throw (InvalidDataSize 68 28)).
Proof.
  split.
  - intros data Hlen.
    destruct (view_get_in_bounds data 0 4) as [bs Hbs]; [lia|].
    exists (le_combine bs). unfold deserializeCandleData, getUint32. rewrite Hbs.
    cbn [bind]. split; [reflexivity|].
    assert (Hcount : 0 <= le_combine bs) by apply le_combine_bound.
    split; intros Hsize.
    + destruct (Z.eqb_spec (byteLength data) (4 + le_combine bs * 64)); [contradiction|].
      reflexivity.
    + destruct (Z.eqb_spec (byteLength data) (4 + le_combine bs * 64)); [|contradiction].
      cbn [negb]. unfold byteLength in Hsize.
      destruct (read_candles_in_bounds data (Z.to_nat (le_combine bs)) 4) as (cs & Hcs & Hn);
        [lia|].
      exists cs. split; [exact Hcs|]. rewrite Hn. lia.
  - intros data Hlen Hcount. unfold deserializeCandleData. rewrite Hcount.
    cbn [bind]. unfold byteLength. rewrite Hlen. reflexivity.
Qed.

(** * The order on JavaScript numbers *)

Module Float64Order.

Ltac order_cases :=
  repeat match goal with
    | |- context [Z.compare ?a ?b] => destruct (Z.compare_spec a b)
    | H : context [Z.compare ?a ?b] |- _ => destruct (Z.compare_spec a b)
    | |- context [Pos.compare ?a ?b] => destruct (Pos.compare_spec a b)
    | H : context [Pos.compare ?a ?b] |- _ => destruct (Pos.compare_spec a b)
    end;
  cbn [CompOpp] in *; try reflexivity; try discriminate; try lia.

Lemma le_trans (a b c : Float64.number) :
  Float64.le a b = true -> Float64.le b c = true -> Float64.le a c = true.
Proof.
  unfold Float64.le, SFleb, SFcompare.
  change (Pos.compare_cont Eq) with Pos.compare.
  destruct a as [sa | sa | | sa ma ea], b as [sb | sb | | sb mb eb],
    c as [sc | sc | | sc mc ec];
    try discriminate; try reflexivity;
    try (destruct sa); try (destruct sb); try (destruct sc);
    try discriminate; try reflexivity; intros Hab Hbc; order_cases.
Qed.

Lemma le_refl (a : Float64.number) : Float64.isNaN a = false -> Float64.le a a = true.
Proof.
  unfold Float64.le, SFleb, SFcompare.
  change (Pos.compare_cont Eq) with Pos.compare.
  destruct a as [s | s | | s m e]; try discriminate; intros _;
    destruct s; try reflexivity; rewrite Z.compare_refl, Pos.compare_refl; reflexivity.
Qed.

(** On numbers other than NaN the order is total. *)
Lemma not_lt_le (a b : Float64.number) :
  Float64.isNaN a = false -> Float64.isNaN b = false ->
  Float64.lt a b = false -> Float64.le b a = true.
Proof.
  unfold Float64.lt, Float64.le, SFltb, SFleb, SFcompare.
  change (Pos.compare_cont Eq) with Pos.compare.
  destruct a as [sa | sa | | sa ma ea], b as [sb | sb | | sb mb eb];
    try discriminate; intros _ _;
    try (destruct sa); try (destruct sb);
    try discriminate; try reflexivity; intros Hab; order_cases.
Qed.

Lemma lt_le (a b : Float64.number) : Float64.lt a b = true -> Float64.le a b = true.
Proof.
  unfold Float64.lt, Float64.le, SFltb, SFleb.
  destruct (SFcompare a b) as [[ | | ]|]; congruence.
Qed.

Lemma le_not_NaN (a b : Float64.number) :
  Float64.le a b = true -> Float64.isNaN a = false /\ Float64.isNaN b = false.
Proof.
  destruct a, b; cbn; try discriminate; auto.
Qed.

Lemma Math_max_cases (a b : Float64.number) :
  Float64.isNaN a = false -> Float64.isNaN b = false ->
  Float64.Math_max a b = a \/ Float64.Math_max a b = b.
Proof.
  intros Ha Hb. unfold Float64.Math_max.
  destruct a as [[|] | | |], b as [[|] | | |]; try discriminate; auto;
    match goal with |- context [if ?c then _ else _] => destruct c end; auto.
Qed.

Lemma Math_min_cases (a b : Float64.number) :
  Float64.isNaN a = false -> Float64.isNaN b = false ->
  Float64.Math_min a b = a \/ Float64.Math_min a b = b.
Proof.
  intros Ha Hb. unfold Float64.Math_min.
  destruct a as [[|] | | |], b as [[|] | | |]; try discriminate; auto;
    match goal with |- context [if ?c then _ else _] => destruct c end; auto.
Qed.

Lemma Math_max_upper (a b : Float64.number) :
  Float64.isNaN a = false -> Float64.isNaN b = false ->
  Float64.le a (Float64.Math_max a b) = true /\ Float64.le b (Float64.Math_max a b) = true.
Proof.
  intros Ha Hb.
  assert (Hcases : Float64.Math_max a b = (if Float64.lt a b then b else a)
                   \/ (exists sa sb, a = S754_zero sa /\ b = S754_zero sb)).
  { unfold Float64.Math_max.
    destruct a as [[|] | | |], b as [[|] | | |]; try discriminate; eauto. }
  destruct Hcases as [-> | (sa & sb & -> & ->)].
  - destruct (Float64.lt a b) eqn:Hlt.
    + split; [apply lt_le, Hlt | apply le_refl, Hb].
    + split; [apply le_refl, Ha | apply not_lt_le; assumption].
  - destruct sa, sb; split; reflexivity.
Qed.

Lemma Math_min_lower (a b : Float64.number) :
  Float64.isNaN a = false -> Float64.isNaN b = false ->
  Float64.le (Float64.Math_min a b) a = true /\ Float64.le (Float64.Math_min a b) b = true.
Proof.
  intros Ha Hb.
  assert (Hcases : Float64.Math_min a b = (if Float64.lt b a then b else a)
                   \/ (exists sa sb, a = S754_zero sa /\ b = S754_zero sb)).
  { unfold Float64.Math_min.
    destruct a as [[|] | | |], b as [[|] | | |]; try discriminate; eauto. }
  destruct Hcases as [-> | (sa & sb & -> & ->)].
  - destruct (Float64.lt b a) eqn:Hlt.
    + split; [apply lt_le, Hlt | apply le_refl, Hb].
    + split; [apply le_refl, Ha | apply not_lt_le; assumption].
  - destruct sa, sb; split; reflexivity.
Qed.

End Float64Order.

(** * Binary64 arithmetic on small integers *)

Lemma iter_xO_pow2 (p k : positive) :
  Zpos (Pos.iter xO p k) = Zpos p * 2 ^ Zpos k.
Proof.
  revert p. induction k as [|k IH] using Pos.peano_ind; intros p.
  - cbn [Pos.iter]. lia.
  - rewrite Pos.iter_succ, Pos2Z.inj_xO, IH, Pos2Z.inj_succ, Z.pow_succ_r by lia. lia.
Qed.

Lemma digits2_pos_unique (m : positive) (d : Z) :
  2 ^ (d - 1) <= Zpos m < 2 ^ d -> Zpos (digits2_pos m) = d.
Proof.
  intros [Hlo Hhi]. pose proof (digits2_pos_bounds m) as [Hlo' Hhi'].
  set (n := Zpos (digits2_pos m)) in *. assert (0 < n) by (subst n; lia).
  destruct (Z_lt_le_dec d 1) as [Hd|Hd].
  { assert (2 ^ d <= 2 ^ 0) by (destruct (Z_lt_le_dec d 0);
      [rewrite Z.pow_neg_r by lia; cbn; lia | apply Z.pow_le_mono_r; lia]).
    cbn in *. lia. }
  destruct (Z_lt_le_dec n d) as [Hlt|Hge].
  - assert (2 ^ n <= 2 ^ (d - 1)) by (apply Z.pow_le_mono_r; lia). lia.
  - destruct (Z_le_gt_dec n d) as [|Hgt]; [lia|].
    assert (2 ^ d <= 2 ^ (n - 1)) by (apply Z.pow_le_mono_r; lia). lia.
Qed.

(** A mantissa of 53 digits at an exponent of the normal range stays as it
    is when it is rounded from an exact location. *)
Lemma binary_round_aux_canonical (s : bool) (m : positive) (e : Z) :
  Zpos (digits2_pos m) = 53 -> -1074 <= e <= 971 ->
  binary_round_aux Float64.prec Float64.emax s (Zpos m) e loc_Exact = S754_finite s m e.
Proof.
  intros Hd He.
  unfold binary_round_aux, shr_fexp, Zdigits2, fexp, emin, Float64.prec, Float64.emax.
  rewrite Hd.
  replace (Z.max (53 + e - 53) (3 - 1024 - 53) - e) with 0 by lia.
  cbn [shr shr_record_of_loc shr_m loc_of_shr_record round_nearest_even Zdigits2].
  rewrite Hd.
  replace (Z.max (53 + e - 53) (3 - 1024 - 53) - e) with 0 by lia.
  cbn [shr shr_record_of_loc shr_m].
  destruct (Z.leb_spec e (1024 - 53)); [reflexivity | lia].
Qed.

(** [Float64.of_Z] on a positive integer below [2^53]: the mantissa is the
    integer shifted up to 53 digits. *)
Lemma of_Z_small (s : bool) (p : positive) :
  Zpos p < 2 ^ 53 ->
  exists m,
    binary_round Float64.prec Float64.emax s p 0
    = S754_finite s m (Zpos (digits2_pos p) - 53)
    /\ Zpos (digits2_pos m) = 53
    /\ Zpos m = Zpos p * 2 ^ (53 - Zpos (digits2_pos p)).
Proof.
  intros Hp. pose proof (digits2_pos_bounds p) as [Hlo Hhi].
  set (d := Zpos (digits2_pos p)) in *.
  assert (Hd : 1 <= d <= 53).
  { split; [subst d; lia|]. destruct (Z_le_gt_dec d 53) as [|Hgt]; [assumption|].
    assert (2 ^ 53 <= 2 ^ (d - 1)) by (apply Z.pow_le_mono_r; lia). lia. }
  unfold binary_round, shl_align, fexp, emin, Float64.prec, Float64.emax.
  fold d. replace (Z.max (d + 0 - 53) (3 - 1024 - 53) - 0) with (d - 53) by lia.
  replace (Z.max (d + 0 - 53) (3 - 1024 - 53)) with (d - 53) by lia.
  destruct (d - 53) as [|k|k] eqn:Hk; [|lia|].
  - exists p. assert (Hd53 : d = 53) by lia.
    split; [apply (binary_round_aux_canonical s p 0); [exact Hd53 | lia]|].
    split; [exact Hd53|]. rewrite Hd53. cbn. lia.
  - exists (Pos.iter xO p k).
    assert (Hm : Zpos (Pos.iter xO p k) = Zpos p * 2 ^ (53 - d)).
    { rewrite iter_xO_pow2. f_equal. f_equal. lia. }
    assert (Hdm : Zpos (digits2_pos (Pos.iter xO p k)) = 53).
    { apply digits2_pos_unique. rewrite Hm.
      assert (E1 : 2 ^ (53 - 1) = 2 ^ (d - 1) * 2 ^ (53 - d))
        by (rewrite <- Z.pow_add_r by lia; f_equal; lia).
      assert (E2 : 2 ^ 53 = 2 ^ d * 2 ^ (53 - d))
        by (rewrite <- Z.pow_add_r by lia; f_equal; lia).
      assert (0 < 2 ^ (53 - d)) by (apply Z.pow_pos_nonneg; lia).
      rewrite E1, E2.
      split; [apply Z.mul_le_mono_nonneg_r | apply Z.mul_lt_mono_pos_r]; lia. }
    split; [|split; assumption].
    apply binary_round_aux_canonical; [assumption | lia].
Qed.

(** The second normalisation of [binary_round_aux]: a mantissa of 53 digits
    is kept, and [2^53], which a rounding up can produce, is halved. *)
Lemma shr_fexp_renormalise (s : bool) (m e : Z) :
  2 ^ 52 <= m <= 2 ^ 53 -> -1074 <= e <= 960 ->
  exists mf ef,
    (let '(mrs, e2) := shr_fexp Float64.prec Float64.emax m e loc_Exact in
     match shr_m mrs with
     | Z0 => S754_zero s
     | Zpos mm =>
         if e2 <=? Float64.emax - Float64.prec then S754_finite s mm e2
         else S754_infinity s
     | Zneg _ => S754_nan
     end) = S754_finite s mf ef
    /\ Zpos mf * 2 ^ (ef - e) = m /\ e <= ef <= e + 1.
Proof.
  intros Hm He. destruct (Z_lt_le_dec m (2 ^ 53)) as [Hlt | Hge].
  - destruct m as [|p|p]; try lia.
    assert (Hd : Zpos (digits2_pos p) = 53) by (apply digits2_pos_unique; lia).
    exists p, e.
    unfold shr_fexp, Zdigits2, fexp, emin, Float64.prec, Float64.emax. rewrite Hd.
    replace (Z.max (53 + e - 53) (3 - 1024 - 53) - e) with 0 by lia.
    cbn [shr shr_record_of_loc shr_m].
    destruct (Z.leb_spec e (1024 - 53)); [|lia].
    rewrite Z.sub_diag. cbn. split; [reflexivity | lia].
  - assert (Hm53 : m = 2 ^ 53) by lia. subst m.
    exists (Z.to_pos (2 ^ 52)), (e + 1).
    unfold shr_fexp, fexp, emin, Float64.prec, Float64.emax.
    change (Zdigits2 (2 ^ 53)) with 54.
    replace (Z.max (54 + e - 53) (3 - 1024 - 53) - e) with 1 by lia.
    cbn [shr shr_record_of_loc iter_pos].
    change (shr_m (shr_1 {| shr_m := 2 ^ 53; shr_r := false; shr_s := false |}))
      with (2 ^ 52).
    change (2 ^ 52) with (Zpos (Z.to_pos (2 ^ 52))) at 1.
    cbv beta iota.
    destruct (Z.leb_spec (e + 1) (1024 - 53)); [|lia].
    replace (e + 1 - e) with 1 by lia. split; [reflexivity | split; [reflexivity | lia]].
Qed.

(** Rounding a quotient of 53 or 54 digits: what the two shifts and the
    rounding to nearest, ties to even, leave, as a multiple [R] of the unit
    [2^e] the quotient is given in. *)
Lemma binary_round_aux_quotient (s : bool) (q e : Z) (l : location) :
  2 ^ 52 <= q < 2 ^ 54 -> -1074 <= e <= 950 ->
  exists mf ef R,
    binary_round_aux Float64.prec Float64.emax s q e l = S754_finite s mf ef
    /\ Zpos mf * 2 ^ (ef - e) = R /\ e <= ef <= e + 2
    /\ (q < 2 ^ 53 -> q <= R <= q + 1 /\ (l = loc_Exact -> R = q))
    /\ (2 ^ 53 <= q ->
        (Z.even q = true -> R = q)
        /\ (Z.even q = false ->
            (R = q - 1 \/ R = q + 1) /\ (l <> loc_Exact -> R = q + 1))).
Proof.
  intros Hq He. destruct q as [|p|p]; try lia.
  unfold binary_round_aux.
  destruct (Z_lt_le_dec (Zpos p) (2 ^ 53)) as [Hlt | Hge].
  - assert (Hd : Zpos (digits2_pos p) = 53) by (apply digits2_pos_unique; lia).
    unfold shr_fexp at 1. unfold Zdigits2, fexp, emin, Float64.prec, Float64.emax.
    rewrite Hd. replace (Z.max (53 + e - 53) (3 - 1024 - 53) - e) with 0 by lia.
    cbn [shr].
    assert (Hloc : loc_of_shr_record (shr_record_of_loc (Zpos p) l) = l)
      by (destruct l as [|[ | | ]]; reflexivity).
    assert (Hm : shr_m (shr_record_of_loc (Zpos p) l) = Zpos p)
      by (destruct l as [|[ | | ]]; reflexivity).
    rewrite Hloc, Hm.
    set (R := round_nearest_even (Zpos p) l).
    assert (HR : Zpos p <= R <= Zpos p + 1 /\ (l = loc_Exact -> R = Zpos p)).
    { subst R. destruct l as [|[ | | ]]; cbn [round_nearest_even];
        try destruct (Z.even (Zpos p)); (split; [lia | try reflexivity; discriminate]). }
    destruct (shr_fexp_renormalise s R e) as (mf & ef & Hfinal & Hval & Hef); [lia | lia|].
    exists mf, ef, R.
    split; [exact Hfinal|]. split; [exact Hval|]. split; [lia|].
    split; [intros _; exact HR | intros Hc; exfalso; lia].
  - assert (Hd : Zpos (digits2_pos p) = 54) by (apply digits2_pos_unique; lia).
    unfold shr_fexp at 1. unfold Zdigits2, fexp, emin, Float64.prec, Float64.emax.
    rewrite Hd. replace (Z.max (54 + e - 53) (3 - 1024 - 53) - e) with 1 by lia.
    cbn [shr iter_pos].
    set (mrs := shr_1 (shr_record_of_loc (Zpos p) l)).
    set (M := round_nearest_even (shr_m mrs) (loc_of_shr_record mrs)).
    assert (HM : 2 ^ 52 <= M <= 2 ^ 53
                 /\ (Z.even (Zpos p) = true -> 2 * M = Zpos p)
                 /\ (Z.even (Zpos p) = false ->
                     (2 * M = Zpos p - 1 \/ 2 * M = Zpos p + 1)
                     /\ (l <> loc_Exact -> 2 * M = Zpos p + 1))).
    { subst M mrs. destruct p as [p | p | ]; [| |lia].
      - destruct l as [|[ | | ]];
          cbn [shr_record_of_loc shr_1 shr_m orb loc_of_shr_record round_nearest_even];
          try destruct (Z.even (Zpos p));
          (split; [lia|]); (split; [discriminate|]); intros _;
          (split; [lia|]); intros Hne; try lia; now contradiction Hne.
      - destruct l as [|[ | | ]];
          cbn [shr_record_of_loc shr_1 shr_m orb loc_of_shr_record round_nearest_even];
          (split; [lia|]); (split; [intros _; lia | discriminate]). }
    destruct HM as (HMb & Heven & Hodd).
    destruct (shr_fexp_renormalise s M (e + 1)) as (mf & ef & Hfinal & Hval & Hef);
      [lia | lia|].
    exists mf, ef, (2 * M).
    split; [exact Hfinal|]. split.
    { replace (ef - e) with (ef - (e + 1) + 1) by lia.
      rewrite Z.pow_add_r by lia. rewrite <- Hval. lia. }
    split; [lia|]. split; [intros Hc; exfalso; lia|]. intros _. split; [exact Heven|].
    intros Hq2. destruct (Hodd Hq2) as [Hcases Hup]. split; [lia | exact Hup].
Qed.

(** The arithmetic of the floor: [q] is the quotient of [a * P] by 60 in
    units of [1 / P], for a power of two [P >= 64], and [R] what rounding to
    nearest makes of it, at the same unit or at twice the unit.  Then the
    integer part of [R / P] is that of [a / 60], for either sign. *)
Lemma floor_of_rounded_quotient (a j q R : Z) :
  1 <= a -> 6 <= j -> q = a * 2 ^ j / 60 ->
  (q <= R <= q + 1 /\ ((a * 2 ^ j) mod 60 = 0 -> R = q))
  \/ ((Z.even q = true -> R = q)
      /\ (Z.even q = false ->
          (R = q - 1 \/ R = q + 1) /\ ((a * 2 ^ j) mod 60 <> 0 -> R = q + 1))) ->
  R / 2 ^ j = a / 60 /\ (- R) / 2 ^ j = (- a) / 60.
Proof.
  intros Ha Hj Hq HR.
  assert (HP : 64 <= 2 ^ j).
  { change 64 with (2 ^ 6). apply Z.pow_le_mono_r; lia. }
  assert (HPeven : 2 ^ j = 2 * 2 ^ (j - 1)).
  { rewrite <- Z.pow_succ_r by lia. f_equal. lia. }
  set (P := 2 ^ j) in *. set (P2 := 2 ^ (j - 1)) in *.
  pose proof (Z.div_mod a 60 ltac:(lia)) as Hdm.
  pose proof (Z.mod_pos_bound a 60 ltac:(lia)) as Hr0.
  set (k := a / 60) in *. set (r0 := a mod 60) in *.
  assert (HaP : a * P = k * P * 60 + r0 * P) by (rewrite Hdm at 1; ring).
  assert (Hqu : q = k * P + r0 * P / 60).
  { rewrite Hq, HaP. rewrite Z.div_add_l by lia. reflexivity. }
  assert (Hrem : (a * P) mod 60 = (r0 * P) mod 60).
  { rewrite HaP. rewrite Z.add_comm, Z.mod_add by lia. reflexivity. }
  rewrite Hrem in HR.
  pose proof (Z.div_mod (r0 * P) 60 ltac:(lia)) as Hdm2.
  pose proof (Z.mod_pos_bound (r0 * P) 60 ltac:(lia)) as Hv.
  set (u := r0 * P / 60) in *. set (v := (r0 * P) mod 60) in *.
  set (K := k * P) in *.
  destruct (Z.eq_dec r0 0) as [Hz | Hnz].
  - assert (Hu : u = 0 /\ v = 0).
    { subst u v. rewrite Hz. cbn. split; reflexivity. }
    destruct Hu as [Hu Hv0].
    assert (Hqeven : Z.even q = true).
    { rewrite Hqu, Hu, Z.add_0_r. subst K.
      replace (k * P) with (2 * (k * P2)) by (rewrite HPeven; ring).
      rewrite Z.even_mul. reflexivity. }
    assert (HRq : R = K) by (destruct HR as [[_ H] | [H _]]; [rewrite H | rewrite H]; lia || assumption).
    rewrite HRq. subst K.
    replace (- (k * P)) with ((- k) * P) by ring.
    rewrite !Z.div_mul by lia.
    split; [reflexivity|].
    replace (- a) with ((- k) * 60) by lia. now rewrite Z.div_mul by lia.
  - assert (Hu : 1 <= u <= P - 2) by nia.
    assert (Hbetween : K < R < K + P).
    { destruct HR as [[H _] | [Heven Hodd]]; [lia|].
      destruct (Z.even q) eqn:Hpar.
      - rewrite (Heven eq_refl). lia.
      - destruct (Hodd eq_refl) as [[HRm | HRp] Hup]; [|lia].
        destruct (Z.eq_dec u 1) as [Hu1 | Hu1]; [|lia].
        assert (Hvne : v <> 0) by nia.
        rewrite (Hup Hvne). lia. }
    split.
    + symmetry. apply Z.div_unique with (R - K); [lia | subst K; ring].
    + transitivity (- k - 1).
      * symmetry. apply Z.div_unique with (K + P - R); [lia | subst K; ring].
      * apply Z.div_unique with (60 - r0); [lia | lia].
Qed.

Lemma div_eucl_div_mod (a b : Z) : Z.div_eucl a b = (a / b, a mod b).
Proof. unfold Z.div, Z.modulo. now destruct (Z.div_eucl a b). Qed.

(** [Math.floor (t / 60)] in binary64 arithmetic is the exact floor of the
    quotient for every integer below [2^53] in magnitude. *)
Lemma floor_div_60_signed (s : bool) (p : positive) :
  Zpos p < 2 ^ 53 ->
  Math_floor (Float64.div (binary_round Float64.prec Float64.emax s p 0) (Float64.of_Z 60))
  = (if s then Zneg p else Zpos p) / 60.
Proof.
  intros Hp.
  destruct (of_Z_small s p Hp) as (m1 & Hof & Hd1 & Hm1). rewrite Hof.
  pose proof (digits2_pos_bounds p) as [Hlo Hhi].
  pose proof (digits2_pos_bounds m1) as [Hlo1 Hhi1]. rewrite Hd1 in Hlo1, Hhi1.
  set (d := Zpos (digits2_pos p)) in *.
  assert (Hd : 1 <= d <= 53).
  { split; [subst d; lia|]. destruct (Z_le_gt_dec d 53) as [|Hgt]; [assumption|].
    assert (2 ^ 53 <= 2 ^ (d - 1)) by (apply Z.pow_le_mono_r; lia). lia. }
  change (Float64.of_Z 60) with (S754_finite false 8444249301319680 (-47)).
  unfold Float64.div, SFdiv, SFdiv_core_binary, Zdigits2.
  rewrite Hd1. change (Zpos (digits2_pos 8444249301319680)) with 53.
  unfold fexp, emin, Float64.prec, Float64.emax.
  replace (Z.min (Z.max (53 + (d - 53) - (53 + -47) - 53) (3 - 1024 - 53)) (d - 53 - -47))
    with (d - 59) by lia.
  replace (d - 53 - -47 - (d - 59)) with 53 by lia.
  rewrite Z.shiftl_mul_pow2 by lia.
  rewrite div_eucl_div_mod.
  set (N := Zpos m1 * 2 ^ 53). set (m2 := 8444249301319680).
  assert (HN : N = Zpos p * 2 ^ (59 - d) * 2 ^ 47).
  { subst N. rewrite Hm1. rewrite <- !Z.mul_assoc, <- !Z.pow_add_r by lia.
    f_equal. f_equal. lia. }
  assert (Hm2 : m2 = 60 * 2 ^ 47) by reflexivity.
  assert (Hq : N / m2 = Zpos p * 2 ^ (59 - d) / 60).
  { rewrite HN, Hm2. apply Z.div_mul_cancel_r; lia. }
  assert (Hr : N mod m2 = (Zpos p * 2 ^ (59 - d)) mod 60 * 2 ^ 47).
  { rewrite HN, Hm2. apply Z.mul_mod_distr_r; lia. }
  assert (Hqb : 2 ^ 52 <= N / m2 < 2 ^ 54).
  { split.
    - apply Z.div_le_lower_bound; [reflexivity|]. subst N m2.
      change (2 ^ 53) with 9007199254740992. change (2 ^ 52) with 4503599627370496 in *. lia.
    - apply Z.div_lt_upper_bound; [reflexivity|]. subst N m2.
      change (2 ^ 53) with 9007199254740992 in *. change (2 ^ 54) with 18014398509481984. lia. }
  change (new_location m2 (N mod m2)) with (new_location_even m2 (N mod m2)).
  set (l := new_location_even m2 (N mod m2)).
  assert (Hl : l = loc_Exact <-> (Zpos p * 2 ^ (59 - d)) mod 60 = 0).
  { subst l. unfold new_location_even. rewrite Hr.
    destruct (Z.eqb_spec ((Zpos p * 2 ^ (59 - d)) mod 60 * 2 ^ 47) 0) as [Hz | Hnz].
    - split; [intros _; lia | reflexivity].
    - split; [discriminate | intros Hz; rewrite Hz in Hnz; now contradiction Hnz]. }
  destruct (binary_round_aux_quotient (xorb s false) (N / m2) (d - 59) l Hqb)
    as (mf & ef & R & Hround & Hval & Hef & Hsmall & Hbig); [lia|].
  unfold Float64.prec, Float64.emax in Hround. rewrite Hround.
  assert (Hfloor : forall z, z = Zpos mf \/ z = Zneg mf ->
             Z.shiftl z ef
             = (if Z.eqb z (Zpos mf) then R else - R) / 2 ^ (59 - d)).
  { intros z Hz. rewrite Z.shiftl_div_pow2 by lia.
    assert (Hpow : 2 ^ (59 - d) = 2 ^ (- ef) * 2 ^ (ef - (d - 59))).
    { rewrite <- Z.pow_add_r by lia. f_equal. lia. }
    rewrite Hpow.
    assert (0 < 2 ^ (- ef)) by (apply Z.pow_pos_nonneg; lia).
    assert (0 < 2 ^ (ef - (d - 59))) by (apply Z.pow_pos_nonneg; lia).
    destruct Hz as [-> | ->].
    - rewrite Z.eqb_refl, <- Hval. now rewrite Z.div_mul_cancel_r by lia.
    - replace (Zneg mf =? Zpos mf) with false by reflexivity.
      rewrite <- Hval. replace (- (Zpos mf * 2 ^ (ef - (d - 59))))
        with (Zneg mf * 2 ^ (ef - (d - 59))) by lia.
      rewrite Z.div_mul_cancel_r by lia. reflexivity. }
  assert (Hcore : R / 2 ^ (59 - d) = Zpos p / 60
                  /\ (- R) / 2 ^ (59 - d) = (- Zpos p) / 60).
  { apply (floor_of_rounded_quotient (Zpos p) (59 - d) (N / m2) R);
      [lia | lia | exact Hq |].
    destruct (Z_lt_le_dec (N / m2) (2 ^ 53)) as [Hlt | Hge].
    - left. destruct (Hsmall Hlt) as [Hb He]. split; [exact Hb|].
      intros Hz. apply He, Hl, Hz.
    - right. destruct (Hbig Hge) as [Heven Hodd]. split; [exact Heven|].
      intros Hpar. destruct (Hodd Hpar) as [Hc Hup]. split; [exact Hc|].
      intros Hnz. apply Hup. intros Hex. apply Hnz, Hl, Hex. }
  destruct Hcore as [Hpos Hneg].
  unfold Math_floor. destruct s; cbn [xorb].
  - rewrite (Hfloor (Zneg mf)) by (right; reflexivity).
    replace (Zneg mf =? Zpos mf) with false by reflexivity. exact Hneg.
  - rewrite (Hfloor (Zpos mf)) by (left; reflexivity).
    rewrite Z.eqb_refl. exact Hpos.
Qed.

Lemma floor_div_60_exact (t : Z) :
  - 2 ^ 53 < t < 2 ^ 53 -> floor_div t 60 = t / 60.
Proof.
  intros Ht. unfold floor_div, Float64.of_Z at 1, binary_normalize.
  destruct t as [|p|p].
  - reflexivity.
  - apply (floor_div_60_signed false p). lia.
  - apply (floor_div_60_signed true p). lia.
Qed.

Lemma Number_of_BigInt_small (v : Z) : - 2 ^ 53 < v < 2 ^ 53 -> Number_of_BigInt v = v.
Proof.
  intros Hv. unfold Number_of_BigInt.
  destruct (Z.ltb_spec (Z.abs v) (2 ^ 53)); [reflexivity | lia].
Qed.

(** ** The minute of a trade, below [2^51] *)

Lemma tradeMinuteTimestamp_exact (trade : RealTimeTrade) :
  small_timestamp (TradeTime trade) ->
  tradeMinuteTimestamp trade = TradeTime trade / 60 * 60.
Proof.
  unfold small_timestamp, tradeMinuteTimestamp, number_mul. intros Ht.
  change (2 ^ 51) with 2251799813685248 in Ht.
  rewrite floor_div_60_exact by (change (2 ^ 53) with 9007199254740992; lia).
  pose proof (Z.div_mod (TradeTime trade) 60 ltac:(lia)) as Hdm.
  pose proof (Z.mod_pos_bound (TradeTime trade) 60 ltac:(lia)) as Hmod.
  apply Number_of_BigInt_small. change (2 ^ 53) with 9007199254740992. lia.
Qed.

Lemma timeDiff_exact (trade : RealTimeTrade) (latest : Candle) :
  small_timestamp (TradeTime trade) -> small_timestamp (Timestamp latest) ->
  timeDiff trade latest = TradeTime trade / 60 * 60 - Timestamp latest.
Proof.
  intros Ht Hl. unfold timeDiff, number_sub.
  rewrite (tradeMinuteTimestamp_exact trade Ht).
  unfold small_timestamp in *. change (2 ^ 51) with 2251799813685248 in *.
  pose proof (Z.div_mod (TradeTime trade) 60 ltac:(lia)) as Hdm.
  pose proof (Z.mod_pos_bound (TradeTime trade) 60 ltac:(lia)) as Hmod.
  apply Number_of_BigInt_small. change (2 ^ 53) with 9007199254740992. lia.
Qed.

Lemma cutoffTimestamp_exact (trade : RealTimeTrade) :
  small_timestamp (TradeTime trade) ->
  cutoffTimestamp trade = TradeTime trade / 60 * 60 - 3600.
Proof.
  intros Ht. unfold cutoffTimestamp, number_sub.
  rewrite (tradeMinuteTimestamp_exact trade Ht).
  unfold small_timestamp in *. change (2 ^ 51) with 2251799813685248 in *.
  pose proof (Z.div_mod (TradeTime trade) 60 ltac:(lia)) as Hdm.
  pose proof (Z.mod_pos_bound (TradeTime trade) 60 ltac:(lia)) as Hmod.
  change (60 * 60) with 3600.
  apply Number_of_BigInt_small. change (2 ^ 53) with 9007199254740992. lia.
Qed.

(** * Merging a trade into the series *)

Lemma nth_error_latest {A : Type} (older : list A) (latest : A) :
  nth_error (older ++ [latest]) (length (older ++ [latest]) - 1) = Some latest.
Proof.
  rewrite length_app. cbn [length].
  replace (length older + 1 - 1)%nat with (length older) by lia.
  rewrite nth_error_app2 by lia. now rewrite Nat.sub_diag.
Qed.

Lemma array_set_latest {A : Type} (older : list A) (latest x : A) :
  array_set (older ++ [latest]) (length (older ++ [latest]) - 1) x = older ++ [x].
Proof.
  rewrite length_app. cbn [length].
  replace (length older + 1 - 1)%nat with (length older) by lia.
  induction older as [|y older IH]; [reflexivity|].
  cbn [app length array_set]. now rewrite IH.
Qed.

Section Merge.

Variables (now : Z) (trade : RealTimeTrade) (s : SDK).
Variables (older : list Candle) (latest : Candle).
Hypothesis latest_is_last : candles s = older ++ [latest].

(** What [handleRealTimeTrade] leaves in the series when the trade falls in
    the latest candle's minute or up to two minutes after it. *)
Lemma handleRealTimeTrade_recent :
  0 <= timeDiff trade latest <= 120 ->
  candles (handleRealTimeTrade now trade s)
  = older ++ [ {| OpenPrice := OpenPrice latest;
                  ClosePrice := Price trade;
                  HighPrice := Float64.Math_max (HighPrice latest) (Price trade);
                  LowPrice := Float64.Math_min (LowPrice latest) (Price trade);
                  VolumeIn := Float64.add (VolumeIn latest) (USD trade);
                  VolumeOut := Float64.add (VolumeOut latest) (Amount trade);
                  Timestamp := Timestamp latest |} ].
Proof.
  intros Hdiff. unfold handleRealTimeTrade.
  cbn [set_lastUpdate candles]. rewrite latest_is_last, nth_error_latest.
  cbv zeta.
  destruct (Z.geb_spec (timeDiff trade latest) 0); [|lia].
  destruct (Z.leb_spec (timeDiff trade latest) 120); [|lia].
  cbn [andb notifyChartUpdate emit set_candles candles].
  apply array_set_latest.
Qed.

(** What it leaves when the trade is older than the latest candle. *)
Lemma handleRealTimeTrade_old :
  timeDiff trade latest < 0 ->
  candles (handleRealTimeTrade now trade s)
  = filter (fun candle => Timestamp candle >=? cutoffTimestamp trade) (candles s).
Proof.
  intros Hdiff. unfold handleRealTimeTrade.
  cbn [set_lastUpdate candles]. rewrite latest_is_last, nth_error_latest.
  cbv zeta.
  destruct (Z.geb_spec (timeDiff trade latest) 0); [lia|].
  destruct (Z.ltb_spec (timeDiff trade latest) 0); [|lia].
  cbn [andb set_candles candles].
  match goal with |- context [if ?c then _ else _] => destruct c end; reflexivity.
Qed.

(** What it leaves when the trade is more than two minutes ahead. *)
Lemma handleRealTimeTrade_future :
  120 < timeDiff trade latest ->
  candles (handleRealTimeTrade now trade s) = candles s.
Proof.
  intros Hdiff. unfold handleRealTimeTrade.
  cbn [set_lastUpdate candles]. rewrite latest_is_last, nth_error_latest.
  cbv zeta.
  destruct (Z.geb_spec (timeDiff trade latest) 0); [|lia].
  destruct (Z.leb_spec (timeDiff trade latest) 120); [lia|].
  destruct (Z.ltb_spec (timeDiff trade latest) 0); [lia|].
  cbn [andb set_lastUpdate candles]. exact latest_is_last.
Qed.

End Merge.

(** C1, as amended.  When the trade's minute is 0 to 120 seconds after the
    latest candle's timestamp, [handleRealTimeTrade] replaces the latest
    candle, and only it: the close becomes the trade's price, the high and
    the low become [Math.max] and [Math.min] of the old value and the price,
    the two volumes grow by the trade's USD and Amount, the open and the
    timestamp stay.  The minute and its distance to the candle are the ones
    the code computes, in binary64 arithmetic; for timestamps of at most
    [2^51] in magnitude they are the exact [floor (t / 60) * 60] and the
    exact difference.  In particular a single candle at 60 with close 10, hit
    by a trade of minute 120 and price 12, ends with close 12 and high
    [Math.max] of its old high and 12. *)
Theorem handleRealTimeTrade_updates_latest :
  (forall (now : Z) (trade : RealTimeTrade) (s : SDK)
          (older : list Candle) (latest : Candle),
      candles s = older ++ [latest] ->
      0 <= timeDiff trade latest <= 120
      \/ (small_timestamp (TradeTime trade) /\ small_timestamp (Timestamp latest)
          /\ 0 <= TradeTime trade / 60 * 60 - Timestamp latest <= 120) ->
      exists updated,
        candles (handleRealTimeTrade now trade s) = older ++ [updated]
        /\ ClosePrice updated = Price trade
        /\ HighPrice updated = Float64.Math_max (HighPrice latest) (Price trade)
        /\ LowPrice updated = Float64.Math_min (LowPrice latest) (Price trade)
        /\ VolumeIn updated = Float64.add (VolumeIn latest) (USD trade)
        /\ VolumeOut updated = Float64.add (VolumeOut latest) (Amount trade)
        /\ OpenPrice updated = OpenPrice latest
        /\ Timestamp updated = Timestamp latest)
  /\ (forall (now : Z) (trade : RealTimeTrade) (s : SDK) (latest : Candle),
         candles s = [latest] ->
         Timestamp latest = 60 -> ClosePrice latest = Float64.of_Z 10 ->
         tradeMinuteTimestamp trade = 120 -> Price trade = Float64.of_Z 12 ->
         exists updated,
           candles (handleRealTimeTrade now trade s) = [updated]
           /\ ClosePrice updated = Float64.of_Z 12
           /\ HighPrice updated = Float64.Math_max (HighPrice latest) (Float64.of_Z 12)).
Proof.
  split.
  - intros now trade s older latest Hs Hdiff.
    assert (Hwindow : 0 <= timeDiff trade latest <= 120).
    { destruct Hdiff as [Hdiff | (Ht & Hl & Hdiff)]; [exact Hdiff|].
      now rewrite timeDiff_exact. }
    eexists. split; [apply handleRealTimeTrade_recent; eassumption|].
    cbn. repeat split.
  - intros now trade s latest Hs Hts _ Hminute Hprice.
    eexists. split.
    + apply (handleRealTimeTrade_recent now trade s [] latest Hs).
      unfold timeDiff. rewrite Hminute, Hts. split; discriminate.
    + cbn. rewrite Hprice. split; reflexivity.
Qed.

(** C2, as amended.  If the latest candle's high and low already bracket
    its open, and the trade's price is not NaN, then after a merge, which
    takes place when the minute difference the code computes is in [0, 120]
    (the exact difference, for timestamps of at most [2^51] in magnitude),
    the updated candle's high is at least [Math.max] of its open and close,
    and its low at most their [Math.min]. *)
Theorem handleRealTimeTrade_keeps_bracket
  (now : Z) (trade : RealTimeTrade) (s : SDK) (older : list Candle) (latest : Candle) :
  candles s = older ++ [latest] ->
  0 <= timeDiff trade latest <= 120
  \/ (small_timestamp (TradeTime trade) /\ small_timestamp (Timestamp latest)
      /\ 0 <= TradeTime trade / 60 * 60 - Timestamp latest <= 120) ->
  Float64.isNaN (Price trade) = false ->
  Float64.ge (HighPrice latest) (OpenPrice latest) = true ->
  Float64.le (LowPrice latest) (OpenPrice latest) = true ->
  exists updated,
    candles (handleRealTimeTrade now trade s) = older ++ [updated]
    /\ Float64.ge (HighPrice updated)
         (Float64.Math_max (OpenPrice updated) (ClosePrice updated)) = true
    /\ Float64.le (LowPrice updated)
         (Float64.Math_min (OpenPrice updated) (ClosePrice updated)) = true.
Proof.
  intros Hs Hdiff Hprice Hhigh Hlow.
  assert (Hwindow : 0 <= timeDiff trade latest <= 120).
  { destruct Hdiff as [Hdiff | (Ht & Hl & Hdiff)]; [exact Hdiff|].
    now rewrite timeDiff_exact. }
  eexists. split; [apply handleRealTimeTrade_recent; eassumption|].
  cbn [HighPrice LowPrice OpenPrice ClosePrice]. unfold Float64.ge in *.
  destruct (Float64Order.le_not_NaN _ _ Hhigh) as [Hopen Hh].
  destruct (Float64Order.le_not_NaN _ _ Hlow) as [Hl _].
  destruct (Float64Order.Math_max_upper (HighPrice latest) (Price trade) Hh Hprice) as [Hmax1 Hmax2].
  destruct (Float64Order.Math_min_lower (LowPrice latest) (Price trade) Hl Hprice) as [Hmin1 Hmin2].
  split.
  - destruct (Float64Order.Math_max_cases (OpenPrice latest) (Price trade) Hopen Hprice) as [-> | ->].
    + apply Float64Order.le_trans with (HighPrice latest); assumption.
    + exact Hmax2.
  - destruct (Float64Order.Math_min_cases (OpenPrice latest) (Price trade) Hopen Hprice) as [-> | ->].
    + apply Float64Order.le_trans with (LowPrice latest); assumption.
    + exact Hmin2.
Qed.

Lemma filter_all {A : Type} (p : A -> bool) (l : list A) :
  Forall (fun x => p x = true) l -> filter p l = l.
Proof.
  induction 1 as [|x l Hx _ IH]; [reflexivity|].
  cbn [filter]. now rewrite Hx, IH.
Qed.

(** C6, as amended.  When the trade's minute is before the latest candle's
    timestamp, [handleRealTimeTrade] keeps exactly the candles whose
    timestamp is not older than the minute less 3600, in their order, and
    changes nothing else in the series.  The minute, the comparison and the
    cutoff are the ones the code computes, in binary64 arithmetic; for a
    trade time and a latest timestamp of at most [2^51] in magnitude they
    are the exact ones.  For candles at 60, 120 and 180 every trade of an
    earlier minute (a trade at second 10 falls in minute 0) leaves the
    series as it is. *)
Theorem handleRealTimeTrade_old_trade_prunes :
  (forall (now : Z) (trade : RealTimeTrade) (s : SDK)
          (older : list Candle) (latest : Candle),
      candles s = older ++ [latest] ->
      timeDiff trade latest < 0 ->
      candles (handleRealTimeTrade now trade s)
      = filter (fun candle => cutoffTimestamp trade <=? Timestamp candle) (candles s))
  /\ (forall (now : Z) (trade : RealTimeTrade) (s : SDK)
             (older : list Candle) (latest : Candle),
         candles s = older ++ [latest] ->
         small_timestamp (TradeTime trade) -> small_timestamp (Timestamp latest) ->
         TradeTime trade / 60 * 60 < Timestamp latest ->
         candles (handleRealTimeTrade now trade s)
         = filter (fun candle => TradeTime trade / 60 * 60 - 3600 <=? Timestamp candle)
             (candles s))
  /\ (forall (now : Z) (trade : RealTimeTrade) (s : SDK) (c1 c2 c3 : Candle),
         candles s = [c1; c2; c3] ->
         Timestamp c1 = 60 -> Timestamp c2 = 120 -> Timestamp c3 = 180 ->
         - 2 ^ 51 <= TradeTime trade -> TradeTime trade / 60 * 60 < 180 ->
         candles (handleRealTimeTrade now trade s) = candles s).
Proof.
  assert (Hgeb : forall cutoff cs,
             filter (fun candle : Candle => Timestamp candle >=? cutoff) cs
             = filter (fun candle => cutoff <=? Timestamp candle) cs).
  { intros cutoff cs. apply filter_ext. intros c. apply Z.geb_leb. }
  assert (Hexact : forall now trade s older latest,
             candles s = older ++ [latest] ->
             small_timestamp (TradeTime trade) -> small_timestamp (Timestamp latest) ->
             TradeTime trade / 60 * 60 < Timestamp latest ->
             candles (handleRealTimeTrade now trade s)
             = filter (fun candle => TradeTime trade / 60 * 60 - 3600 <=? Timestamp candle)
                 (candles s)).
  { intros now trade s older latest Hs Ht Hl Hdiff.
    rewrite (handleRealTimeTrade_old now trade s older latest Hs)
      by (rewrite timeDiff_exact by assumption; lia).
    rewrite cutoffTimestamp_exact by assumption. apply Hgeb. }
  split; [|split].
  - intros now trade s older latest Hs Hdiff.
    rewrite (handleRealTimeTrade_old now trade s older latest Hs) by lia.
    apply Hgeb.
  - exact Hexact.
  - intros now trade s c1 c2 c3 Hs H1 H2 H3 Hlow Hminute.
    assert (Ht : small_timestamp (TradeTime trade)).
    { unfold small_timestamp. split; [exact Hlow|].
      pose proof (Z.div_mod (TradeTime trade) 60 ltac:(lia)) as Hdm.
      pose proof (Z.mod_pos_bound (TradeTime trade) 60 ltac:(lia)) as Hmod.
      change (2 ^ 51) with 2251799813685248. lia. }
    rewrite (Hexact now trade s [c1; c2] c3 Hs Ht)
      by (rewrite ?H3; unfold small_timestamp; change (2 ^ 51) with 2251799813685248; lia).
    rewrite Hs. apply filter_all.
    repeat constructor; apply Z.leb_le; lia.
Qed.

(** * Upserting a polled candle *)

Lemma length_slice_from_neg {A : Type} (m : Z) (arr : list A) :
  0 < m -> m < Z.of_nat (length arr) ->
  Z.of_nat (length (slice_from (- m) arr)) = m.
Proof.
  intros Hm Hlen. unfold slice_from.
  destruct (Z.ltb_spec (- m) 0); [|lia].
  rewrite length_skipn. lia.
Qed.

Lemma length_filter_le {A : Type} (p : A -> bool) (l : list A) :
  (length (filter p l) <= length l)%nat.
Proof.
  induction l as [|x l IH]; [reflexivity|].
  cbn [filter]. destruct (p x); cbn [length]; lia.
Qed.

Lemma Forall_filter_kept {A : Type} (p : A -> bool) (l : list A) :
  Forall (fun x => p x = true) (filter p l).
Proof. apply Forall_forall. intros x Hx. apply filter_In in Hx. tauto. Qed.

(** The series [fetchLatestCandle] leaves: the upserted series, cut to the
    effective limit, then filtered by age. *)
Lemma fetchLatestCandle_candles (now : Z) (newCandle : Candle) (s : SDK) :
  truthy_string (currentTokenId s) = true ->
  exists upserted,
    candles (fetchLatestCandle now (Some newCandle) s)
    = filter (fun candle => Timestamp candle >=? now / 1000 - 24 * 60 * 60)
        (if Z.of_nat (length upserted) >? or_default (maxCandles (chartConfig s)) 1000
         then slice_from (- or_default (maxCandles (chartConfig s)) 1000) upserted
         else upserted).
Proof.
  intros Htoken. unfold fetchLatestCandle. rewrite Htoken. cbn [negb].
  eexists. cbn [notifyChartUpdate emit set_lastUpdate set_candles candles]. reflexivity.
Qed.

(** C7, as amended.  After every upsert of a polled candle the series is no
    longer than the limit in force, which is the configured [maxCandles]
    when that is positive and 1000 when it is unset or 0, and every retained
    candle has a timestamp of at least [now - 24h], the clock being read in
    whole seconds. *)
Theorem fetchLatestCandle_prunes (now : Z) (newCandle : Candle) (s : SDK) :
  truthy_string (currentTokenId s) = true ->
  (forall m, maxCandles (chartConfig s) = Some m -> 0 < m ->
             Z.of_nat (length (candles (fetchLatestCandle now (Some newCandle) s))) <= m)
  /\ (maxCandles (chartConfig s) = None \/ maxCandles (chartConfig s) = Some 0 ->
      Z.of_nat (length (candles (fetchLatestCandle now (Some newCandle) s))) <= 1000)
  /\ Forall (fun candle => now / 1000 - 86400 <= Timestamp candle)
       (candles (fetchLatestCandle now (Some newCandle) s)).
Proof.
  intros Htoken.
  destruct (fetchLatestCandle_candles now newCandle s Htoken) as [upserted ->].
  assert (Hcap : forall limit, 0 < limit ->
            Z.of_nat (length (filter (fun candle => Timestamp candle >=? now / 1000 - 24 * 60 * 60)
              (if Z.of_nat (length upserted) >? limit
               then slice_from (- limit) upserted else upserted))) <= limit).
  { intros limit Hlimit.
    destruct (Z.gtb_spec (Z.of_nat (length upserted)) limit) as [Hgt | Hngt];
      match goal with |- Z.of_nat (length (filter ?p ?l)) <= _ =>
        pose proof (length_filter_le p l) as Hle end.
    - pose proof (length_slice_from_neg limit upserted Hlimit ltac:(lia)). lia.
    - lia. }
  split; [|split].
  - intros m Hm Hpos. rewrite Hm. cbn [or_default].
    destruct (Z.eqb_spec m 0); [lia|]. apply Hcap, Hpos.
  - intros [Hm | Hm]; rewrite Hm; cbn [or_default Z.eqb]; apply Hcap; lia.
  - eapply Forall_impl; [|apply Forall_filter_kept].
    intros c Hc. cbn beta in Hc. apply Z.geb_le in Hc. lia.
Qed.

(** * Reconnecting *)

Lemma ws_run_app (es1 es2 : list ws_event) (s : WebSocketService) :
  ws_run (es1 ++ es2) s = ws_run es2 (ws_run es1 s).
Proof. unfold ws_run. apply fold_left_app. Qed.

(** Once the socket is closed and no timer is pending, failures have
    nothing left to act on. *)
Lemma consecutive_failures_add (with_error : bool) (n m : nat) :
  consecutive_failures with_error (n + m)
  = consecutive_failures with_error n ++ consecutive_failures with_error m.
Proof.
  induction n as [|n IH]; [reflexivity|].
  cbn [Nat.add consecutive_failures]. now rewrite IH, app_assoc.
Qed.

Lemma halted_step (e : ws_event) (s : WebSocketService) :
  ws s = Some CLOSED -> reconnectTimers s = [] -> ws_step e s = s.
Proof.
  intros Hws Htimers. destruct e; cbn [ws_step]; rewrite ?Hws, ?Htimers; reflexivity.
Qed.

Lemma halted_stays (with_error : bool) (s : WebSocketService) (n : nat) :
  ws s = Some CLOSED -> reconnectTimers s = [] ->
  ws_run (consecutive_failures with_error n) s = s.
Proof.
  intros Hws Htimers. induction n as [|n IH]; [reflexivity|].
  cbn [consecutive_failures]. rewrite ws_run_app.
  replace (ws_run (connection_failure with_error) s) with s; [exact IH|].
  unfold ws_run, connection_failure.
  destruct with_error; cbn [app fold_left];
    rewrite !(halted_step _ s) by assumption; reflexivity.
Qed.

(** C8, as amended.  With [maxReconnectAttempts = 5], counting every close
    of the socket as a failure, from a first connection attempt or from an
    established connection: each of the first five consecutive failures sets
    a retry timer and reports no exhaustion, and the retry is under way
    afterwards.  The sixth consecutive failure, that of the fifth retry, sets
    no timer and reports [Failed to reconnect after maximum attempts]; from
    then on the service stays halted, so the report is made exactly once. *)
Theorem attemptReconnect_exhaustion (delay : option Z) (established with_error : bool) :
  (forall k : nat,
      (1 <= k <= 5)%nat ->
      let s := ws_run (consecutive_failures with_error k)
                 (started established (five_attempts delay)) in
      length (filter is_timer (effects s)) = k
      /\ filter is_exhausted (effects s) = []
      /\ ws s = Some CONNECTING)
  /\ (forall k : nat,
         (6 <= k)%nat ->
         let s := ws_run (consecutive_failures with_error k)
                    (started established (five_attempts delay)) in
         length (filter is_timer (effects s)) = 5%nat
         /\ filter is_exhausted (effects s)
            = [ErrorReported "Failed to reconnect after maximum attempts"]
         /\ reconnectTimers s = []
         /\ ws s = Some CLOSED).
Proof.
  split.
  - intros k Hk.
    assert (Hcases : (k = 1 \/ k = 2 \/ k = 3 \/ k = 4 \/ k = 5)%nat) by lia.
    destruct established, with_error;
      destruct Hcases as [-> | [-> | [-> | [-> | ->]]]];
      repeat split; reflexivity.
  - intros k Hk. replace k with (6 + (k - 6))%nat by lia.
    cbv zeta. rewrite consecutive_failures_add, ws_run_app.
    destruct established, with_error;
      (rewrite halted_stays by reflexivity); repeat split; reflexivity.
Qed.

(** * The codec claims *)

(** C3, as amended.  A candle sequence whose timestamps are integers of the
    signed 64-bit range (and JavaScript numbers) is encoded without error by
    [createMockBinaryData], and [deserializeCandleData] turns the bytes back
    into the same sequence.  The trade encoder of the spec and
    [deserializeRealTimeTradeData] round-trip every trade whose time is such
    an integer and whose price is the quotient of its two amounts. *)
Theorem codec_roundtrip :
  (forall cs : list Candle,
      Z.of_nat (length cs) < 2 ^ 32 -> forallb candle_on_wire cs = true ->
      exists bytes,
        createMockBinaryData cs = Ok bytes /\ deserializeCandleData bytes = Ok cs)
  /\ (forall t : RealTimeTrade,
         trade_on_wire t = true -> Price t = Float64.div (USD t) (Amount t) ->
         exists bytes,
           encodeTrade t = Ok bytes /\ deserializeRealTimeTradeData bytes = Ok t).
Proof.
  split.
  - intros cs Hlen Hcs. eexists. split; [apply createMockBinaryData_bytes|].
    apply deserialize_batch_bytes; assumption.
  - intros t Ht Hprice. eexists. split; [apply encodeTrade_bytes|].
    rewrite deserialize_encoded_trade by exact Ht.
    rewrite <- Hprice. destruct t; reflexivity.
Qed.

Lemma codec_roundtrip_witness :
  (exists bytes,
      createMockBinaryData [sample_candle 60 10 10 11 9; sample_candle 120 10 12 12 10]
      = Ok bytes
      /\ deserializeCandleData bytes
         = Ok [sample_candle 60 10 10 11 9; sample_candle 120 10 12 12 10])
  /\ (exists bytes,
         encodeTrade (sample_trade 125 24 2) = Ok bytes
         /\ deserializeRealTimeTradeData bytes = Ok (sample_trade 125 24 2)).
Proof.
  split.
  - apply (proj1 codec_roundtrip); reflexivity.
  - apply (proj2 codec_roundtrip); reflexivity.
Defined.

(** A candle whose timestamp is [2^63] comes back with timestamp [-2^63]. *)
Lemma codec_roundtrip_counterexample :
  is_float64_integer (2 ^ 63) = true
  /\ exists bytes decoded,
       createMockBinaryData [sample_candle (2 ^ 63) 10 10 11 9] = Ok bytes
       /\ deserializeCandleData bytes = Ok [decoded]
       /\ Timestamp decoded = - 2 ^ 63
       /\ [decoded] <> [sample_candle (2 ^ 63) 10 10 11 9].
Proof.
  split; [reflexivity|].
  eexists. eexists. split; [vm_compute; reflexivity|].
  split; [vm_compute; reflexivity|].
  split; [reflexivity | discriminate].
Qed.

(** C4, as amended.  A 24-byte trade payload whose amount decodes to a zero
    is not refused: [deserializeRealTimeTradeData] returns a trade whose
    price is the IEEE quotient by zero, NaN for a USD of zero or NaN and an
    infinity otherwise. *)
Theorem deserializeRealTimeTradeData_zero_amount (data : list byte) (s : bool) :
  length data = 24%nat ->
  getFloat64 data 16 = Ok (S754_zero s) ->
  exists trade,
    deserializeRealTimeTradeData data = Ok trade
    /\ Amount trade = S754_zero s
    /\ Price trade
       = match USD trade with
         | S754_nan | S754_zero _ => Float64.NaN
         | S754_infinity sx | S754_finite sx _ _ => S754_infinity (xorb sx s)
         end.
Proof.
  intros Hlen Hamount. unfold deserializeRealTimeTradeData, byteLength.
  rewrite Hlen. cbn [Z.of_nat Pos.of_succ_nat Pos.succ Z.eqb Pos.eqb negb].
  unfold getBigInt64, getFloat64 in *.
  destruct (view_get_in_bounds data 0 8) as [b0 ->]; [lia|].
  destruct (view_get_in_bounds data 8 8) as [b1 ->]; [lia|].
  destruct (view_get data 16 8) as [b2|]; [|discriminate].
  cbn [bind] in *. injection Hamount as Hamount. rewrite Hamount.
  eexists. split; [reflexivity|]. cbn [Amount Price USD].
  split; [reflexivity|].
  destruct (Float64.of_bits (le_combine b1)); reflexivity.
Qed.

Lemma deserializeRealTimeTradeData_zero_amount_witness :
  exists trade,
    deserializeRealTimeTradeData zero_amount_payload = Ok trade
    /\ Amount trade = S754_zero false
    /\ Price trade
       = match USD trade with
         | S754_nan | S754_zero _ => Float64.NaN
         | S754_infinity sx | S754_finite sx _ _ => S754_infinity (xorb sx false)
         end.
Proof.
  apply (deserializeRealTimeTradeData_zero_amount zero_amount_payload false);
    reflexivity.
Defined.

(** The payload with USD 1.0 and amount 0.0 decodes to a trade of price
    [+Infinity]; nothing is thrown. *)
Lemma deserializeRealTimeTradeData_zero_amount_counterexample :
  length zero_amount_payload = 24%nat
  /\ getFloat64 zero_amount_payload 16 = Ok (S754_zero false)
  /\ deserializeRealTimeTradeData zero_amount_payload
     = Ok {| TradeTime := 100; USD := Float64.of_Z 1; Amount := S754_zero false;
             Price := S754_infinity false |}.
Proof. repeat split. Qed.

Lemma deserializeCandleData_size_check_witness :
  (exists count,
      getUint32 short_batch 0 = Ok count
      /\ (byteLength short_batch <> 4 + count * 64 ->
          deserializeCandleData short_batch
          = Throw (InvalidDataSize (4 + count * 64) (byteLength short_batch)))
      /\ (byteLength short_batch = 4 + count * 64 ->
          exists cs, deserializeCandleData short_batch = Ok cs
                     /\ Z.of_nat (length cs) = count))
  /\ deserializeCandleData short_batch = Throw (InvalidDataSize 68 28).
Proof.
  split.
  - apply (proj1 deserializeCandleData_size_check short_batch).
    apply Nat.leb_le. reflexivity.
  - apply (proj2 deserializeCandleData_size_check short_batch); reflexivity.
Defined.

(** * The merge claims at sample inputs *)

Lemma handleRealTimeTrade_updates_latest_witness :
  (small_timestamp (TradeTime (sample_trade 125 24 2))
   /\ small_timestamp (Timestamp (sample_candle 60 10 10 11 9))
   /\ 0 <= TradeTime (sample_trade 125 24 2) / 60 * 60
           - Timestamp (sample_candle 60 10 10 11 9) <= 120)
  /\ (exists updated,
         candles (handleRealTimeTrade 125000 (sample_trade 125 24 2)
                    (sample_SDK no_ChartConfig
                       [sample_candle 0 9 10 10 9; sample_candle 60 10 10 11 9]))
         = [sample_candle 0 9 10 10 9] ++ [updated]
         /\ ClosePrice updated = Price (sample_trade 125 24 2)
         /\ HighPrice updated
            = Float64.Math_max (Float64.of_Z 11) (Price (sample_trade 125 24 2))
         /\ LowPrice updated
            = Float64.Math_min (Float64.of_Z 9) (Price (sample_trade 125 24 2))
         /\ VolumeIn updated = Float64.add (Float64.of_Z 100) (Float64.of_Z 24)
         /\ VolumeOut updated = Float64.add (Float64.of_Z 10) (Float64.of_Z 2)
         /\ OpenPrice updated = Float64.of_Z 10
         /\ Timestamp updated = 60)
  /\ tradeMinuteTimestamp (sample_trade 125 24 2) = 120
  /\ (exists updated,
         candles (handleRealTimeTrade 125000 (sample_trade 125 24 2)
                    (sample_SDK no_ChartConfig [sample_candle 60 10 10 11 9]))
         = [updated]
         /\ ClosePrice updated = Float64.of_Z 12
         /\ HighPrice updated = Float64.Math_max (Float64.of_Z 11) (Float64.of_Z 12)).
Proof.
  assert (Hexact : small_timestamp (TradeTime (sample_trade 125 24 2))
                   /\ small_timestamp (Timestamp (sample_candle 60 10 10 11 9))
                   /\ 0 <= TradeTime (sample_trade 125 24 2) / 60 * 60
                           - Timestamp (sample_candle 60 10 10 11 9) <= 120)
    by (unfold small_timestamp; cbn; lia).
  split; [exact Hexact|]. split; [|split; [reflexivity|]].
  - apply (proj1 handleRealTimeTrade_updates_latest 125000 (sample_trade 125 24 2)
             (sample_SDK no_ChartConfig
                [sample_candle 0 9 10 10 9; sample_candle 60 10 10 11 9])
             [sample_candle 0 9 10 10 9] (sample_candle 60 10 10 11 9));
      [reflexivity | right; exact Hexact].
  - apply (proj2 handleRealTimeTrade_updates_latest 125000 (sample_trade 125 24 2)
             (sample_SDK no_ChartConfig [sample_candle 60 10 10 11 9])
             (sample_candle 60 10 10 11 9));
      reflexivity.
Defined.

(** Two timestamps that are signed 64-bit integers and binary64 values:
    the trade's exact minute is 80 seconds after the candle, but the
    quotient, the product and the difference are rounded, the code finds a
    distance of 144 seconds, and the trade is not merged. *)
Lemma handleRealTimeTrade_updates_latest_counterexample :
  let trade := sample_trade 71571703861297496 24 2 in
  let latest := sample_candle 71571703861297360 10 10 11 9 in
  let s := sample_SDK no_ChartConfig [latest] in
  int64_number (TradeTime trade) = true
  /\ int64_number (Timestamp latest) = true
  /\ TradeTime trade / 60 * 60 - Timestamp latest = 80
  /\ tradeMinuteTimestamp trade = 71571703861297504
  /\ timeDiff trade latest = 144
  /\ candles (handleRealTimeTrade 125000 trade s) = [latest]
  /\ emitted (handleRealTimeTrade 125000 trade s) = emitted s.
Proof. vm_compute. repeat split. Qed.

Lemma handleRealTimeTrade_keeps_bracket_witness :
  0 <= timeDiff (sample_trade 125 24 2) (sample_candle 60 10 10 11 9) <= 120
  /\ exists updated,
       candles (handleRealTimeTrade 125000 (sample_trade 125 24 2)
                  (sample_SDK no_ChartConfig [sample_candle 60 10 10 11 9]))
       = [] ++ [updated]
       /\ Float64.ge (HighPrice updated)
            (Float64.Math_max (OpenPrice updated) (ClosePrice updated)) = true
       /\ Float64.le (LowPrice updated)
            (Float64.Math_min (OpenPrice updated) (ClosePrice updated)) = true.
Proof.
  assert (Hwindow : 0 <= timeDiff (sample_trade 125 24 2) (sample_candle 60 10 10 11 9)
                    <= 120)
    by (split; apply Z.leb_le; reflexivity).
  split; [exact Hwindow|].
  apply (handleRealTimeTrade_keeps_bracket 125000 (sample_trade 125 24 2)
           (sample_SDK no_ChartConfig [sample_candle 60 10 10 11 9]) []
           (sample_candle 60 10 10 11 9));
    [reflexivity | left; exact Hwindow | reflexivity | reflexivity | reflexivity].
Defined.

(** Two merges with a minute difference of 60 that break the bracket: a
    trade of price NaN (USD 0 over amount 0) on a well-formed candle, and a
    trade of price 3 on a candle whose high, 5, is below its open, 10.  And a
    trade whose exact minute is 80 seconds after the candle, at timestamps
    where the code computes 144: it is not merged, and the latest candle
    stays with its close, 20, above its high, 11. *)
Lemma handleRealTimeTrade_keeps_bracket_counterexample :
  (exists updated,
      candles (handleRealTimeTrade 125000 (sample_trade 125 0 0)
                 (sample_SDK no_ChartConfig [sample_candle 60 10 10 11 9]))
      = [updated]
      /\ Float64.ge (HighPrice updated)
           (Float64.Math_max (OpenPrice updated) (ClosePrice updated)) = false)
  /\ (exists updated,
         candles (handleRealTimeTrade 125000 (sample_trade 125 6 2)
                    (sample_SDK no_ChartConfig [sample_candle 60 10 5 5 5]))
         = [updated]
         /\ Float64.ge (HighPrice updated)
              (Float64.Math_max (OpenPrice updated) (ClosePrice updated)) = false)
  /\ (let trade := sample_trade 71571703861297496 24 2 in
      let latest := sample_candle 71571703861297360 10 20 11 9 in
      TradeTime trade / 60 * 60 - Timestamp latest = 80
      /\ Float64.isNaN (Price trade) = false
      /\ Float64.ge (HighPrice latest) (OpenPrice latest) = true
      /\ Float64.le (LowPrice latest) (OpenPrice latest) = true
      /\ candles (handleRealTimeTrade 125000 trade (sample_SDK no_ChartConfig [latest]))
         = [latest]
      /\ Float64.ge (HighPrice latest)
           (Float64.Math_max (OpenPrice latest) (ClosePrice latest)) = false).
Proof.
  split; [|split]; [eexists; split; reflexivity | eexists; split; reflexivity|].
  vm_compute. repeat split.
Qed.

Lemma handleRealTimeTrade_old_trade_prunes_witness :
  (timeDiff (sample_trade 4000 24 2) (sample_candle 4020 10 12 12 10) < 0
   /\ candles (handleRealTimeTrade 4000000 (sample_trade 4000 24 2)
                 (sample_SDK no_ChartConfig
                    [sample_candle 60 10 10 11 9; sample_candle 4020 10 12 12 10]))
      = filter (fun candle => cutoffTimestamp (sample_trade 4000 24 2) <=? Timestamp candle)
          [sample_candle 60 10 10 11 9; sample_candle 4020 10 12 12 10])
  /\ (small_timestamp (TradeTime (sample_trade 4000 24 2))
      /\ small_timestamp (Timestamp (sample_candle 4020 10 12 12 10))
      /\ TradeTime (sample_trade 4000 24 2) / 60 * 60
         < Timestamp (sample_candle 4020 10 12 12 10)
      /\ candles (handleRealTimeTrade 4000000 (sample_trade 4000 24 2)
                    (sample_SDK no_ChartConfig
                       [sample_candle 60 10 10 11 9; sample_candle 4020 10 12 12 10]))
         = [sample_candle 4020 10 12 12 10])
  /\ candles (handleRealTimeTrade 10000 (sample_trade 10 24 2)
                (sample_SDK no_ChartConfig
                   [sample_candle 60 10 10 11 9; sample_candle 120 10 12 12 10;
                    sample_candle 180 12 11 12 11]))
     = [sample_candle 60 10 10 11 9; sample_candle 120 10 12 12 10;
        sample_candle 180 12 11 12 11].
Proof.
  assert (Hold : timeDiff (sample_trade 4000 24 2) (sample_candle 4020 10 12 12 10) < 0)
    by reflexivity.
  assert (Hsmall : small_timestamp (TradeTime (sample_trade 4000 24 2))
                   /\ small_timestamp (Timestamp (sample_candle 4020 10 12 12 10))
                   /\ TradeTime (sample_trade 4000 24 2) / 60 * 60
                      < Timestamp (sample_candle 4020 10 12 12 10))
    by (unfold small_timestamp; cbn; lia).
  split; [split; [exact Hold|] | split].
  - apply (proj1 handleRealTimeTrade_old_trade_prunes 4000000 (sample_trade 4000 24 2)
             (sample_SDK no_ChartConfig
                [sample_candle 60 10 10 11 9; sample_candle 4020 10 12 12 10])
             [sample_candle 60 10 10 11 9] (sample_candle 4020 10 12 12 10));
      [reflexivity | exact Hold].
  - destruct Hsmall as (Ht & Hl & Hlt).
    split; [exact Ht|]. split; [exact Hl|]. split; [exact Hlt|].
    apply (proj1 (proj2 handleRealTimeTrade_old_trade_prunes) 4000000
             (sample_trade 4000 24 2)
             (sample_SDK no_ChartConfig
                [sample_candle 60 10 10 11 9; sample_candle 4020 10 12 12 10])
             [sample_candle 60 10 10 11 9] (sample_candle 4020 10 12 12 10)
             eq_refl Ht Hl Hlt).
  - apply (proj2 (proj2 handleRealTimeTrade_old_trade_prunes) 10000 (sample_trade 10 24 2)
             (sample_SDK no_ChartConfig
                [sample_candle 60 10 10 11 9; sample_candle 120 10 12 12 10;
                 sample_candle 180 12 11 12 11])
             (sample_candle 60 10 10 11 9) (sample_candle 120 10 12 12 10)
             (sample_candle 180 12 11 12 11));
      try reflexivity; cbn; lia.
Defined.

(** Timestamps that are signed 64-bit integers and binary64 values, around
    [B = 15 * 2^59]: the trade's minute is [B], before the latest candle at
    [B + 1024], and the candle at [B - 4096] is older than [B - 3600]; but
    the code's cutoff, [B - 3600] rounded, is [B - 4096], and the candle is
    kept. *)
Lemma handleRealTimeTrade_old_trade_prunes_counterexample :
  let B := 15 * 2 ^ 59 in
  let trade := sample_trade B 24 2 in
  let old := sample_candle (B - 4096) 9 10 10 9 in
  let latest := sample_candle (B + 1024) 10 10 11 9 in
  int64_number B = true
  /\ int64_number (Timestamp old) = true /\ int64_number (Timestamp latest) = true
  /\ TradeTime trade / 60 * 60 = B
  /\ B < Timestamp latest
  /\ Timestamp old < B - 3600
  /\ cutoffTimestamp trade = B - 4096
  /\ candles (handleRealTimeTrade 125000 trade (sample_SDK no_ChartConfig [old; latest]))
     = [old; latest].
Proof. vm_compute. repeat split. Qed.

(** * The upsert claim at sample inputs *)

Lemma fetchLatestCandle_prunes_witness :
  ((forall m, Some 2 = Some m -> 0 < m ->
      Z.of_nat (length (candles (fetchLatestCandle 200000 (Some (sample_candle 180 12 11 12 11))
         (sample_SDK {| maxCandles := Some 2; updateInterval := None |}
            [sample_candle 60 10 10 11 9; sample_candle 120 10 12 12 10])))) <= m)
   /\ (Some 2 = None \/ Some 2 = Some 0 ->
       Z.of_nat (length (candles (fetchLatestCandle 200000 (Some (sample_candle 180 12 11 12 11))
         (sample_SDK {| maxCandles := Some 2; updateInterval := None |}
            [sample_candle 60 10 10 11 9; sample_candle 120 10 12 12 10])))) <= 1000)
   /\ Forall (fun candle => 200000 / 1000 - 86400 <= Timestamp candle)
        (candles (fetchLatestCandle 200000 (Some (sample_candle 180 12 11 12 11))
           (sample_SDK {| maxCandles := Some 2; updateInterval := None |}
              [sample_candle 60 10 10 11 9; sample_candle 120 10 12 12 10]))))
  /\ maxCandles (chartConfig (sample_SDK {| maxCandles := Some 0; updateInterval := None |}
                                [sample_candle 60 10 10 11 9])) = Some 0
  /\ Z.of_nat (length (candles (fetchLatestCandle 200000 (Some (sample_candle 120 10 12 12 10))
        (sample_SDK {| maxCandles := Some 0; updateInterval := None |}
           [sample_candle 60 10 10 11 9])))) <= 1000.
Proof.
  split; [|split; [reflexivity|]].
  - apply (fetchLatestCandle_prunes 200000 (sample_candle 180 12 11 12 11)
             (sample_SDK {| maxCandles := Some 2; updateInterval := None |}
                [sample_candle 60 10 10 11 9; sample_candle 120 10 12 12 10])).
    reflexivity.
  - apply (proj1 (proj2 (fetchLatestCandle_prunes 200000 (sample_candle 120 10 12 12 10)
                           (sample_SDK {| maxCandles := Some 0; updateInterval := None |}
                              [sample_candle 60 10 10 11 9])
                           eq_refl))).
    right. reflexivity.
Defined.

(** With [maxCandles: 0] configured, [0 || 1000] puts the limit at 1000: an
    insert next to one fresh candle leaves two candles. *)
Lemma fetchLatestCandle_prunes_counterexample :
  maxCandles (chartConfig (sample_SDK {| maxCandles := Some 0; updateInterval := None |}
                             [sample_candle 60 10 10 11 9])) = Some 0
  /\ candles (fetchLatestCandle 200000 (Some (sample_candle 120 10 12 12 10))
                (sample_SDK {| maxCandles := Some 0; updateInterval := None |}
                   [sample_candle 60 10 10 11 9]))
     = [sample_candle 60 10 10 11 9; sample_candle 120 10 12 12 10].
Proof. split; reflexivity. Qed.

(** * The reconnection claim at sample inputs *)

Lemma attemptReconnect_exhaustion_witness :
  (let s := ws_run (consecutive_failures false 5) (started false (five_attempts None)) in
   length (filter is_timer (effects s)) = 5%nat
   /\ filter is_exhausted (effects s) = []
   /\ ws s = Some CONNECTING)
  /\ (let s := ws_run (consecutive_failures false 6) (started false (five_attempts None)) in
      length (filter is_timer (effects s)) = 5%nat
      /\ filter is_exhausted (effects s)
         = [ErrorReported "Failed to reconnect after maximum attempts"]
      /\ reconnectTimers s = []
      /\ ws s = Some CLOSED).
Proof.
  split.
  - apply (proj1 (attemptReconnect_exhaustion None false false) 5%nat). lia.
  - apply (proj2 (attemptReconnect_exhaustion None false false) 6%nat). lia.
Defined.

(** The fifth consecutive failure, with the default delays: the close event
    sets the fifth retry timer, of 16 s, and nothing has reported the
    exhaustion. *)
Lemma attemptReconnect_exhaustion_counterexample :
  let s := ws_run (consecutive_failures false 4 ++ [SocketCloses])
             (connecting (five_attempts None)) in
  maxReconnectAttempts s = 5
  /\ reconnectAttempts s = 5
  /\ reconnectTimers s = [16000]
  /\ filter is_timer (effects s)
     = [ReconnectTimerSet 1000; ReconnectTimerSet 2000; ReconnectTimerSet 4000;
        ReconnectTimerSet 8000; ReconnectTimerSet 16000]
  /\ filter is_exhausted (effects s) = [].
Proof. repeat split. Qed.

(** * A failed history fetch *)

Lemma fetchHistoryCandles_failure (response : http_outcome) :
  history_fetch_fails response = true -> fetchHistoryCandles response = [].
Proof.
  destruct response as [ | | [binaryData|]]; cbn; try reflexivity; try discriminate.
  destruct (deserializeCandleData binaryData); [discriminate | reflexivity].
Qed.

(** Whatever the history request answers, [initialize] ends with the fetched
    candles as its series, no error, and a chart update sent while loading. *)
Lemma initialize_outcome
  (now : Z) (tokenId : string) (connectWebSocket : bool) (response : http_outcome)
  (s : SDK) :
  candles (initialize now tokenId connectWebSocket response s)
  = fetchHistoryCandles response
  /\ error (initialize now tokenId connectWebSocket response s) = None
  /\ isLoading (initialize now tokenId connectWebSocket response s) = false
  /\ exists sent,
       emitted (initialize now tokenId connectWebSocket response s) = emitted s ++ sent
       /\ filter is_ErrorReport sent = []
       /\ In (ChartUpdate {| data_candles := fetchHistoryCandles response;
                             data_lastUpdate := Some now;
                             data_isLoading := true; data_error := None |}) sent.
Proof.
  unfold initialize, startPeriodicUpdates.
  cbn [set_currentTokenId set_isLoading set_error set_candles
         set_lastUpdate chartConfig currentTokenId].
  destruct (updateInterval (chartConfig s)) as [interval|];
    [destruct (negb (interval =? 0) && truthy_string (Some tokenId))|];
    destruct connectWebSocket;
    cbn [notifyChartUpdate getChartData emit set_isLoading candles error isLoading
           lastUpdate emitted];
    repeat split; rewrite <- ?app_assoc;
    eexists; (split; [reflexivity|]);
    (split; [reflexivity | cbn; tauto]).
Qed.

(** C9, as amended.  [initialize] empties the series before it fetches, and
    [fetchHistoryCandles] answers a failed fetch with the empty sequence
    instead of throwing.  So after a failed fetch the series is empty, the
    error field is [null], no error has been reported, and the consumer has
    been sent a chart update with the empty series. *)
Theorem initialize_history_failure
  (now : Z) (tokenId : string) (connectWebSocket : bool) (response : http_outcome)
  (s : SDK) :
  history_fetch_fails response = true ->
  fetchHistoryCandles response = []
  /\ candles (initialize now tokenId connectWebSocket response s) = []
  /\ error (initialize now tokenId connectWebSocket response s) = None
  /\ isLoading (initialize now tokenId connectWebSocket response s) = false
  /\ exists sent,
       emitted (initialize now tokenId connectWebSocket response s) = emitted s ++ sent
       /\ filter is_ErrorReport sent = []
       /\ In (ChartUpdate {| data_candles := []; data_lastUpdate := Some now;
                             data_isLoading := true; data_error := None |}) sent.
Proof.
  intros Hfails. apply fetchHistoryCandles_failure in Hfails.
  split; [exact Hfails|].
  pose proof (initialize_outcome now tokenId connectWebSocket response s) as H.
  rewrite Hfails in H. exact H.
Qed.

Lemma initialize_history_failure_witness :
  fetchHistoryCandles HttpFailed = []
  /\ candles (initialize 200000 "token" true HttpFailed
                (sample_SDK no_ChartConfig [sample_candle 60 10 10 11 9])) = []
  /\ error (initialize 200000 "token" true HttpFailed
              (sample_SDK no_ChartConfig [sample_candle 60 10 10 11 9])) = None
  /\ isLoading (initialize 200000 "token" true HttpFailed
                  (sample_SDK no_ChartConfig [sample_candle 60 10 10 11 9])) = false
  /\ exists sent,
       emitted (initialize 200000 "token" true HttpFailed
                  (sample_SDK no_ChartConfig [sample_candle 60 10 10 11 9]))
       = emitted (sample_SDK no_ChartConfig [sample_candle 60 10 10 11 9]) ++ sent
       /\ filter is_ErrorReport sent = []
       /\ In (ChartUpdate {| data_candles := []; data_lastUpdate := Some 200000;
                             data_isLoading := true; data_error := None |}) sent.
Proof.
  apply (initialize_history_failure 200000 "token" true HttpFailed
           (sample_SDK no_ChartConfig [sample_candle 60 10 10 11 9])).
  reflexivity.
Defined.

(** A facade holding one candle loses it when the history request fails,
    and reports no error. *)
Lemma initialize_history_failure_counterexample :
  candles (sample_SDK no_ChartConfig [sample_candle 60 10 10 11 9])
  = [sample_candle 60 10 10 11 9]
  /\ candles (initialize 200000 "token" true HttpFailed
                (sample_SDK no_ChartConfig [sample_candle 60 10 10 11 9])) = []
  /\ filter is_ErrorReport
       (emitted (initialize 200000 "token" true HttpFailed
                   (sample_SDK no_ChartConfig [sample_candle 60 10 10 11 9]))) = [].
Proof. repeat split. Qed.

(** * A subscribe acknowledgement with error status *)

(** C10.  The code against the claim.  A structured subscribe
    acknowledgement whose status is [error] and which carries a usable
    [subscribe_id] is taken as a success: the identifier is stored, the
    subscribed flag is set, the subscription callback is called with the
    identifier, and nothing is reported through the error callback.  The
    sibling branch of the same function does read the status: an
    [unsubscribed] acknowledgement whose status is [error] changes
    nothing. *)
Theorem handleTextMessage_error_ack :
  (forall (JSON_parse : string -> option json) (message : string) (ack id : json)
          (s : WebSocketService),
      JSON_parse message = Some ack ->
      is_string (property "action" ack) "subscribed" = true ->
      is_string (property "status" ack) "error" = true ->
      property "subscribe_id" ack = Some id -> truthy (Some id) = true ->
      subscribeId (handleTextMessage JSON_parse message s) = Some id
      /\ isSubscribed (handleTextMessage JSON_parse message s) = true
      /\ effects (handleTextMessage JSON_parse message s)
         = effects s ++ [SubscriptionChanged (Some id)]
      /\ filter is_error (effects (handleTextMessage JSON_parse message s))
         = filter is_error (effects s))
  /\ (forall (JSON_parse : string -> option json) (message : string) (ack : json)
             (s : WebSocketService),
         JSON_parse message = Some ack ->
         is_string (property "action" ack) "unsubscribed" = true ->
         is_string (property "status" ack) "error" = true ->
         handleTextMessage JSON_parse message s = s).
Proof.
  split.
  - intros JSON_parse message ack id s Hparse Haction Hstatus Hid Htruthy.
    unfold handleTextMessage. rewrite Hparse.
    destruct ack as [ | b | x | str | items | members]; try discriminate.
    rewrite Haction, Hid, Htruthy. cbn [andb perform set_subscription subscribeId
                                          isSubscribed effects].
    repeat split. rewrite filter_app. cbn. now rewrite app_nil_r.
  - intros JSON_parse message ack s Hparse Haction Hstatus.
    unfold handleTextMessage. rewrite Hparse.
    destruct ack as [ | b | x | str | items | members]; try discriminate.
    assert (Hsub : is_string (property "action" (JObject members)) "subscribed" = false).
    { unfold is_string in *.
      destruct (property "action" (JObject members)) as [[ | | | str | | ]|];
        try discriminate.
      apply String.eqb_eq in Haction. subst str. reflexivity. }
    assert (Hsuccess : is_string (property "status" (JObject members)) "success" = false).
    { unfold is_string in *.
      destruct (property "status" (JObject members)) as [[ | | | str | | ]|];
        try discriminate.
      apply String.eqb_eq in Hstatus. subst str. reflexivity. }
    rewrite Hsub, Haction, Hsuccess. reflexivity.
Qed.

(** The acknowledgement [{"action":"subscribed","subscribe_id":"abc",
    "status":"error"}] on a fresh service, and an [unsubscribed]
    acknowledgement with status [error] on a subscribed one. *)
Lemma handleTextMessage_error_ack_witness :
  (sample_JSON_parse rejected_ack_text = Some rejected_ack
   /\ is_string (property "status" rejected_ack) "error" = true
   /\ subscribeId (handleTextMessage sample_JSON_parse rejected_ack_text
                     (new_WebSocketService (five_attempts None)))
      = Some (JString "abc")
   /\ isSubscribed (handleTextMessage sample_JSON_parse rejected_ack_text
                      (new_WebSocketService (five_attempts None))) = true
   /\ effects (handleTextMessage sample_JSON_parse rejected_ack_text
                  (new_WebSocketService (five_attempts None)))
      = [SubscriptionChanged (Some (JString "abc"))]
   /\ filter is_error
        (effects (handleTextMessage sample_JSON_parse rejected_ack_text
                    (new_WebSocketService (five_attempts None)))) = [])
  /\ handleTextMessage
       (fun _ => Some (JObject [("action", JString "unsubscribed");
                                ("status", JString "error")]%string))
       "unsubscribed"%string
       (set_subscription (Some (JString "abc")) true
          (new_WebSocketService (five_attempts None)))
     = set_subscription (Some (JString "abc")) true
         (new_WebSocketService (five_attempts None)).
Proof.
  split.
  - split; [reflexivity|]. split; [reflexivity|].
    apply (proj1 handleTextMessage_error_ack sample_JSON_parse rejected_ack_text
             rejected_ack (JString "abc") (new_WebSocketService (five_attempts None)));
      reflexivity.
  - apply (proj2 handleTextMessage_error_ack
             (fun _ => Some (JObject [("action", JString "unsubscribed");
                                      ("status", JString "error")]%string))
             "unsubscribed"%string
             (JObject [("action", JString "unsubscribed"); ("status", JString "error")]%string)
             (set_subscription (Some (JString "abc")) true
                (new_WebSocketService (five_attempts None))));
      reflexivity.
Defined.

(** * More about the codec *)

(** Every 64-bit pattern reads as a binary64 value. *)
Lemma of_bits_is_float64 (b : Z) :
  0 <= b < 2 ^ 64 -> Float64.is_float64 (Float64.of_bits b) = true.
Proof.
  intros Hb. unfold Float64.of_bits.
  assert (HE : 0 <= (b / 2 ^ 52) mod 2048 < 2048) by (apply Z.mod_pos_bound; lia).
  assert (Hf : 0 <= b mod 2 ^ 52 < 2 ^ 52) by (apply Z.mod_pos_bound; lia).
  set (E := (b / 2 ^ 52) mod 2048) in *. set (f := b mod 2 ^ 52) in *.
  destruct (Z.eqb_spec E 0) as [HE0 | HE0].
  - destruct (Z.eqb_spec f 0) as [Hf0 | Hf0]; [reflexivity|].
    unfold Float64.is_float64, valid_binary, bounded, canonical_mantissa, fexp, emin,
      Float64.prec, Float64.emax.
    pose proof (digits2_pos_bounds (Z.to_pos f)) as [Hlo Hhi].
    rewrite Z2Pos.id in Hlo, Hhi by lia.
    set (d := Z.pos (digits2_pos (Z.to_pos f))) in *.
    assert (Hd : d <= 52).
    { destruct (Z_le_gt_dec d 52) as [|Hgt]; [assumption|].
      assert (2 ^ 52 <= 2 ^ (d - 1)) by (apply Z.pow_le_mono_r; lia). lia. }
    apply andb_true_iff. split; [apply Z.eqb_eq | apply Z.leb_le]; lia.
  - destruct (Z.eqb_spec E 2047) as [HE1 | HE1];
      [destruct (Z.eqb_spec f 0); reflexivity|].
    unfold Float64.is_float64, valid_binary, bounded, canonical_mantissa, fexp, emin,
      Float64.prec, Float64.emax.
    pose proof (digits2_pos_bounds (Z.to_pos (f + 2 ^ 52))) as [Hlo Hhi].
    rewrite Z2Pos.id in Hlo, Hhi by lia.
    set (d := Z.pos (digits2_pos (Z.to_pos (f + 2 ^ 52)))) in *.
    assert (Hd : d = 53).
    { destruct (Z_lt_le_dec d 53) as [Hlt|Hge].
      - assert (2 ^ d <= 2 ^ 52) by (apply Z.pow_le_mono_r; lia). lia.
      - destruct (Z_le_gt_dec d 53) as [|Hgt]; [lia|].
        assert (2 ^ 53 <= 2 ^ (d - 1)) by (apply Z.pow_le_mono_r; lia). lia. }
    apply andb_true_iff. split; [apply Z.eqb_eq | apply Z.leb_le]; lia.
Qed.

Lemma le_combine_8_range (bs : list byte) :
  length bs = 8%nat -> 0 <= le_combine bs < 2 ^ 64.
Proof.
  intros H. pose proof (le_combine_bound bs) as Hb. rewrite H in Hb. exact Hb.
Qed.

Lemma view_get_length (data bs : list byte) (off n : nat) :
  view_get data off n = Ok bs -> length bs = n.
Proof.
  unfold view_get. destruct (Nat.leb_spec (off + n) (length data)); [|discriminate].
  intros Hget. injection Hget as <-. rewrite length_firstn, length_skipn. lia.
Qed.

(** X1.  [deserializeRealTimeTradeData] throws its size error exactly on
    payloads that are not 24 bytes long; on 24 bytes it always returns a
    trade, whose two amounts are binary64 values and whose price is their
    quotient. *)
Theorem deserializeRealTimeTradeData_total (data : list byte) :
  (length data <> 24%nat ->
   deserializeRealTimeTradeData data = Throw (InvalidTradeSize (byteLength data)))
  /\ (length data = 24%nat ->
      exists trade,
        deserializeRealTimeTradeData data = Ok trade
        /\ Float64.is_float64 (USD trade) = true
        /\ Float64.is_float64 (Amount trade) = true
        /\ Price trade = Float64.div (USD trade) (Amount trade)).
Proof.
  unfold deserializeRealTimeTradeData, byteLength. split; intros Hlen.
  - destruct (Z.eqb_spec (Z.of_nat (length data)) 24); [lia | reflexivity].
  - rewrite Hlen. cbn [Z.of_nat Pos.of_succ_nat Pos.succ Z.eqb Pos.eqb negb].
    unfold getBigInt64, getFloat64.
    destruct (view_get_in_bounds data 0 8) as [b0 ->]; [lia|].
    destruct (view_get_in_bounds data 8 8) as [b1 H1]; [lia|].
    destruct (view_get_in_bounds data 16 8) as [b2 H2]; [lia|].
    rewrite H1, H2. cbn [bind]. eexists. split; [reflexivity|].
    cbn [USD Amount Price].
    repeat split; apply of_bits_is_float64, le_combine_8_range;
      eapply view_get_length; eassumption.
Qed.

(** X2.  [deserializeCandleData] throws a [RangeError] exactly on buffers
    shorter than the 4 bytes of the count; once the count can be read, no
    read of the loop leaves the buffer. *)
Theorem deserializeCandleData_RangeError (data : list byte) :
  deserializeCandleData data = Throw RangeError <-> (length data < 4)%nat.
Proof.
  unfold deserializeCandleData, getUint32. split.
  - intros H. destruct (Nat.lt_ge_cases (length data) 4) as [|Hge]; [assumption|].
    exfalso. destruct (view_get_in_bounds data 0 4) as [bs Hbs]; [lia|].
    rewrite Hbs in H. cbn [bind] in H.
    destruct (Z.eqb_spec (byteLength data) (4 + le_combine bs * 64)) as [Hsize|];
      [|discriminate].
    cbn [negb] in H. pose proof (le_combine_bound bs) as Hc. unfold byteLength in Hsize.
    destruct (read_candles_in_bounds data (Z.to_nat (le_combine bs)) 4) as (cs & Hcs & _);
      [lia|].
    rewrite Hcs in H. discriminate.
  - intros H. unfold view_get.
    destruct (Nat.leb_spec (0 + 4) (length data)); [lia | reflexivity].
Qed.

Lemma view_get_prefix (prefix tail : list byte) (off n : nat) :
  (off + n <= length prefix)%nat ->
  view_get (prefix ++ tail) off n = view_get prefix off n.
Proof.
  intros H. unfold view_get. rewrite length_app.
  destruct (Nat.leb_spec (off + n) (length prefix + length tail)); [|lia].
  destruct (Nat.leb_spec (off + n) (length prefix)); [|lia].
  f_equal. rewrite skipn_app, firstn_app, length_skipn.
  replace (n - (length prefix - off))%nat with 0%nat by lia.
  cbn [firstn]. now rewrite app_nil_r.
Qed.

Lemma read_candle_prefix (prefix tail : list byte) (off : nat) :
  (off + 56 <= length prefix)%nat ->
  read_candle (prefix ++ tail) off = read_candle prefix off.
Proof.
  intros H. unfold read_candle, getBigInt64, getFloat64.
  now rewrite !view_get_prefix by lia.
Qed.

Lemma read_candles_prefix (prefix tail : list byte) (n : nat) :
  forall off : nat,
    (off + 56 * n <= length prefix)%nat ->
    read_candles (prefix ++ tail) n off = read_candles prefix n off.
Proof.
  induction n as [|n IH]; intros off H; [reflexivity|].
  cbn [read_candles]. rewrite read_candle_prefix by lia.
  now rewrite IH by lia.
Qed.

(** X3.  The decoder consumes 56 bytes per candle: whatever follows the
    first [4 + 56 * count] bytes of a buffer has no influence on the result
    beyond its length. *)
Theorem deserializeCandleData_ignores_tail (prefix tail1 tail2 : list byte) (count : Z) :
  getUint32 prefix 0 = Ok count ->
  Z.of_nat (length prefix) = 4 + 56 * count ->
  length tail1 = length tail2 ->
  deserializeCandleData (prefix ++ tail1) = deserializeCandleData (prefix ++ tail2).
Proof.
  intros Hcount Hlen Htail. unfold deserializeCandleData, getUint32 in *.
  assert (Hc : 0 <= count).
  { destruct (view_get prefix 0 4) as [bs|]; [|discriminate].
    cbn [bind] in Hcount. injection Hcount as <-. apply le_combine_bound. }
  rewrite !view_get_prefix by lia.
  destruct (view_get prefix 0 4) as [bs|]; [|discriminate].
  cbn [bind] in *. injection Hcount as Hcount. rewrite Hcount.
  unfold byteLength. rewrite !length_app, Htail.
  destruct (negb (Z.of_nat (length prefix + length tail2) =? 4 + count * 64));
    [reflexivity|].
  now rewrite !read_candles_prefix by lia.
Qed.

Lemma asIntN64_split (t : Z) : asIntN64 (le_combine (le_split 8 t)) = asIntN64 t.
Proof.
  rewrite le_combine_split. change (Z.of_nat 8 * 8) with 64.
  unfold asIntN64. now rewrite Z.mod_mod by lia.
Qed.

Lemma candle_floats_fields (c : Candle) :
  candle_floats c = true ->
  Float64.is_float64 (OpenPrice c) = true /\ Float64.is_float64 (ClosePrice c) = true
  /\ Float64.is_float64 (HighPrice c) = true /\ Float64.is_float64 (LowPrice c) = true
  /\ Float64.is_float64 (VolumeIn c) = true /\ Float64.is_float64 (VolumeOut c) = true.
Proof.
  unfold candle_floats. intros H.
  do 5 (apply andb_true_iff in H; destruct H as [H ?]).
  repeat split; assumption.
Qed.

Lemma read_candle_image (pre rest : list byte) (off : nat) (c : Candle) :
  off = length pre -> candle_floats c = true ->
  read_candle (pre ++ candle_bytes c ++ rest) off = Ok (wire_image c).
Proof.
  intros -> Hc. apply candle_floats_fields in Hc.
  destruct Hc as (Ho & Hcl & Hh & Hl & Hvi & Hvo).
  unfold read_candle, getBigInt64, getFloat64, candle_bytes.
  rewrite <- (Nat.add_0_r (length pre)) at 1.
  rewrite !view_get_after by reflexivity.
  rewrite <- !app_assoc.
  read_field.
  skip_field 0%nat. read_field.
  skip_field 8%nat. skip_field 0%nat. read_field.
  skip_field 16%nat. skip_field 8%nat. skip_field 0%nat. read_field.
  skip_field 24%nat. skip_field 16%nat. skip_field 8%nat. skip_field 0%nat. read_field.
  skip_field 32%nat. skip_field 24%nat. skip_field 16%nat. skip_field 8%nat.
  skip_field 0%nat. read_field.
  skip_field 40%nat. skip_field 32%nat. skip_field 24%nat. skip_field 16%nat.
  skip_field 8%nat. skip_field 0%nat. read_field.
  rewrite asIntN64_split.
  rewrite !float64_roundtrip by assumption.
  reflexivity.
Qed.

Lemma read_candles_image (cs : list Candle) :
  forall (pre rest : list byte) (off : nat),
    off = length pre -> forallb candle_floats cs = true ->
    read_candles (pre ++ concat (map candle_bytes cs) ++ rest) (length cs) off
    = Ok (map wire_image cs).
Proof.
  induction cs as [|c cs IH]; intros pre rest off -> Hcs; [reflexivity|].
  cbn [forallb] in Hcs. apply andb_true_iff in Hcs. destruct Hcs as [Hc Hcs].
  cbn [read_candles length map concat].
  rewrite <- app_assoc.
  rewrite read_candle_image by auto. cbn [bind].
  replace (pre ++ candle_bytes c ++ concat (map candle_bytes cs) ++ rest)
    with ((pre ++ candle_bytes c) ++ concat (map candle_bytes cs) ++ rest)
    by (now rewrite <- app_assoc).
  rewrite IH by (rewrite ?length_app, ?length_candle_bytes; auto).
  reflexivity.
Qed.

(** X4.  For every candle sequence, whatever its timestamps, the encoder
    does not throw and the decoder reads its bytes back as the same prices
    and volumes, each timestamp reduced to its signed 64-bit reading and
    rounded to a JavaScript number. *)
Theorem decode_encoded_batch (cs : list Candle) :
  Z.of_nat (length cs) < 2 ^ 32 -> forallb candle_floats cs = true ->
  exists bytes,
    createMockBinaryData cs = Ok bytes
    /\ byteLength bytes = 4 + Z.of_nat (length cs) * 64
    /\ deserializeCandleData bytes = Ok (map wire_image cs).
Proof.
  intros Hlen Hcs. eexists. split; [apply createMockBinaryData_bytes|].
  assert (Hsize : byteLength (batch_bytes cs ++ ArrayBuffer (length cs * 8))
                  = 4 + Z.of_nat (length cs) * 64).
  { unfold byteLength. rewrite length_app, length_batch_bytes.
    unfold ArrayBuffer. rewrite repeat_length. lia. }
  split; [exact Hsize|].
  unfold deserializeCandleData, getUint32.
  unfold batch_bytes at 1. rewrite <- app_assoc.
  rewrite view_get_here by (now rewrite length_le_split). cbn [bind].
  rewrite le_combine_split. change (Z.of_nat 4 * 8) with 32.
  rewrite Z.mod_small by lia.
  rewrite Hsize, Z.eqb_refl. cbn [negb]. rewrite Nat2Z.id.
  unfold batch_bytes. rewrite <- app_assoc.
  apply read_candles_image; [now rewrite length_le_split | exact Hcs].
Qed.

(** * The collaborator and the poll *)

Lemma decode_encoded_on_wire (cs : list Candle) (bytes : list byte) :
  Z.of_nat (length cs) < 2 ^ 32 -> forallb candle_on_wire cs = true ->
  createMockBinaryData cs = Ok bytes ->
  deserializeCandleData bytes = Ok cs.
Proof.
  intros Hlen Hcs Hbytes.
  pose proof (createMockBinaryData_bytes cs) as Hencode. rewrite Hbytes in Hencode.
  assert (Heq : bytes = batch_bytes cs ++ ArrayBuffer (length cs * 8)) by congruence.
  rewrite Heq. apply deserialize_batch_bytes; assumption.
Qed.

(** X5.  A response carrying an encoded batch gives [fetchHistoryCandles]
    the encoded sequence and [fetchSingleCandle] its first candle. *)
Theorem fetch_encoded_batch (cs : list Candle) (bytes : list byte) :
  Z.of_nat (length cs) < 2 ^ 32 -> forallb candle_on_wire cs = true ->
  createMockBinaryData cs = Ok bytes ->
  fetchHistoryCandles (HttpBase64 (Some bytes)) = cs
  /\ fetchSingleCandle (HttpBase64 (Some bytes)) = hd_error cs.
Proof.
  intros Hlen Hcs Hbytes.
  pose proof (decode_encoded_on_wire cs bytes Hlen Hcs Hbytes) as Hdecode.
  cbn [fetchHistoryCandles fetchSingleCandle]. rewrite Hdecode.
  split; [reflexivity|]. destruct cs; reflexivity.
Qed.

Lemma fetchSingleCandle_failure (response : http_outcome) :
  history_fetch_fails response = true -> fetchSingleCandle response = None.
Proof.
  destruct response as [ | | [binaryData|]]; cbn; try reflexivity; try discriminate.
  destruct (deserializeCandleData binaryData); [discriminate | reflexivity].
Qed.

(** X6.  A poll whose request fails or answers with an empty body leaves
    the facade as it was: the series, the error field and the last-update
    time are unchanged and the consumer is not called. *)
Theorem pollOnce_without_candle (now : Z) (response : http_outcome) (s : SDK) :
  history_fetch_fails response = true \/ response = HttpEmptyBody ->
  pollOnce now response s = s.
Proof.
  intros H. unfold pollOnce.
  assert (Hnone : fetchSingleCandle response = None).
  { destruct H as [H | ->]; [apply fetchSingleCandle_failure, H | reflexivity]. }
  rewrite Hnone. unfold fetchLatestCandle.
  destruct (negb (truthy_string (currentTokenId s))); reflexivity.
Qed.

(** * Order of the series *)

Lemma strictly_increasing_sorted (ts : list Z) :
  strictly_increasing ts = true <-> StronglySorted Z.lt ts.
Proof.
  induction ts as [|t ts IH]; [split; [constructor | reflexivity]|].
  destruct ts as [|u ts]; [split; [repeat constructor | reflexivity]|].
  change (strictly_increasing (t :: u :: ts))
    with ((t <? u) && strictly_increasing (u :: ts)).
  rewrite andb_true_iff, Z.ltb_lt, IH. split.
  - intros [Htu Hs]. constructor; [exact Hs|].
    constructor; [exact Htu|].
    apply StronglySorted_inv in Hs. destruct Hs as [_ Hall].
    eapply Forall_impl; [|exact Hall]. intros x Hx. lia.
  - intros Hs. apply StronglySorted_inv in Hs. destruct Hs as [Hs Hall].
    split; [|exact Hs]. now apply Forall_inv in Hall.
Qed.

Lemma StronglySorted_map_Timestamp (cs : list Candle) :
  StronglySorted Z.lt (map Timestamp cs) <-> StronglySorted before cs.
Proof.
  induction cs as [|c cs IH]; [split; constructor|].
  cbn [map]. split; intros H; apply StronglySorted_inv in H; destruct H as [Hs Hall];
    (constructor; [now apply IH|]).
  - rewrite Forall_map in Hall. exact Hall.
  - rewrite Forall_map. exact Hall.
Qed.

Lemma chronological_sorted (cs : list Candle) :
  chronological cs <-> StronglySorted before cs.
Proof.
  unfold chronological. now rewrite strictly_increasing_sorted, StronglySorted_map_Timestamp.
Qed.

Lemma chronological_same_timestamps (cs cs' : list Candle) :
  map Timestamp cs' = map Timestamp cs -> chronological cs -> chronological cs'.
Proof. unfold chronological. now intros ->. Qed.

Lemma sorted_filter (p : Candle -> bool) (cs : list Candle) :
  StronglySorted before cs -> StronglySorted before (filter p cs).
Proof.
  induction 1 as [|c cs Hs IH Hall]; [constructor|].
  cbn [filter]. destruct (p c); [|exact IH].
  constructor; [exact IH|].
  apply Forall_forall. intros x Hx. apply filter_In in Hx.
  rewrite Forall_forall in Hall. apply Hall. tauto.
Qed.

Lemma sorted_skipn (n : nat) (cs : list Candle) :
  StronglySorted before cs -> StronglySorted before (skipn n cs).
Proof.
  revert cs. induction n as [|n IH]; intros cs Hs; [exact Hs|].
  destruct cs as [|c cs]; [constructor|].
  cbn [skipn]. apply IH. now apply StronglySorted_inv in Hs.
Qed.

Lemma sorted_app_inv (l1 l2 : list Candle) :
  StronglySorted before (l1 ++ l2) ->
  forall a b, In a l1 -> In b l2 -> before a b.
Proof.
  induction l1 as [|c l1 IH]; intros Hs a b Ha Hb; [contradiction|].
  cbn [app] in Hs. apply StronglySorted_inv in Hs. destruct Hs as [Hs Hall].
  destruct Ha as [-> | Ha]; [|now apply IH].
  rewrite Forall_forall in Hall. apply (Hall b), in_or_app. now right.
Qed.

Lemma chronological_filter (p : Candle -> bool) (cs : list Candle) :
  chronological cs -> chronological (filter p cs).
Proof. rewrite !chronological_sorted. apply sorted_filter. Qed.

Lemma chronological_slice_from (start : Z) (cs : list Candle) :
  chronological cs -> chronological (slice_from start cs).
Proof. rewrite !chronological_sorted. apply sorted_skipn. Qed.

(** * What a trade can do to the series *)

Lemma filter_same_length {A : Type} (p : A -> bool) (l : list A) :
  length (filter p l) = length l -> filter p l = l.
Proof.
  induction l as [|x l IH]; [reflexivity|].
  cbn [filter]. pose proof (length_filter_le p l) as Hle.
  destruct (p x); cbn [length]; intros H; [f_equal; apply IH; lia | lia].
Qed.

Lemma nth_error_last_None {A : Type} (l : list A) :
  nth_error l (length l - 1) = None -> l = [].
Proof.
  destruct l as [|x l]; [reflexivity|].
  intros H. apply nth_error_None in H. cbn [length] in H. lia.
Qed.


(** * What a trade can do to the series *)

(** The four ways through [handleRealTimeTrade], with the state each ends in. *)
Lemma handleRealTimeTrade_cases (now : Z) (trade : RealTimeTrade) (s : SDK) :
  let s0 := set_lastUpdate (Some now) s in
  (candles s = [] /\ handleRealTimeTrade now trade s = s0)
  \/ exists older latest,
       candles s = older ++ [latest]
       /\ ((0 <= timeDiff trade latest <= 120
            /\ handleRealTimeTrade now trade s
               = notifyChartUpdate (set_candles (older ++ [merged latest trade]) s0))
           \/ (timeDiff trade latest < 0
               /\ let s1 := set_candles
                              (filter (fun candle =>
                                         Timestamp candle >=? cutoffTimestamp trade)
                                 (candles s)) s0 in
                  handleRealTimeTrade now trade s
                  = if negb (length (candles s1) =? length (candles s))%nat
                    then notifyChartUpdate s1 else s1)
           \/ (120 < timeDiff trade latest
               /\ handleRealTimeTrade now trade s = s0)).
Proof.
  cbv zeta. unfold handleRealTimeTrade. cbn [set_lastUpdate candles].
  destruct (candles s) as [|c cs] eqn:Hcs; [left; split; reflexivity|].
  right. destruct (exists_last (l := c :: cs)) as (older & latest & Hlast); [discriminate|].
  exists older, latest. split; [exact Hlast|].
  rewrite Hlast, nth_error_latest.
  set (diff := timeDiff trade latest).
  destruct (Z.geb_spec diff 0) as [Hge | Hlt]; cbn [andb].
  - destruct (Z.leb_spec diff 120) as [Hle | Hgt].
    + left. split; [lia|]. now rewrite array_set_latest.
    + right. right. split; [lia|].
      destruct (Z.ltb_spec diff 0); [lia | reflexivity].
  - right. left. split; [lia|].
    destruct (Z.ltb_spec diff 0); [|lia]. reflexivity.
Qed.

(** X7.  A trade that finds no candle, or whose minute is more than 120
    seconds after the latest candle, is not merged: nothing changes but the
    last-update time, and nobody is notified.  The distance is the one the
    code computes, in binary64 arithmetic, or, for timestamps of at most
    [2^51] in magnitude, the exact one. *)
Theorem handleRealTimeTrade_not_merged (now : Z) (trade : RealTimeTrade) (s : SDK) :
  candles s = []
  \/ (exists older latest,
         candles s = older ++ [latest]
         /\ (120 < timeDiff trade latest
             \/ (small_timestamp (TradeTime trade) /\ small_timestamp (Timestamp latest)
                 /\ 120 < TradeTime trade / 60 * 60 - Timestamp latest))) ->
  handleRealTimeTrade now trade s = set_lastUpdate (Some now) s.
Proof.
  intros H.
  destruct (handleRealTimeTrade_cases now trade s)
    as [[_ Hs] | (older & latest & Hcs & Hcase)]; [exact Hs|].
  destruct H as [Hempty | (older' & latest' & Hcs' & Hdiff)].
  - rewrite Hempty in Hcs. now destruct older.
  - rewrite Hcs' in Hcs. apply app_inj_tail in Hcs. destruct Hcs as [_ <-].
    assert (Hfar : 120 < timeDiff trade latest').
    { destruct Hdiff as [Hdiff | (Ht & Hl & Hdiff)]; [exact Hdiff|].
      now rewrite timeDiff_exact. }
    destruct Hcase as [[Hd _] | [[Hd _] | [_ Hs]]]; [lia | lia | exact Hs].
Qed.

Lemma map_Timestamp_merged (older : list Candle) (latest : Candle) (trade : RealTimeTrade) :
  map Timestamp (older ++ [merged latest trade]) = map Timestamp (older ++ [latest]).
Proof. now rewrite !map_app. Qed.

(** X8.  A trade never adds a candle: after [handleRealTimeTrade] the
    series is no longer than before, carries no timestamp it did not carry
    before, and is still in strictly increasing order if it was. *)
Theorem handleRealTimeTrade_never_adds (now : Z) (trade : RealTimeTrade) (s : SDK) :
  (length (candles (handleRealTimeTrade now trade s)) <= length (candles s))%nat
  /\ (forall t, In t (map Timestamp (candles (handleRealTimeTrade now trade s))) ->
                In t (map Timestamp (candles s)))
  /\ (chronological (candles s) ->
      chronological (candles (handleRealTimeTrade now trade s))).
Proof.
  assert (Hshape : exists keep : Candle -> bool,
             map Timestamp (candles (handleRealTimeTrade now trade s))
             = map Timestamp (filter keep (candles s))).
  { destruct (handleRealTimeTrade_cases now trade s)
      as [[_ ->] | (older & latest & Hcs & [[_ ->] | [[_ ->] | [_ ->]]])].
    - exists (fun _ => true). cbn [set_lastUpdate candles].
      now rewrite filter_all by (apply Forall_forall; auto).
    - exists (fun _ => true). cbn [notifyChartUpdate emit set_candles candles].
      rewrite filter_all by (apply Forall_forall; auto).
      rewrite Hcs. apply map_Timestamp_merged.
    - eexists. cbv zeta.
      match goal with |- context [if ?c then _ else _] => destruct c end;
        cbn [notifyChartUpdate emit set_candles set_lastUpdate candles]; reflexivity.
    - exists (fun _ => true). cbn [set_lastUpdate candles].
      now rewrite filter_all by (apply Forall_forall; auto). }
  destruct Hshape as [keep Hshape].
  split; [|split].
  - rewrite <- (length_map Timestamp), Hshape, length_map. apply length_filter_le.
  - intros t. rewrite Hshape. rewrite !in_map_iff.
    intros (c & Hc & Hin). exists c. apply filter_In in Hin. tauto.
  - intros Hchron. unfold chronological. rewrite Hshape.
    apply chronological_filter, Hchron.
Qed.

Lemma app_not_self {A : Type} (l : list A) (x : A) : l ++ [x] <> l.
Proof.
  intros H. apply (f_equal (@length A)) in H. rewrite length_app in H.
  cbn [length] in H. lia.
Qed.

(** X9.  [handleRealTimeTrade] calls the chart callback at most once, with
    a snapshot of the state it ends in, and never changes the series without
    calling it. *)
Theorem handleRealTimeTrade_notifies (now : Z) (trade : RealTimeTrade) (s : SDK) :
  (emitted (handleRealTimeTrade now trade s) = emitted s
   \/ emitted (handleRealTimeTrade now trade s)
      = emitted s ++ [ChartUpdate (getChartData (handleRealTimeTrade now trade s))])
  /\ (emitted (handleRealTimeTrade now trade s) = emitted s ->
      candles (handleRealTimeTrade now trade s) = candles s).
Proof.
  destruct (handleRealTimeTrade_cases now trade s)
    as [[_ ->] | (older & latest & Hcs & [[_ ->] | [[_ ->] | [_ ->]]])].
  - split; [left|]; reflexivity.
  - split; [right; reflexivity|].
    cbn [notifyChartUpdate emit emitted set_candles set_lastUpdate].
    intros H. now apply app_not_self in H.
  - cbv zeta. cbn [set_candles candles set_lastUpdate].
    destruct (Nat.eqb_spec
                (length (filter (fun candle => Timestamp candle >=? cutoffTimestamp trade)
                           (candles s)))
                (length (candles s))) as [Hsame | Hdiff]; cbn [negb].
    + split; [left; reflexivity|]. intros _.
      cbn [set_candles candles]. apply filter_same_length, Hsame.
    + split; [right; reflexivity|].
      cbn [notifyChartUpdate emit emitted set_candles set_lastUpdate].
      intros H. now apply app_not_self in H.
  - split; [left|]; reflexivity.
Qed.

(** * What an upsert does to the series *)

Lemma fetchLatestCandle_steps (now : Z) (newCandle : Candle) (s : SDK) :
  truthy_string (currentTokenId s) = true ->
  fetchLatestCandle now (Some newCandle) s
  = notifyChartUpdate
      (set_lastUpdate (Some now)
         (set_candles
            (filter (fresh now) (cap (limit_in_force s) (upsert (candles s) newCandle))) s)).
Proof. intros Htoken. unfold fetchLatestCandle. now rewrite Htoken. Qed.

Lemma findIndex_Some {A : Type} (p : A -> bool) (l : list A) (i : nat) :
  findIndex p l = Some i ->
  exists l1 x l2,
    l = l1 ++ x :: l2 /\ p x = true
    /\ forall y, array_set l i y = l1 ++ y :: l2.
Proof.
  revert i. induction l as [|a l IH]; intros i; [discriminate|].
  cbn [findIndex]. destruct (p a) eqn:Hpa.
  - intros H. injection H as <-. exists [], a, l. repeat split; assumption.
  - destruct (findIndex p l) as [j|]; [|discriminate].
    cbn [option_map]. intros H. injection H as <-.
    destruct (IH j eq_refl) as (l1 & x & l2 & -> & Hpx & Hset).
    exists (a :: l1), x, l2. split; [reflexivity|]. split; [exact Hpx|].
    intros y. cbn [array_set app]. now rewrite Hset.
Qed.

Lemma findIndex_None {A : Type} (p : A -> bool) (l : list A) :
  findIndex p l = None -> Forall (fun x => p x = false) l.
Proof.
  induction l as [|a l IH]; [constructor|].
  cbn [findIndex]. destruct (p a) eqn:Hpa; [discriminate|].
  destruct (findIndex p l); [discriminate|]. intros _. constructor; auto.
Qed.

Lemma insert_In (c x : Candle) (l : list Candle) :
  In x (insert_by_timestamp c l) <-> x = c \/ In x l.
Proof.
  induction l as [|d l IH]; cbn [insert_by_timestamp].
  - cbn. intuition.
  - destruct (Timestamp c <=? Timestamp d); cbn [In]; [intuition|].
    rewrite IH. intuition.
Qed.

Lemma insert_sorted (c : Candle) (l : list Candle) :
  StronglySorted before l ->
  Forall (fun x => Timestamp x <> Timestamp c) l ->
  StronglySorted before (insert_by_timestamp c l).
Proof.
  induction 1 as [|d l Hs IH Hall]; intros Hne; cbn [insert_by_timestamp].
  - repeat constructor.
  - apply Forall_cons_iff in Hne. destruct Hne as [Hd Hne].
    destruct (Z.leb_spec (Timestamp c) (Timestamp d)) as [Hle | Hgt].
    + constructor; [now constructor|].
      constructor; [unfold before; lia|].
      eapply Forall_impl; [|exact Hall]. unfold before. intros x Hx. lia.
    + constructor; [now apply IH|].
      apply Forall_forall. intros x Hx. apply insert_In in Hx.
      destruct Hx as [-> | Hx]; [exact Hgt|].
      rewrite Forall_forall in Hall. now apply Hall.
Qed.

Lemma insert_first (c : Candle) (l : list Candle) :
  Forall (fun x => Timestamp c <= Timestamp x) l -> insert_by_timestamp c l = c :: l.
Proof.
  destruct l as [|d l]; [reflexivity|].
  intros H. apply Forall_inv in H. cbn [insert_by_timestamp].
  destruct (Z.leb_spec (Timestamp c) (Timestamp d)); [reflexivity | lia].
Qed.

Lemma insert_last (c : Candle) (l : list Candle) :
  Forall (fun x => Timestamp x < Timestamp c) l -> insert_by_timestamp c l = l ++ [c].
Proof.
  induction 1 as [|d l Hd _ IH]; [reflexivity|].
  cbn [insert_by_timestamp app].
  destruct (Z.leb_spec (Timestamp c) (Timestamp d)); [lia|]. now rewrite IH.
Qed.

(** Sorting a sorted series with one new timestamp pushed at its end puts
    the new candle in its place. *)
Lemma sort_pushed (c : Candle) (l : list Candle) :
  StronglySorted before l ->
  Forall (fun x => Timestamp x <> Timestamp c) l ->
  sort_by_timestamp (l ++ [c]) = insert_by_timestamp c l.
Proof.
  unfold sort_by_timestamp. rewrite fold_right_app. cbn [fold_right insert_by_timestamp].
  induction 1 as [|d l Hs IH Hall]; intros Hne; [reflexivity|].
  apply Forall_cons_iff in Hne. destruct Hne as [Hd Hne].
  cbn [fold_right]. rewrite IH by exact Hne.
  cbn [insert_by_timestamp].
  destruct (Z.leb_spec (Timestamp c) (Timestamp d)) as [Hle | Hgt].
  - rewrite (insert_first c l).
    + cbn [insert_by_timestamp].
      destruct (Z.leb_spec (Timestamp d) (Timestamp c)); [lia|].
      f_equal. apply insert_first.
      eapply Forall_impl; [|exact Hall]. unfold before. intros x Hx. lia.
    + eapply Forall_impl; [|exact Hall]. unfold before. intros x Hx. lia.
  - apply insert_first. apply Forall_forall. intros x Hx. apply insert_In in Hx.
    destruct Hx as [-> | Hx]; [lia|].
    rewrite Forall_forall in Hall. specialize (Hall x Hx). unfold before in Hall. lia.
Qed.

Lemma sorted_unique (l : list Candle) (x y : Candle) :
  StronglySorted before l -> In x l -> In y l -> Timestamp x = Timestamp y -> x = y.
Proof.
  induction 1 as [|d l Hs IH Hall]; intros Hx Hy Heq; [contradiction|].
  rewrite Forall_forall in Hall. unfold before in Hall.
  destruct Hx as [-> | Hx], Hy as [-> | Hy]; auto.
  - specialize (Hall y Hy). lia.
  - specialize (Hall x Hx). lia.
Qed.

Lemma upsert_sorted (l : list Candle) (c : Candle) :
  StronglySorted before l -> StronglySorted before (upsert l c) /\ In c (upsert l c).
Proof.
  intros Hs. unfold upsert.
  destruct (findIndex (fun candle => Timestamp candle =? Timestamp c) l) as [i|] eqn:Hfind.
  - apply findIndex_Some in Hfind. destruct Hfind as (l1 & x & l2 & -> & Hx & Hset).
    rewrite Hset. apply Z.eqb_eq in Hx. split; [|apply in_elt].
    apply StronglySorted_map_Timestamp. apply StronglySorted_map_Timestamp in Hs.
    now rewrite map_app in *; cbn [map] in *; rewrite <- Hx.
  - apply findIndex_None in Hfind.
    assert (Hne : Forall (fun x => Timestamp x <> Timestamp c) l).
    { eapply Forall_impl; [|exact Hfind]. intros x Hx. now apply Z.eqb_neq. }
    rewrite sort_pushed by assumption.
    split; [now apply insert_sorted | apply insert_In; now left].
Qed.

Lemma cap_sorted (limit : Z) (l : list Candle) :
  StronglySorted before l -> StronglySorted before (cap limit l).
Proof.
  intros Hs. unfold cap, slice_from.
  destruct (Z.of_nat (length l) >? limit); [now apply sorted_skipn | exact Hs].
Qed.

(** X10.  A poll keeps the series in strictly increasing order of
    timestamps, whether it replaces a candle, inserts one or brings nothing. *)
Theorem fetchLatestCandle_keeps_order (now : Z) (fetched : option Candle) (s : SDK) :
  chronological (candles s) ->
  chronological (candles (fetchLatestCandle now fetched s)).
Proof.
  intros Hchron.
  destruct (truthy_string (currentTokenId s)) eqn:Htoken;
    [|unfold fetchLatestCandle; now rewrite Htoken].
  destruct fetched as [c|]; [|unfold fetchLatestCandle; now rewrite Htoken].
  rewrite fetchLatestCandle_steps by exact Htoken.
  cbn [notifyChartUpdate emit set_lastUpdate set_candles candles].
  apply chronological_sorted, sorted_filter, cap_sorted, upsert_sorted.
  now apply chronological_sorted.
Qed.

Lemma slice_from_last (limit : Z) (l : list Candle) :
  0 < limit -> limit < Z.of_nat (length l) ->
  slice_from (- limit) l = skipn (length l - Z.to_nat limit) l.
Proof.
  intros Hpos Hlen. unfold slice_from.
  destruct (Z.ltb_spec (- limit) 0); [|lia]. f_equal. lia.
Qed.

Lemma cap_length (limit : Z) (l : list Candle) :
  0 < limit -> Z.of_nat (length (cap limit l)) <= limit.
Proof.
  intros Hpos. unfold cap.
  destruct (Z.gtb_spec (Z.of_nat (length l)) limit) as [Hgt | Hle]; [|exact Hle].
  rewrite length_slice_from_neg by lia. lia.
Qed.

Lemma cap_short (limit : Z) (l : list Candle) :
  Z.of_nat (length l) <= limit -> cap limit l = l.
Proof.
  intros H. unfold cap. destruct (Z.gtb_spec (Z.of_nat (length l)) limit); [lia | reflexivity].
Qed.

(** What the upsert of a candle at least as new as every candle of a sorted
    series gives: the candle is the last one. *)
Lemma upsert_newest (l : list Candle) (c : Candle) :
  StronglySorted before l ->
  Forall (fun x => Timestamp x <= Timestamp c) l ->
  exists older, upsert l c = older ++ [c].
Proof.
  intros Hs Hle. unfold upsert.
  destruct (findIndex (fun candle => Timestamp candle =? Timestamp c) l) as [i|] eqn:Hfind.
  - apply findIndex_Some in Hfind. destruct Hfind as (l1 & x & l2 & -> & Hx & Hset).
    rewrite Hset. apply Z.eqb_eq in Hx. exists l1.
    destruct l2 as [|y l2]; [reflexivity|]. exfalso.
    assert (Hxy : before x y).
    { apply (sorted_app_inv (l1 ++ [x]) (y :: l2)).
      - now rewrite <- app_assoc.
      - apply in_or_app. right. now left.
      - now left. }
    rewrite Forall_forall in Hle.
    assert (Timestamp y <= Timestamp c) by (apply Hle, in_or_app; right; right; now left).
    unfold before in Hxy. lia.
  - apply findIndex_None in Hfind.
    assert (Hne : Forall (fun x => Timestamp x <> Timestamp c) l).
    { eapply Forall_impl; [|exact Hfind]. intros x Hx. now apply Z.eqb_neq. }
    rewrite sort_pushed by assumption. exists l. apply insert_last.
    rewrite Forall_forall in *. intros x Hx.
    specialize (Hle x Hx). specialize (Hne x Hx). lia.
Qed.

(** X11.  A polled candle that is not older than 24 hours and at least as
    new as every candle of a sorted series is the latest candle after the
    upsert, provided the limit in force, [maxCandles || 1000], is positive. *)
Theorem fetchLatestCandle_newest_is_last (now : Z) (newCandle : Candle) (s : SDK) :
  truthy_string (currentTokenId s) = true ->
  0 < limit_in_force s ->
  chronological (candles s) ->
  Forall (fun candle => Timestamp candle <= Timestamp newCandle) (candles s) ->
  now / 1000 - 86400 <= Timestamp newCandle ->
  exists older,
    candles (fetchLatestCandle now (Some newCandle) s) = older ++ [newCandle].
Proof.
  intros Htoken Hlimit Hchron Hnewest Hfresh.
  rewrite fetchLatestCandle_steps by exact Htoken.
  cbn [notifyChartUpdate emit set_lastUpdate set_candles candles].
  apply chronological_sorted in Hchron.
  destruct (upsert_newest _ _ Hchron Hnewest) as [older ->].
  assert (Hcap : exists kept, cap (limit_in_force s) (older ++ [newCandle])
                              = kept ++ [newCandle]).
  { unfold cap.
    destruct (Z.gtb_spec (Z.of_nat (length (older ++ [newCandle]))) (limit_in_force s))
      as [Hgt | Hle]; [|now exists older].
    rewrite slice_from_last by lia. rewrite length_app in *. cbn [length] in *.
    rewrite skipn_app.
    replace (length older + 1 - Z.to_nat (limit_in_force s) - length older)%nat
      with 0%nat by lia.
    cbn [skipn]. eauto. }
  destruct Hcap as [kept ->]. rewrite filter_app. cbn [filter].
  unfold fresh at 2. destruct (Z.geb_spec (Timestamp newCandle) (now / 1000 - 24 * 60 * 60));
    [eauto | lia].
Qed.

Lemma fetchLatestCandle_config (now : Z) (fetched : option Candle) (s : SDK) :
  chartConfig (fetchLatestCandle now fetched s) = chartConfig s
  /\ currentTokenId (fetchLatestCandle now fetched s) = currentTokenId s.
Proof.
  unfold fetchLatestCandle.
  destruct (negb (truthy_string (currentTokenId s))); [split; reflexivity|].
  destruct fetched; split; reflexivity.
Qed.

Lemma skipn_In {A : Type} (n : nat) (l : list A) (x : A) : In x (skipn n l) -> In x l.
Proof.
  intros H. rewrite <- (firstn_skipn n l). apply in_or_app. now right.
Qed.

Lemma cap_In (limit : Z) (l : list Candle) (x : Candle) : In x (cap limit l) -> In x l.
Proof.
  unfold cap, slice_from. destruct (Z.of_nat (length l) >? limit); [apply skipn_In | auto].
Qed.

(** The second of two identical upserts finds the series as the first left
    it. *)
Lemma upsert_again (now limit : Z) (l : list Candle) (c : Candle) :
  0 < limit -> StronglySorted before l ->
  let r := filter (fresh now) (cap limit (upsert l c)) in
  filter (fresh now) (cap limit (upsert r c)) = r.
Proof.
  intros Hlimit Hs r.
  destruct (upsert_sorted l c Hs) as [Hu Hc].
  assert (Hr : StronglySorted before r) by (apply sorted_filter, cap_sorted, Hu).
  assert (Hlen : Z.of_nat (length r) <= limit).
  { pose proof (cap_length limit (upsert l c) Hlimit).
    pose proof (length_filter_le (fresh now) (cap limit (upsert l c))). subst r. lia. }
  assert (Hfresh : Forall (fun x => fresh now x = true) r) by apply Forall_filter_kept.
  assert (Hsub : forall x, In x r -> In x (upsert l c)).
  { intros x Hx. subst r. apply filter_In in Hx. destruct Hx as [Hx _]. now apply cap_In in Hx. }
  unfold upsert at 1.
  destruct (findIndex (fun candle => Timestamp candle =? Timestamp c) r) as [i|] eqn:Hfind.
  - apply findIndex_Some in Hfind. destruct Hfind as (l1 & x & l2 & Hsplit & Hx & Hset).
    rewrite Hset. apply Z.eqb_eq in Hx.
    assert (x = c).
    { apply (sorted_unique (upsert l c)); auto.
      apply Hsub. rewrite Hsplit. apply in_elt. }
    subst x. rewrite <- Hsplit.
    rewrite cap_short by exact Hlen. apply filter_all, Hfresh.
  - apply findIndex_None in Hfind.
    assert (Hne : Forall (fun x => Timestamp x <> Timestamp c) r).
    { eapply Forall_impl; [|exact Hfind]. intros x Hx. now apply Z.eqb_neq. }
    rewrite sort_pushed by assumption.
    assert (Hnotin : ~ In c r).
    { intros Hin. rewrite Forall_forall in Hne. now apply (Hne c Hin). }
    assert (Hdropped : fresh now c = true ->
              Z.of_nat (length r) = limit /\ Forall (before c) r).
    { intros Hfc.
      assert (Hcut : ~ In c (cap limit (upsert l c))).
      { intros Hin. apply Hnotin. subst r. apply filter_In. now split. }
      unfold cap in Hcut. subst r. unfold cap in *.
      destruct (Z.gtb_spec (Z.of_nat (length (upsert l c))) limit) as [Hgt | Hle];
        [|contradiction].
      rewrite slice_from_last in * by lia.
      set (k := (length (upsert l c) - Z.to_nat limit)%nat) in *.
      assert (Hfirst : In c (firstn k (upsert l c))).
      { rewrite <- (firstn_skipn k (upsert l c)) in Hc.
        apply in_app_or in Hc. destruct Hc; [assumption | contradiction]. }
      assert (Hall : Forall (before c) (skipn k (upsert l c))).
      { apply Forall_forall. intros x Hx.
        apply (sorted_app_inv (firstn k (upsert l c)) (skipn k (upsert l c))); auto.
        now rewrite firstn_skipn. }
      assert (Hkeep : filter (fresh now) (skipn k (upsert l c)) = skipn k (upsert l c)).
      { apply filter_all. eapply Forall_impl; [|exact Hall].
        intros x Hx. unfold before in Hx. unfold fresh in *.
        apply Z.geb_le in Hfc. apply Z.geb_le. lia. }
      rewrite Hkeep. split; [|exact Hall].
      rewrite length_skipn. subst k. lia. }
    assert (Hbefore : Forall (before c) r).
    { destruct (fresh now c) eqn:Hfc; [now apply Hdropped|].
      eapply Forall_impl; [|exact Hfresh]. intros x Hx.
      unfold fresh, before in *. apply Z.geb_le in Hx.
      destruct (Z.geb_spec (Timestamp c) (now / 1000 - 24 * 60 * 60)); [discriminate | lia]. }
    rewrite insert_first
      by (eapply Forall_impl; [|exact Hbefore]; unfold before; intros x Hx; lia).
    unfold cap. cbn [length].
    destruct (Z.gtb_spec (Z.of_nat (S (length r))) limit) as [Hgt | Hle].
    + rewrite slice_from_last by (cbn [length]; lia). cbn [length].
      replace (S (length r) - Z.to_nat limit)%nat with 1%nat by lia.
      cbn [skipn]. apply filter_all, Hfresh.
    + cbn [filter]. destruct (fresh now c) eqn:Hfc.
      * destruct (Hdropped eq_refl) as [Hfull _]. lia.
      * apply filter_all, Hfresh.
Qed.

(** X12.  Upserting the same polled candle twice, at the same clock
    reading, leaves the series as the first upsert left it, for a series in
    strictly increasing order and a positive limit in force. *)
Theorem fetchLatestCandle_idempotent (now : Z) (newCandle : Candle) (s : SDK) :
  truthy_string (currentTokenId s) = true ->
  0 < limit_in_force s ->
  chronological (candles s) ->
  candles (fetchLatestCandle now (Some newCandle) (fetchLatestCandle now (Some newCandle) s))
  = candles (fetchLatestCandle now (Some newCandle) s).
Proof.
  intros Htoken Hlimit Hchron.
  destruct (fetchLatestCandle_config now (Some newCandle) s) as [Hconfig Htok].
  rewrite (fetchLatestCandle_steps now newCandle (fetchLatestCandle now (Some newCandle) s))
    by (now rewrite Htok).
  cbn [notifyChartUpdate emit set_lastUpdate set_candles candles].
  unfold limit_in_force at 1. rewrite Hconfig. fold (limit_in_force s).
  rewrite fetchLatestCandle_steps by exact Htoken.
  cbn [notifyChartUpdate emit set_lastUpdate set_candles candles].
  apply upsert_again; [exact Hlimit | now apply chronological_sorted].
Qed.

(** * The manual clean-up and the configuration *)

Lemma set_candles_same (s : SDK) : set_candles (candles s) s = s.
Proof. now destruct s. Qed.

Lemma set_candles_twice (cs cs' : list Candle) (s : SDK) :
  set_candles cs (set_candles cs' s) = set_candles cs s.
Proof. reflexivity. Qed.

Lemma cap_nil (limit : Z) : cap limit [] = [].
Proof. unfold cap, slice_from. cbn [length]. destruct (Z.of_nat 0 >? limit); [apply skipn_nil | reflexivity]. Qed.

Lemma length_cap_le (limit : Z) (l : list Candle) : (length (cap limit l) <= length l)%nat.
Proof.
  unfold cap, slice_from. destruct (Z.of_nat (length l) >? limit); [|lia].
  rewrite length_skipn. lia.
Qed.

Lemma cap_same_length (limit : Z) (l : list Candle) :
  length (cap limit l) = length l -> cap limit l = l.
Proof.
  unfold cap, slice_from. destruct (Z.of_nat (length l) >? limit); [|reflexivity].
  set (k := Z.to_nat _). rewrite length_skipn. intros H.
  destruct l as [|c l]; [apply skipn_nil|].
  replace k with 0%nat by (cbn [length] in H; lia). reflexivity.
Qed.

(** The series [cleanupOldData] leaves, and whether it notifies. *)
Lemma cleanupOldData_steps (now : Z) (hours : Float64.number) (s : SDK) :
  let kept := cap (limit_in_force s)
                (filter (not_older (cleanup_cutoff now hours)) (candles s)) in
  cleanupOldData now hours s
  = if (length kept <? length (candles s))%nat
    then notifyChartUpdate (set_candles kept s) else s.
Proof.
  cbv zeta. unfold cleanupOldData.
  set (old := filter _ (candles s)).
  destruct (Nat.eqb_spec (length (candles s)) 0) as [Hempty | Hnonempty].
  - apply length_zero_iff_nil in Hempty. subst old. rewrite Hempty. cbn [filter].
    rewrite cap_nil. reflexivity.
  - cbn [set_candles candles chartConfig]. fold (limit_in_force s).
    replace (if Z.of_nat (length old) >? limit_in_force s
             then set_candles (slice_from (- limit_in_force s) old) (set_candles old s)
             else set_candles old s)
      with (set_candles (cap (limit_in_force s) old) s)
      by (unfold cap; destruct (Z.of_nat (length old) >? limit_in_force s); reflexivity).
    cbn [set_candles candles].
    pose proof (length_cap_le (limit_in_force s) old) as Hcap.
    pose proof (length_filter_le (not_older (cleanup_cutoff now hours)) (candles s))
      as Hold. fold old in Hold.
    destruct (Z.gtb_spec (Z.of_nat (length (candles s))
                          - Z.of_nat (length (cap (limit_in_force s) old))) 0) as [Hgt | Hle];
      destruct (Nat.ltb_spec (length (cap (limit_in_force s) old)) (length (candles s)));
      try lia; [reflexivity|].
    assert (Hc : cap (limit_in_force s) old = old) by (apply cap_same_length; lia).
    rewrite Hc. subst old. rewrite filter_same_length by lia. apply set_candles_same.
Qed.

Lemma cleanupOldData_candles (now : Z) (hours : Float64.number) (s : SDK) :
  candles (cleanupOldData now hours s)
  = cap (limit_in_force s)
      (filter (not_older (cleanup_cutoff now hours)) (candles s)).
Proof.
  rewrite cleanupOldData_steps. cbv zeta.
  set (old := filter _ (candles s)).
  pose proof (length_cap_le (limit_in_force s) old) as Hcap.
  pose proof (length_filter_le (not_older (cleanup_cutoff now hours)) (candles s))
    as Hold. fold old in Hold.
  destruct (Nat.ltb_spec (length (cap (limit_in_force s) old)) (length (candles s)));
    [reflexivity|].
  rewrite cap_same_length by lia. subst old. now rewrite filter_same_length by lia.
Qed.

Lemma cap_kept (limit : Z) (p : Candle -> bool) (l : list Candle) :
  Forall (fun x => p x = true) l -> Forall (fun x => p x = true) (cap limit l).
Proof.
  intros H. apply Forall_forall. intros x Hx. apply cap_In in Hx.
  rewrite Forall_forall in H. now apply H.
Qed.

(** X13.  After [cleanupOldData] every candle left passes the comparison
    of the code, [Timestamp >= cutoff], for the cutoff the code computes in
    binary64 arithmetic from any number of hours, whole or not; with NaN for
    hours no candle passes and the series is emptied.  When the limit in
    force is positive, the series is no longer than that limit; the order of
    the series is kept; the consumer is notified exactly when candles were
    removed; and a second call at the same clock reading changes nothing at
    all. *)
Theorem cleanupOldData_prunes (now : Z) (hours : Float64.number) (s : SDK) :
  0 < limit_in_force s ->
  Forall (fun candle => not_older (cleanup_cutoff now hours) candle = true)
    (candles (cleanupOldData now hours s))
  /\ (Float64.isNaN hours = true -> candles (cleanupOldData now hours s) = [])
  /\ Z.of_nat (length (candles (cleanupOldData now hours s))) <= limit_in_force s
  /\ (chronological (candles s) -> chronological (candles (cleanupOldData now hours s)))
  /\ ((length (candles (cleanupOldData now hours s)) < length (candles s))%nat
      /\ emitted (cleanupOldData now hours s)
         = emitted s ++ [ChartUpdate (getChartData (cleanupOldData now hours s))]
      \/ cleanupOldData now hours s = s)
  /\ cleanupOldData now hours (cleanupOldData now hours s) = cleanupOldData now hours s.
Proof.
  intros Hlimit.
  set (p := not_older (cleanup_cutoff now hours)).
  assert (Hkept : Forall (fun x => p x = true) (candles (cleanupOldData now hours s))).
  { rewrite cleanupOldData_candles. apply cap_kept, Forall_filter_kept. }
  assert (Hlen : Z.of_nat (length (candles (cleanupOldData now hours s)))
                 <= limit_in_force s).
  { rewrite cleanupOldData_candles. apply cap_length, Hlimit. }
  split; [exact Hkept|]. split; [|split; [exact Hlen | split; [|split]]].
  - intros Hnan. destruct hours; try discriminate.
    rewrite cleanupOldData_candles.
    assert (Hcut : cleanup_cutoff now S754_nan = S754_nan).
    { unfold cleanup_cutoff, Float64.sub, Float64.mul. cbn [SFmul].
      now destruct (Float64.of_Z (now / 1000)). }
    rewrite Hcut.
    assert (Hnone : filter (not_older S754_nan) (candles s) = []).
    { induction (candles s) as [|c cs IH]; [reflexivity|].
      cbn [filter]. unfold not_older at 1, Float64.ge, SFleb, SFcompare.
      exact IH. }
    rewrite Hnone. apply cap_nil.
  - intros Hchron. rewrite cleanupOldData_candles.
    apply chronological_sorted, cap_sorted, sorted_filter, chronological_sorted, Hchron.
  - rewrite cleanupOldData_steps. cbv zeta. fold p.
    destruct (Nat.ltb_spec (length (cap (limit_in_force s) (filter p (candles s))))
                (length (candles s))); [left | now right].
    split; [exact H | reflexivity].
  - assert (Hconfig : limit_in_force (cleanupOldData now hours s) = limit_in_force s).
    { rewrite cleanupOldData_steps. cbv zeta.
      destruct (_ <? _)%nat; reflexivity. }
    rewrite (cleanupOldData_steps now hours (cleanupOldData now hours s)). cbv zeta.
    fold p. rewrite Hconfig.
    rewrite (filter_all p) by exact Hkept.
    rewrite cap_short by exact Hlen.
    now rewrite Nat.ltb_irrefl.
Qed.

Lemma startPeriodicUpdates_fields (s : SDK) :
  candles (startPeriodicUpdates s) = candles s
  /\ chartConfig (startPeriodicUpdates s) = chartConfig s
  /\ currentTokenId (startPeriodicUpdates s) = currentTokenId s.
Proof.
  unfold startPeriodicUpdates.
  destruct (updateInterval (chartConfig s)) as [i|]; [|repeat split].
  destruct (negb (i =? 0) && truthy_string (currentTokenId s)); repeat split.
Qed.

Lemma updateChartConfig_fields (newConfig : ChartConfig) (s : SDK) :
  candles (updateChartConfig newConfig s)
  = match maxCandles newConfig with
    | Some m => if negb (m =? 0) then cap m (candles s) else candles s
    | None => candles s
    end
  /\ chartConfig (updateChartConfig newConfig s) = merge_ChartConfig (chartConfig s) newConfig
  /\ currentTokenId (updateChartConfig newConfig s) = currentTokenId s.
Proof.
  unfold updateChartConfig.
  set (s1 := match maxCandles newConfig with Some _ => _ | None => _ end).
  assert (H1 : candles s1
               = match maxCandles newConfig with
                 | Some m => if negb (m =? 0) then cap m (candles s) else candles s
                 | None => candles s
                 end
               /\ chartConfig s1 = merge_ChartConfig (chartConfig s) newConfig
               /\ currentTokenId s1 = currentTokenId s).
  { subst s1. destruct (maxCandles newConfig) as [m|]; [|repeat split].
    unfold cap. cbn [set_chartConfig candles].
    destruct (negb (m =? 0)); cbn [andb]; [|repeat split].
    destruct (Z.of_nat (length (candles s)) >? m); repeat split. }
  destruct H1 as (Hc & Hcfg & Htok).
  destruct (startPeriodicUpdates_fields s1) as (Hc' & Hcfg' & Htok').
  destruct (updateInterval newConfig); [rewrite Hc', Hcfg', Htok' | ]; repeat split; assumption.
Qed.

(** X14.  [updateChartConfig] with a positive [maxCandles] keeps the latest
    [maxCandles] candles of the series and makes that number the limit in
    force, so that every later upsert respects it; with [maxCandles: 0] the
    series is left as it is and the limit in force is 1000. *)
Theorem updateChartConfig_maxCandles (m : Z) (interval : option Z) (s : SDK) :
  (0 < m ->
   let s' := updateChartConfig {| maxCandles := Some m; updateInterval := interval |} s in
   candles s' = cap m (candles s)
   /\ (exists dropped, candles s = dropped ++ candles s')
   /\ Z.of_nat (length (candles s')) <= m
   /\ limit_in_force s' = m
   /\ forall now newCandle,
        truthy_string (currentTokenId s) = true ->
        Z.of_nat (length (candles (fetchLatestCandle now (Some newCandle) s'))) <= m)
  /\ (m = 0 ->
      let s' := updateChartConfig {| maxCandles := Some m; updateInterval := interval |} s in
      candles s' = candles s /\ limit_in_force s' = 1000).
Proof.
  split.
  - intros Hm. cbv zeta.
    set (s1 := updateChartConfig {| maxCandles := Some m; updateInterval := interval |} s).
    destruct (updateChartConfig_fields {| maxCandles := Some m; updateInterval := interval |} s)
      as (Hcandles & Hconfig & Htoken).
    fold s1 in Hcandles, Hconfig, Htoken. cbn [maxCandles] in Hcandles.
    destruct (Z.eqb_spec m 0); [lia|]. cbn [negb] in Hcandles.
    assert (Hlimit : limit_in_force s1 = m).
    { unfold limit_in_force. rewrite Hconfig. cbn. destruct (Z.eqb_spec m 0); [lia | reflexivity]. }
    rewrite Hcandles. split; [reflexivity|]. split; [|split; [|split]].
    + unfold cap, slice_from. destruct (Z.of_nat (length (candles s)) >? m).
      * eexists. symmetry. apply firstn_skipn.
      * now exists [].
    + apply cap_length, Hm.
    + exact Hlimit.
    + intros now newCandle Htok.
      rewrite fetchLatestCandle_steps by (now rewrite Htoken).
      cbn [notifyChartUpdate emit set_lastUpdate set_candles candles].
      rewrite Hlimit.
      pose proof (length_filter_le (fresh now) (cap m (upsert (candles s1) newCandle))).
      pose proof (cap_length m (upsert (candles s1) newCandle) Hm). lia.
  - intros ->. cbv zeta.
    destruct (updateChartConfig_fields {| maxCandles := Some 0; updateInterval := interval |} s)
      as (Hcandles & Hconfig & _).
    split; [exact Hcandles|]. unfold limit_in_force. now rewrite Hconfig.
Qed.

(** X15.  [subscribe] sends a request only when the socket is open and a
    token can be resolved; the request names that token, which becomes the
    current token, and no error is reported.  Otherwise nothing is sent, one
    error is reported, and the facade, its current token included, is
    otherwise unchanged. *)
Theorem subscribe_outcome (tokenId : option string) (w : WebSocketService) (s : SDK) :
  match snd (subscribe tokenId w s) with
  | Some request =>
      exists target,
        request = SubscribeRequest target
        /\ target <> EmptyString
        /\ (truthy_string tokenId = true -> tokenId = Some target)
        /\ ws_isConnected w = true
        /\ currentTokenId (fst (subscribe tokenId w s)) = Some target
        /\ emitted (fst (subscribe tokenId w s)) = emitted s
  | None =>
      (ws_isConnected w = false
       \/ (truthy_string tokenId = false /\ truthy_string (currentTokenId s) = false))
      /\ exists message, fst (subscribe tokenId w s) = notifyError message s
  end.
Proof.
  unfold subscribe, ws_subscribe, ws_send.
  destruct (truthy_string tokenId) eqn:Hgiven.
  - rewrite Hgiven. cbn [negb].
    destruct (ws_isConnected w) eqn:Hopen; cbn [negb snd fst]; [|eauto].
    destruct tokenId as [[|a t]|]; try discriminate.
    cbn [snd fst]. exists (String a t). repeat split; discriminate.
  - destruct (truthy_string (currentTokenId s)) eqn:Hcurrent; cbn [negb snd fst]; [|eauto].
    destruct (ws_isConnected w) eqn:Hopen; cbn [negb snd fst]; [|eauto].
    destruct (currentTokenId s) as [[|a t]|] eqn:Hcur; try discriminate.
    cbn [snd fst]. exists (String a t). repeat split; try discriminate. assumption.
Qed.

(** * Reconnecting, for any number of attempts *)

Lemma timer_delays_app (es1 es2 : list ws_effect) :
  timer_delays (es1 ++ es2) = timer_delays es1 ++ timer_delays es2.
Proof. unfold timer_delays. apply flat_map_app. Qed.

Ltac run_service :=
  cbv beta iota zeta delta
    [ws_run connection_failure fold_left app ws_step ws_onerror ws_onclose ws_onopen
       attemptReconnect set_socket perform set_reconnect reconnect_timer_callback connect
       negb retrying config ws reconnectAttempts maxReconnectAttempts reconnectDelay
       isConnecting connectionTimeout subscribeId isSubscribed reconnectTimers effects].

(** One failure while retries are left: the attempt is counted, one timer
    is set with the delay in force, the delay doubles up to 30 s, and the
    retry is under way. *)
Lemma failure_with_budget (with_error : bool) (s : WebSocketService) :
  retrying s -> reconnectAttempts s < maxReconnectAttempts s ->
  let s' := ws_run (connection_failure with_error) s in
  retrying s' /\ ws s' = Some CONNECTING
  /\ reconnectAttempts s' = reconnectAttempts s + 1
  /\ maxReconnectAttempts s' = maxReconnectAttempts s
  /\ config s' = config s
  /\ reconnectDelay s' = Z.min (reconnectDelay s * 2) 30000
  /\ timer_delays (effects s') = timer_delays (effects s) ++ [reconnectDelay s]
  /\ filter is_exhausted (effects s') = filter is_exhausted (effects s).
Proof.
  intros [Hws Htimers] Hlt. cbv zeta.
  destruct s as [cfg sock att mx delay conn tmo sid sub timers effs].
  cbn [ws reconnectTimers reconnectAttempts maxReconnectAttempts] in *. subst timers.
  apply Z.ltb_lt in Hlt.
  destruct Hws as [-> | ->], with_error;
    run_service; rewrite Hlt; run_service;
    rewrite ?timer_delays_app, ?filter_app; cbn [timer_delays flat_map filter is_exhausted app];
    rewrite ?app_nil_r; repeat split; auto.
Qed.

(** One failure when no retry is left: nothing is scheduled, the exhaustion
    is reported, and the service is halted. *)
Lemma failure_without_budget (with_error : bool) (s : WebSocketService) :
  retrying s -> maxReconnectAttempts s <= reconnectAttempts s ->
  let s' := ws_run (connection_failure with_error) s in
  ws s' = Some CLOSED /\ reconnectTimers s' = []
  /\ timer_delays (effects s') = timer_delays (effects s)
  /\ filter is_exhausted (effects s')
     = filter is_exhausted (effects s)
       ++ [ErrorReported "Failed to reconnect after maximum attempts"].
Proof.
  intros [Hws Htimers] Hge. cbv zeta.
  destruct s as [cfg sock att mx delay conn tmo sid sub timers effs].
  cbn [ws reconnectTimers reconnectAttempts maxReconnectAttempts] in *. subst timers.
  apply Z.ltb_ge in Hge.
  destruct Hws as [-> | ->], with_error;
    run_service; rewrite Hge; run_service;
    rewrite ?timer_delays_app, ?filter_app; cbn [timer_delays flat_map filter is_exhausted app];
    rewrite ?app_nil_r; repeat split; auto.
Qed.

Lemma failures_within_budget (with_error : bool) (k : nat) :
  forall s : WebSocketService,
    retrying s -> (k <= retry_budget s)%nat ->
    let s' := ws_run (consecutive_failures with_error k) s in
    retrying s'
    /\ ((0 < k)%nat -> ws s' = Some CONNECTING)
    /\ reconnectAttempts s' = reconnectAttempts s + Z.of_nat k
    /\ maxReconnectAttempts s' = maxReconnectAttempts s
    /\ config s' = config s
    /\ reconnectDelay s' = backoff (reconnectDelay s) k
    /\ timer_delays (effects s')
       = timer_delays (effects s) ++ map (backoff (reconnectDelay s)) (seq 0 k)
    /\ filter is_exhausted (effects s') = filter is_exhausted (effects s).
Proof.
  induction k as [|k IH]; intros s Hret Hk; cbv zeta.
  - cbn [consecutive_failures ws_run fold_left seq map backoff].
    rewrite app_nil_r, Z.add_0_r. destruct Hret. repeat split; auto; lia.
  - replace (S k) with (k + 1)%nat by lia.
    rewrite consecutive_failures_add, ws_run_app.
    destruct (IH s Hret ltac:(lia)) as (Hret1 & _ & Hatt & Hmax & Hcfg & Hdelay & Htim & Hex).
    set (s1 := ws_run (consecutive_failures with_error k) s) in *.
    replace (consecutive_failures with_error 1) with (connection_failure with_error)
      by (cbn [consecutive_failures]; now rewrite app_nil_r).
    unfold retry_budget in Hk.
    destruct (failure_with_budget with_error s1 Hret1 ltac:(lia))
      as (Hret2 & Hws2 & Hatt2 & Hmax2 & Hcfg2 & Hdelay2 & Htim2 & Hex2).
    split; [exact Hret2|]. split; [intros _; exact Hws2|].
    split; [lia|]. split; [congruence|]. split; [congruence|].
    split; [|split].
    + rewrite Hdelay2, Hdelay. now rewrite Nat.add_1_r.
    + rewrite Htim2, Htim, Hdelay, <- app_assoc. f_equal.
      rewrite Nat.add_1_r, seq_S, map_app. reflexivity.
    + congruence.
Qed.

(** X16.  For any [maxReconnectAttempts]: from a live socket with no timer
    pending, each consecutive failure within the retries left sets one timer
    and reports no exhaustion; the first failure beyond them sets none and
    reports the exhaustion, and however many failures follow, it is reported
    that once. *)
Theorem reconnect_budget (with_error : bool) (s : WebSocketService) (k : nat) :
  retrying s ->
  let s' := ws_run (consecutive_failures with_error k) s in
  ((k <= retry_budget s)%nat ->
   length (timer_delays (effects s')) = (length (timer_delays (effects s)) + k)%nat
   /\ filter is_exhausted (effects s') = filter is_exhausted (effects s)
   /\ retrying s')
  /\ ((retry_budget s < k)%nat ->
      length (timer_delays (effects s'))
      = (length (timer_delays (effects s)) + retry_budget s)%nat
      /\ filter is_exhausted (effects s')
         = filter is_exhausted (effects s)
           ++ [ErrorReported "Failed to reconnect after maximum attempts"]
      /\ ws s' = Some CLOSED /\ reconnectTimers s' = []).
Proof.
  intros Hret. cbv zeta. split; intros Hk.
  - destruct (failures_within_budget with_error k s Hret Hk)
      as (Hret1 & _ & _ & _ & _ & _ & Htim & Hex).
    rewrite Htim, length_app, length_map, length_seq. auto.
  - replace k with (retry_budget s + (1 + (k - retry_budget s - 1)))%nat by lia.
    rewrite !consecutive_failures_add, !ws_run_app.
    destruct (failures_within_budget with_error (retry_budget s) s Hret (le_n _))
      as (Hret1 & _ & Hatt & Hmax & _ & _ & Htim & Hex).
    set (s1 := ws_run (consecutive_failures with_error (retry_budget s)) s) in *.
    replace (consecutive_failures with_error 1) with (connection_failure with_error)
      by (cbn [consecutive_failures]; now rewrite app_nil_r).
    assert (Hnone : maxReconnectAttempts s1 <= reconnectAttempts s1)
      by (unfold retry_budget in Hatt; lia).
    destruct (failure_without_budget with_error s1 Hret1 Hnone)
      as (Hws2 & Htimers2 & Htim2 & Hex2).
    rewrite halted_stays by assumption.
    rewrite Htim2, Htim, Hex2, Hex, length_app, length_map, length_seq. auto.
Qed.

Lemma backoff_closed (d : Z) (k : nat) :
  0 < d <= 30000 -> backoff d k = Z.min (d * 2 ^ Z.of_nat k) 30000.
Proof.
  intros Hd. induction k as [|k IH].
  - cbn [backoff Z.of_nat]. lia.
  - cbn [backoff]. rewrite IH, Nat2Z.inj_succ, Z.pow_succ_r by lia.
    assert (0 < 2 ^ Z.of_nat k) by (apply Z.pow_pos_nonneg; lia). nia.
Qed.

(** X17.  With an initial delay between 1 ms and 30 s, the retry timers set
    within the retries left wait [d], [2d], [4d], ... doubling up to the cap
    of 30 s: the [j]-th waits [min(d * 2^j, 30000)] milliseconds. *)
Theorem reconnect_delays (with_error : bool) (s : WebSocketService) (k : nat) :
  retrying s -> (k <= retry_budget s)%nat -> 0 < reconnectDelay s <= 30000 ->
  timer_delays (effects (ws_run (consecutive_failures with_error k) s))
  = timer_delays (effects s)
    ++ map (fun j => Z.min (reconnectDelay s * 2 ^ Z.of_nat j) 30000) (seq 0 k).
Proof.
  intros Hret Hk Hd.
  destruct (failures_within_budget with_error k s Hret Hk)
    as (_ & _ & _ & _ & _ & _ & -> & _).
  f_equal. apply map_ext. intros j. now apply backoff_closed.
Qed.

(** X18.  When a retry succeeds, the service forgets the failures before
    it: the attempt counter is back at 0, the delay back at the configured
    one (or 1 s), and all [maxReconnectAttempts] retries are available
    again. *)
Theorem reconnect_reset_on_open (with_error : bool) (s : WebSocketService) (k : nat) :
  retrying s -> (1 <= k <= retry_budget s)%nat ->
  let s' := ws_run (consecutive_failures with_error k ++ [SocketOpens]) s in
  ws s' = Some OPEN /\ retrying s'
  /\ reconnectAttempts s' = 0
  /\ reconnectDelay s' = or_default (cfg_reconnectDelay (config s)) 1000
  /\ retry_budget s' = Z.to_nat (maxReconnectAttempts s)
  /\ filter is_exhausted (effects s') = filter is_exhausted (effects s).
Proof.
  intros Hret Hk. cbv zeta. rewrite ws_run_app.
  destruct (failures_within_budget with_error k s Hret ltac:(lia))
    as ([_ Htimers] & Hws & _ & Hmax & Hcfg & _ & _ & Hex).
  specialize (Hws ltac:(lia)).
  set (s1 := ws_run (consecutive_failures with_error k) s) in *.
  unfold ws_run. cbn [fold_left ws_step]. rewrite Hws.
  unfold ws_onopen, retrying, retry_budget.
  cbn [set_socket set_reconnect perform ws reconnectTimers reconnectAttempts reconnectDelay
         maxReconnectAttempts config effects].
  rewrite Htimers, Hcfg, Hmax, filter_app, Hex. cbn [filter is_exhausted].
  rewrite app_nil_r, Z.sub_0_r. repeat split; auto.
Qed.

(** * Text frames and the subscription *)

Section TextFrames.

Variable JSON_parse : string -> option json.

(** What [handleTextMessage] can do: nothing, or set the subscription and
    call the subscription callback. *)
Lemma handleTextMessage_shape (message : string) (s : WebSocketService) :
  handleTextMessage JSON_parse message s = s
  \/ exists id (subscribed : bool),
       handleTextMessage JSON_parse message s
       = perform (SubscriptionChanged (Some id))
           (set_subscription (if subscribed then Some id else None) subscribed s).
Proof.
  unfold handleTextMessage, handlePlainText.
  assert (Hplain :
            (if String.prefix "subscribe_id:" message
             then perform (SubscriptionChanged (Some (JString (drop_subscribe_id_prefix message))))
                    (set_subscription (Some (JString (drop_subscribe_id_prefix message))) true s)
             else if String.eqb message "unsubscribed"
                  then perform (SubscriptionChanged (Some (JString EmptyString)))
                         (set_subscription None false s)
                  else s) = s
            \/ exists id (subscribed : bool),
                (if String.prefix "subscribe_id:" message
                 then perform (SubscriptionChanged (Some (JString (drop_subscribe_id_prefix message))))
                        (set_subscription (Some (JString (drop_subscribe_id_prefix message))) true s)
                 else if String.eqb message "unsubscribed"
                      then perform (SubscriptionChanged (Some (JString EmptyString)))
                             (set_subscription None false s)
                      else s)
                = perform (SubscriptionChanged (Some id))
                    (set_subscription (if subscribed then Some id else None) subscribed s)).
  { destruct (String.prefix "subscribe_id:" message).
    - right. now exists (JString (drop_subscribe_id_prefix message)), true.
    - destruct (String.eqb message "unsubscribed"); [|now left].
      right. now exists (JString EmptyString), false. }
  destruct (JSON_parse message) as [jsonData|]; [|exact Hplain].
  destruct jsonData as [ | b | x | str | items | members]; try exact Hplain;
    match goal with
    | |- context [property "subscribe_id" ?v] =>
        destruct (is_string (property "action" v) "subscribed"
                  && truthy (property "subscribe_id" v)) eqn:Hsub;
        [ right; apply andb_true_iff in Hsub; destruct Hsub as [_ Hid];
          destruct (property "subscribe_id" v) as [id|]; [|discriminate];
          now exists id, true
        | destruct (is_string (property "action" v) "unsubscribed"
                    && is_string (property "status" v) "success");
          [right; now exists (JString EmptyString), false | now left] ]
    end.
Qed.

(** X19.  Whatever the text frame and whatever it parses to,
    [handleTextMessage] reports no error and touches nothing of the
    connection: the socket, the reconnection counters, the delay and the
    pending timers stay as they are, and the subscribed flag it leaves says
    exactly whether an identifier is held. *)
Theorem handleTextMessage_confined (message : string) (s : WebSocketService) :
  let s' := handleTextMessage JSON_parse message s in
  filter is_error (effects s') = filter is_error (effects s)
  /\ ws s' = ws s /\ isConnecting s' = isConnecting s
  /\ reconnectAttempts s' = reconnectAttempts s
  /\ reconnectDelay s' = reconnectDelay s
  /\ reconnectTimers s' = reconnectTimers s
  /\ (subscription_consistent s -> subscription_consistent s').
Proof.
  cbv zeta.
  destruct (handleTextMessage_shape message s) as [-> | (id & subscribed & ->)];
    [repeat split; auto|].
  cbn [perform set_subscription effects ws isConnecting reconnectAttempts reconnectDelay
         reconnectTimers].
  rewrite filter_app. cbn [filter is_error]. rewrite app_nil_r.
  repeat split. unfold subscription_consistent.
  cbn [isSubscribed subscribeId]. now destruct subscribed.
Qed.

Lemma substring_all (s : string) : String.substring 0 (String.length s) s = s.
Proof. induction s as [|a s IH]; [reflexivity|]. cbn. now rewrite IH. Qed.

Lemma legacy_prefix (id : string) :
  String.prefix "subscribe_id:" ("subscribe_id:" ++ id) = true
  /\ drop_subscribe_id_prefix ("subscribe_id:" ++ id) = id.
Proof.
  split; [now destruct id|]. unfold drop_subscribe_id_prefix.
  cbn [String.append String.length Nat.sub String.substring].
  rewrite Nat.sub_0_r. apply substring_all.
Qed.

(** X20.  The legacy acknowledgement [subscribe_id:<id>] stores exactly
    [<id>]; on an open socket [unsubscribe] then sends that identifier back,
    and the legacy text [unsubscribed] clears the subscription again, after
    which [unsubscribe] sends nothing. *)
Theorem legacy_subscription_roundtrip (id : string) (s : WebSocketService) :
  JSON_parse ("subscribe_id:" ++ id) = None ->
  JSON_parse "unsubscribed" = None ->
  id <> EmptyString ->
  ws s = Some OPEN ->
  let s1 := handleTextMessage JSON_parse ("subscribe_id:" ++ id) s in
  let s2 := handleTextMessage JSON_parse "unsubscribed" s1 in
  subscribeId s1 = Some (JString id) /\ isSubscribed s1 = true
  /\ ws_unsubscribe s1 = Some (UnsubscribeRequest (JString id))
  /\ subscribeId s2 = None /\ isSubscribed s2 = false
  /\ ws_unsubscribe s2 = None.
Proof.
  intros Hack Hunsub Hid Hopen. cbv zeta.
  destruct (legacy_prefix id) as [Hprefix Hdrop].
  assert (H1 : handleTextMessage JSON_parse ("subscribe_id:" ++ id) s
               = perform (SubscriptionChanged (Some (JString id)))
                   (set_subscription (Some (JString id)) true s)).
  { unfold handleTextMessage, handlePlainText. now rewrite Hack, Hprefix, Hdrop. }
  rewrite H1.
  assert (H2 : forall w, handleTextMessage JSON_parse "unsubscribed" w
                         = perform (SubscriptionChanged (Some (JString EmptyString)))
                             (set_subscription None false w)).
  { intros w. unfold handleTextMessage, handlePlainText. now rewrite Hunsub. }
  rewrite H2.
  unfold ws_unsubscribe, ws_send, ws_isConnected.
  cbn [perform set_subscription subscribeId isSubscribed ws truthy]. rewrite Hopen.
  destruct id as [|a id]; [contradiction|]. repeat split.
Qed.

End TextFrames.

(** X21.  [disconnect] releases the socket and clears the subscription, so
    that afterwards the service is not connected and neither [subscribe] nor
    [unsubscribe] sends anything; it does not cancel a pending retry timer,
    whose expiry still opens a new socket when no attempt is in progress. *)
Theorem ws_disconnect_outcome (s : WebSocketService) :
  let s' := ws_disconnect s in
  ws_isConnected s' = false
  /\ subscribeId s' = None /\ isSubscribed s' = false
  /\ (forall tokenId, ws_subscribe tokenId s' = None)
  /\ ws_unsubscribe s' = None
  /\ reconnectTimers s' = reconnectTimers s
  /\ reconnectAttempts s' = reconnectAttempts s
  /\ (reconnectTimers s <> [] -> isConnecting s = false ->
      ws (ws_step ReconnectTimerExpires s') = Some CONNECTING).
Proof.
  cbv zeta. unfold ws_disconnect, ws_subscribe, ws_unsubscribe, ws_send, ws_isConnected.
  cbn [set_subscription set_socket ws subscribeId isSubscribed truthy reconnectTimers
         reconnectAttempts].
  repeat split.
  intros Htimers Hconn. cbn [ws_step set_subscription set_socket reconnectTimers].
  destruct (reconnectTimers s) as [|d pending]; [contradiction|].
  unfold reconnect_timer_callback, connect.
  cbn [set_reconnect isConnecting set_subscription set_socket]. rewrite Hconn.
  reflexivity.
Qed.

(** * Binary frames *)

(** X22.  A binary frame is refused exactly when it is not 24 bytes long.
    A refused frame is reported by the service and by the facade, whose
    error field is set, and changes neither the series nor the socket, the
    reconnection counters or the timers; a 24-byte frame is never refused:
    its trade goes through [handleRealTimeTrade] and on to the consumer. *)
Theorem receiveBinaryFrame_outcome (now : Z) (data : list byte)
  (w : WebSocketService) (s : SDK) :
  (length data <> 24%nat ->
   let '(w', s', delivered) := receiveBinaryFrame now data w s in
   delivered = None
   /\ effects w' = effects w ++ [ErrorReported "Failed to deserialize binary data"]
   /\ ws w' = ws w /\ reconnectAttempts w' = reconnectAttempts w
   /\ reconnectTimers w' = reconnectTimers w
   /\ candles s' = candles s
   /\ error s' = Some "Failed to deserialize binary data"%string
   /\ emitted s' = emitted s ++ [ErrorReport "Failed to deserialize binary data"])
  /\ (length data = 24%nat ->
      exists trade,
        deserializeRealTimeTradeData data = Ok trade
        /\ receiveBinaryFrame now data w s = (w, handleRealTimeTrade now trade s, Some trade)).
Proof.
  unfold receiveBinaryFrame, handleBinaryMessage. split; intros Hlen.
  - assert (Hthrow : deserializeRealTimeTradeData data
                     = Throw (InvalidTradeSize (byteLength data))).
    { unfold deserializeRealTimeTradeData, byteLength.
      destruct (Z.eqb_spec (Z.of_nat (length data)) 24); [lia | reflexivity]. }
    rewrite Hthrow. repeat split.
  - assert (Hok : exists trade, deserializeRealTimeTradeData data = Ok trade).
    { unfold deserializeRealTimeTradeData, byteLength. rewrite Hlen.
      cbn [Z.of_nat Pos.of_succ_nat Pos.succ Z.eqb Pos.eqb negb].
      unfold getBigInt64, getFloat64.
      destruct (view_get_in_bounds data 0 8) as [b0 ->]; [lia|].
      destruct (view_get_in_bounds data 8 8) as [b1 ->]; [lia|].
      destruct (view_get_in_bounds data 16 8) as [b2 ->]; [lia|].
      cbn [bind]. eauto. }
    destruct Hok as [trade Hok]. exists trade. now rewrite Hok.
Qed.

(** * Initialisation *)

(** X23.  [initialize] installs the fetched history as it is decoded: the
    whole batch, in the order of the response, whatever the series, the
    error and the token were before and whatever [maxCandles] says (the
    limit is not applied here); the consumer gets that series in a chart
    update and no error. *)
Theorem initialize_installs_history (now : Z) (tokenId : string) (connectWebSocket : bool)
  (cs : list Candle) (bytes : list byte) (s : SDK) :
  Z.of_nat (length cs) < 2 ^ 32 -> forallb candle_on_wire cs = true ->
  createMockBinaryData cs = Ok bytes ->
  let s' := initialize now tokenId connectWebSocket (HttpBase64 (Some bytes)) s in
  candles s' = cs
  /\ currentTokenId s' = Some tokenId
  /\ lastUpdate s' = Some now
  /\ error s' = None /\ isLoading s' = false
  /\ chartConfig s' = chartConfig s
  /\ exists sent,
       emitted s' = emitted s ++ sent
       /\ filter is_ErrorReport sent = []
       /\ In (ChartUpdate {| data_candles := cs; data_lastUpdate := Some now;
                             data_isLoading := true; data_error := None |}) sent.
Proof.
  intros Hcount Hwire Hbytes. cbv zeta.
  assert (Hfetch : fetchHistoryCandles (HttpBase64 (Some bytes)) = cs).
  { cbn [fetchHistoryCandles].
    now rewrite (decode_encoded_on_wire cs bytes Hcount Hwire Hbytes). }
  destruct (initialize_outcome now tokenId connectWebSocket (HttpBase64 (Some bytes)) s)
    as (Hc & He & Hl & sent & Hsent & Hnone & Hin).
  rewrite Hfetch in Hc, Hin.
  split; [exact Hc|]. split; [|split]; [| |split; [exact He|split; [exact Hl|split]]].
  - unfold initialize, startPeriodicUpdates.
    cbn [set_currentTokenId set_isLoading set_error set_candles set_lastUpdate
           chartConfig currentTokenId].
    destruct (updateInterval (chartConfig s)) as [interval|];
      [destruct (negb (interval =? 0) && truthy_string (Some tokenId))|];
      now destruct connectWebSocket.
  - unfold initialize, startPeriodicUpdates.
    cbn [set_currentTokenId set_isLoading set_error set_candles set_lastUpdate
           chartConfig currentTokenId].
    destruct (updateInterval (chartConfig s)) as [interval|];
      [destruct (negb (interval =? 0) && truthy_string (Some tokenId))|];
      now destruct connectWebSocket.
  - unfold initialize, startPeriodicUpdates.
    cbn [set_currentTokenId set_isLoading set_error set_candles set_lastUpdate
           chartConfig currentTokenId].
    destruct (updateInterval (chartConfig s)) as [interval|];
      [destruct (negb (interval =? 0) && truthy_string (Some tokenId))|];
      now destruct connectWebSocket.
  - exists sent. auto.
Qed.

(** * The further properties at sample inputs *)

Lemma deserializeRealTimeTradeData_total_witness :
  length zero_amount_payload = 24%nat
  /\ exists trade,
       deserializeRealTimeTradeData zero_amount_payload = Ok trade
       /\ Float64.is_float64 (USD trade) = true
       /\ Float64.is_float64 (Amount trade) = true
       /\ Price trade = Float64.div (USD trade) (Amount trade).
Proof.
  split; [reflexivity|].
  apply (proj2 (deserializeRealTimeTradeData_total zero_amount_payload)). reflexivity.
Defined.

Lemma deserializeCandleData_ignores_tail_witness :
  getUint32 (le_split 4 1 ++ ArrayBuffer 56) 0 = Ok 1
  /\ Z.of_nat (length (le_split 4 1 ++ ArrayBuffer 56)) = 4 + 56 * 1
  /\ length (ArrayBuffer 8) = length (le_split 8 77)
  /\ deserializeCandleData ((le_split 4 1 ++ ArrayBuffer 56) ++ ArrayBuffer 8)
     = deserializeCandleData ((le_split 4 1 ++ ArrayBuffer 56) ++ le_split 8 77).
Proof.
  split; [reflexivity|]. split; [reflexivity|]. split; [reflexivity|].
  apply (deserializeCandleData_ignores_tail (le_split 4 1 ++ ArrayBuffer 56)
           (ArrayBuffer 8) (le_split 8 77) 1); reflexivity.
Defined.

Lemma decode_encoded_batch_witness :
  Z.of_nat (length [sample_candle (2 ^ 63) 10 10 11 9]) < 2 ^ 32
  /\ forallb candle_floats [sample_candle (2 ^ 63) 10 10 11 9] = true
  /\ (exists bytes,
       createMockBinaryData [sample_candle (2 ^ 63) 10 10 11 9] = Ok bytes
       /\ byteLength bytes = 4 + Z.of_nat (length [sample_candle (2 ^ 63) 10 10 11 9]) * 64
       /\ deserializeCandleData bytes
          = Ok (map wire_image [sample_candle (2 ^ 63) 10 10 11 9]))
  /\ map wire_image [sample_candle (2 ^ 63) 10 10 11 9]
     = [sample_candle (- 2 ^ 63) 10 10 11 9].
Proof.
  split; [reflexivity|]. split; [reflexivity|]. split; [|reflexivity].
  apply (decode_encoded_batch [sample_candle (2 ^ 63) 10 10 11 9]); reflexivity.
Defined.

Lemma fetch_encoded_batch_witness :
  Z.of_nat (length [sample_candle 60 10 10 11 9]) < 2 ^ 32
  /\ forallb candle_on_wire [sample_candle 60 10 10 11 9] = true
  /\ createMockBinaryData [sample_candle 60 10 10 11 9]
     = Ok (batch_bytes [sample_candle 60 10 10 11 9] ++ ArrayBuffer 8)
  /\ fetchHistoryCandles
       (HttpBase64 (Some (batch_bytes [sample_candle 60 10 10 11 9] ++ ArrayBuffer 8)))
     = [sample_candle 60 10 10 11 9]
  /\ fetchSingleCandle
       (HttpBase64 (Some (batch_bytes [sample_candle 60 10 10 11 9] ++ ArrayBuffer 8)))
     = Some (sample_candle 60 10 10 11 9).
Proof.
  split; [reflexivity|]. split; [reflexivity|]. split; [reflexivity|].
  apply (fetch_encoded_batch [sample_candle 60 10 10 11 9]
           (batch_bytes [sample_candle 60 10 10 11 9] ++ ArrayBuffer 8)); reflexivity.
Defined.

Lemma pollOnce_without_candle_witness :
  (history_fetch_fails HttpFailed = true \/ HttpFailed = HttpEmptyBody)
  /\ pollOnce 125000 HttpFailed (sample_SDK no_ChartConfig [sample_candle 60 10 10 11 9])
     = sample_SDK no_ChartConfig [sample_candle 60 10 10 11 9].
Proof.
  split; [left; reflexivity|].
  apply (pollOnce_without_candle 125000 HttpFailed). left; reflexivity.
Defined.

Lemma handleRealTimeTrade_not_merged_witness :
  (small_timestamp (TradeTime (sample_trade 250 24 2))
   /\ small_timestamp (Timestamp (sample_candle 60 10 10 11 9))
   /\ 120 < TradeTime (sample_trade 250 24 2) / 60 * 60
            - Timestamp (sample_candle 60 10 10 11 9))
  /\ handleRealTimeTrade 251000 (sample_trade 250 24 2)
       (sample_SDK no_ChartConfig [sample_candle 60 10 10 11 9])
     = set_lastUpdate (Some 251000) (sample_SDK no_ChartConfig [sample_candle 60 10 10 11 9]).
Proof.
  assert (Hfar : small_timestamp (TradeTime (sample_trade 250 24 2))
                 /\ small_timestamp (Timestamp (sample_candle 60 10 10 11 9))
                 /\ 120 < TradeTime (sample_trade 250 24 2) / 60 * 60
                          - Timestamp (sample_candle 60 10 10 11 9))
    by (unfold small_timestamp; cbn; lia).
  split; [exact Hfar|].
  apply (handleRealTimeTrade_not_merged 251000 (sample_trade 250 24 2)).
  right. exists [], (sample_candle 60 10 10 11 9). split; [reflexivity|].
  right. exact Hfar.
Defined.

Lemma fetchLatestCandle_keeps_order_witness :
  chronological [sample_candle 0 9 10 10 9; sample_candle 120 10 10 11 9]
  /\ chronological
       (candles (fetchLatestCandle 125000 (Some (sample_candle 60 10 10 11 9))
                   (sample_SDK no_ChartConfig
                      [sample_candle 0 9 10 10 9; sample_candle 120 10 10 11 9]))).
Proof.
  split; [reflexivity|].
  apply (fetchLatestCandle_keeps_order 125000 (Some (sample_candle 60 10 10 11 9))
           (sample_SDK no_ChartConfig
              [sample_candle 0 9 10 10 9; sample_candle 120 10 10 11 9])).
  reflexivity.
Defined.

Lemma fetchLatestCandle_newest_is_last_witness :
  0 < limit_in_force (sample_SDK no_ChartConfig [sample_candle 0 9 10 10 9])
  /\ 125000 / 1000 - 86400 <= Timestamp (sample_candle 60 10 10 11 9)
  /\ exists older,
       candles (fetchLatestCandle 125000 (Some (sample_candle 60 10 10 11 9))
                  (sample_SDK no_ChartConfig [sample_candle 0 9 10 10 9]))
       = older ++ [sample_candle 60 10 10 11 9].
Proof.
  split; [reflexivity|]. split; [apply Z.leb_le; reflexivity|].
  apply (fetchLatestCandle_newest_is_last 125000 (sample_candle 60 10 10 11 9)
           (sample_SDK no_ChartConfig [sample_candle 0 9 10 10 9]));
    [reflexivity | reflexivity | reflexivity | | apply Z.leb_le; reflexivity].
  repeat constructor. apply Z.leb_le; reflexivity.
Defined.

Lemma fetchLatestCandle_idempotent_witness :
  0 < limit_in_force (sample_SDK no_ChartConfig [sample_candle 0 9 10 10 9])
  /\ candles (fetchLatestCandle 125000 (Some (sample_candle 60 10 10 11 9))
                (fetchLatestCandle 125000 (Some (sample_candle 60 10 10 11 9))
                   (sample_SDK no_ChartConfig [sample_candle 0 9 10 10 9])))
     = candles (fetchLatestCandle 125000 (Some (sample_candle 60 10 10 11 9))
                  (sample_SDK no_ChartConfig [sample_candle 0 9 10 10 9])).
Proof.
  split; [reflexivity|].
  apply (fetchLatestCandle_idempotent 125000 (sample_candle 60 10 10 11 9)
           (sample_SDK no_ChartConfig [sample_candle 0 9 10 10 9])); reflexivity.
Defined.

Lemma cleanupOldData_prunes_witness :
  0 < limit_in_force
        (sample_SDK no_ChartConfig [sample_candle 0 9 10 10 9; sample_candle 7200 10 10 11 9])
  /\ cleanup_cutoff 7260000 (Float64.of_Z 1) = Float64.of_Z 3660
  /\ Forall (fun candle => not_older (Float64.of_Z 3660) candle = true)
       (candles (cleanupOldData 7260000 (Float64.of_Z 1)
                   (sample_SDK no_ChartConfig
                      [sample_candle 0 9 10 10 9; sample_candle 7200 10 10 11 9])))
  /\ candles (cleanupOldData 7260000 (Float64.of_Z 1)
                (sample_SDK no_ChartConfig
                   [sample_candle 0 9 10 10 9; sample_candle 7200 10 10 11 9]))
     = [sample_candle 7200 10 10 11 9].
Proof.
  split; [reflexivity|]. split; [reflexivity|]. split; [|reflexivity].
  apply (cleanupOldData_prunes 7260000 (Float64.of_Z 1)
           (sample_SDK no_ChartConfig
              [sample_candle 0 9 10 10 9; sample_candle 7200 10 10 11 9])).
  reflexivity.
Defined.

Lemma updateChartConfig_maxCandles_witness :
  0 < 1
  /\ candles (updateChartConfig {| maxCandles := Some 1; updateInterval := None |}
                (sample_SDK no_ChartConfig
                   [sample_candle 0 9 10 10 9; sample_candle 60 10 10 11 9]))
     = [sample_candle 60 10 10 11 9]
  /\ limit_in_force
       (updateChartConfig {| maxCandles := Some 1; updateInterval := None |}
          (sample_SDK no_ChartConfig
             [sample_candle 0 9 10 10 9; sample_candle 60 10 10 11 9])) = 1.
Proof.
  split; [reflexivity|].
  pose proof (proj1 (updateChartConfig_maxCandles 1 None
                       (sample_SDK no_ChartConfig
                          [sample_candle 0 9 10 10 9; sample_candle 60 10 10 11 9]))
                eq_refl) as H.
  cbv zeta in H. destruct H as (Hcandles & _ & _ & Hlimit & _).
  split; [exact Hcandles | exact Hlimit].
Defined.

Lemma reconnect_budget_witness :
  retrying (connecting (five_attempts None))
  /\ (retry_budget (connecting (five_attempts None)) < 7)%nat
  /\ filter is_exhausted
       (effects (ws_run (consecutive_failures true 7) (connecting (five_attempts None))))
     = [ErrorReported "Failed to reconnect after maximum attempts"]
  /\ length (timer_delays
               (effects (ws_run (consecutive_failures true 7)
                           (connecting (five_attempts None))))) = 5%nat.
Proof.
  assert (Hretrying : retrying (connecting (five_attempts None)))
    by (split; [left|]; reflexivity).
  assert (Hbeyond : (retry_budget (connecting (five_attempts None)) < 7)%nat)
    by (apply Nat.ltb_lt; reflexivity).
  split; [exact Hretrying|]. split; [exact Hbeyond|].
  pose proof (reconnect_budget true (connecting (five_attempts None)) 7 Hretrying) as H.
  cbv zeta in H. destruct H as [_ H]. destruct (H Hbeyond) as (Htimers & Hreport & _).
  split; [exact Hreport | exact Htimers].
Defined.

Lemma reconnect_delays_witness :
  retrying (connecting (five_attempts (Some 10000)))
  /\ (5 <= retry_budget (connecting (five_attempts (Some 10000%Z))))%nat
  /\ 0 < reconnectDelay (connecting (five_attempts (Some 10000))) <= 30000
  /\ timer_delays
       (effects (ws_run (consecutive_failures false 5)
                   (connecting (five_attempts (Some 10000)))))
     = [10000; 20000; 30000; 30000; 30000].
Proof.
  assert (Hretrying : retrying (connecting (five_attempts (Some 10000))))
    by (split; [left|]; reflexivity).
  assert (Hwithin : (5 <= retry_budget (connecting (five_attempts (Some 10000%Z))))%nat)
    by (apply Nat.leb_le; reflexivity).
  assert (Hdelay : 0 < reconnectDelay (connecting (five_attempts (Some 10000))) <= 30000)
    by (split; [reflexivity | apply Z.leb_le; reflexivity]).
  split; [exact Hretrying|]. split; [exact Hwithin|]. split; [exact Hdelay|].
  exact (reconnect_delays false (connecting (five_attempts (Some 10000))) 5
           Hretrying Hwithin Hdelay).
Defined.

Lemma reconnect_reset_on_open_witness :
  retrying (connecting (five_attempts None))
  /\ (1 <= 2 <= retry_budget (connecting (five_attempts None)))%nat
  /\ reconnectAttempts
       (ws_run (consecutive_failures true 2 ++ [SocketOpens])
          (connecting (five_attempts None))) = 0
  /\ reconnectDelay
       (ws_run (consecutive_failures true 2 ++ [SocketOpens])
          (connecting (five_attempts None))) = 1000.
Proof.
  assert (Hretrying : retrying (connecting (five_attempts None)))
    by (split; [left|]; reflexivity).
  assert (Hwithin : (1 <= 2 <= retry_budget (connecting (five_attempts None)))%nat)
    by (split; apply Nat.leb_le; reflexivity).
  split; [exact Hretrying|]. split; [exact Hwithin|].
  pose proof (reconnect_reset_on_open true (connecting (five_attempts None)) 2
                Hretrying Hwithin) as H.
  cbv zeta in H. destruct H as (_ & _ & Hattempts & Hdelay & _).
  split; [exact Hattempts | exact Hdelay].
Defined.

Lemma legacy_subscription_roundtrip_witness :
  ws (connected (five_attempts None)) = Some OPEN
  /\ ws_unsubscribe
       (handleTextMessage (fun _ => None) "subscribe_id:abc" (connected (five_attempts None)))
     = Some (UnsubscribeRequest (JString "abc"))
  /\ ws_unsubscribe
       (handleTextMessage (fun _ => None) "unsubscribed"
          (handleTextMessage (fun _ => None) "subscribe_id:abc"
             (connected (five_attempts None))))
     = None.
Proof.
  split; [reflexivity|].
  pose proof (legacy_subscription_roundtrip (fun _ => None) "abc"
                (connected (five_attempts None)) eq_refl eq_refl
                ltac:(discriminate) eq_refl) as H.
  cbv zeta in H. destruct H as (_ & _ & Hsend & _ & _ & Hnone).
  split; [exact Hsend | exact Hnone].
Defined.

Lemma ws_disconnect_outcome_witness :
  reconnectTimers (ws_step SocketCloses (connected (five_attempts None))) <> []
  /\ isConnecting (ws_step SocketCloses (connected (five_attempts None))) = false
  /\ ws (ws_step ReconnectTimerExpires
           (ws_disconnect (ws_step SocketCloses (connected (five_attempts None)))))
     = Some CONNECTING.
Proof.
  assert (Hpending :
            reconnectTimers (ws_step SocketCloses (connected (five_attempts None))) <> [])
    by discriminate.
  split; [exact Hpending|]. split; [reflexivity|].
  pose proof (ws_disconnect_outcome (ws_step SocketCloses (connected (five_attempts None))))
    as H.
  cbv zeta in H. destruct H as (_ & _ & _ & _ & _ & _ & _ & H).
  exact (H Hpending eq_refl).
Defined.

Lemma receiveBinaryFrame_outcome_witness :
  (length short_batch <> 24%nat
   /\ snd (receiveBinaryFrame 125000 short_batch (connected (five_attempts None))
             (sample_SDK no_ChartConfig [sample_candle 60 10 10 11 9])) = None
   /\ error (snd (fst (receiveBinaryFrame 125000 short_batch
                         (connected (five_attempts None))
                         (sample_SDK no_ChartConfig [sample_candle 60 10 10 11 9]))))
      = Some "Failed to deserialize binary data"%string)
  /\ length zero_amount_payload = 24%nat
  /\ exists trade,
       deserializeRealTimeTradeData zero_amount_payload = Ok trade
       /\ receiveBinaryFrame 125000 zero_amount_payload (connected (five_attempts None))
            (sample_SDK no_ChartConfig [sample_candle 60 10 10 11 9])
          = (connected (five_attempts None),
             handleRealTimeTrade 125000 trade
               (sample_SDK no_ChartConfig [sample_candle 60 10 10 11 9]),
             Some trade).
Proof.
  assert (Hlen : length short_batch <> 24%nat) by discriminate.
  split; [split; [exact Hlen|] | split; [reflexivity|]].
  - pose proof (proj1 (receiveBinaryFrame_outcome 125000 short_batch
                         (connected (five_attempts None))
                         (sample_SDK no_ChartConfig [sample_candle 60 10 10 11 9])) Hlen)
      as H.
    cbv in H. destruct H as (Hnone & _ & _ & _ & _ & _ & Herror & _).
    split; [exact Hnone | exact Herror].
  - apply (proj2 (receiveBinaryFrame_outcome 125000 zero_amount_payload
                    (connected (five_attempts None))
                    (sample_SDK no_ChartConfig [sample_candle 60 10 10 11 9]))).
    reflexivity.
Defined.

Lemma initialize_installs_history_witness :
  Z.of_nat (length [sample_candle 60 10 10 11 9]) < 2 ^ 32
  /\ forallb candle_on_wire [sample_candle 60 10 10 11 9] = true
  /\ createMockBinaryData [sample_candle 60 10 10 11 9]
     = Ok (batch_bytes [sample_candle 60 10 10 11 9] ++ ArrayBuffer 8)
  /\ candles (initialize 125000 "token" true
                (HttpBase64 (Some (batch_bytes [sample_candle 60 10 10 11 9] ++ ArrayBuffer 8)))
                (sample_SDK no_ChartConfig [sample_candle 0 9 10 10 9]))
     = [sample_candle 60 10 10 11 9].
Proof.
  split; [reflexivity|]. split; [reflexivity|]. split; [reflexivity|].
  pose proof (initialize_installs_history 125000 "token" true [sample_candle 60 10 10 11 9]
                (batch_bytes [sample_candle 60 10 10 11 9] ++ ArrayBuffer 8)
                (sample_SDK no_ChartConfig [sample_candle 0 9 10 10 9])
                eq_refl eq_refl eq_refl) as H.
  cbv zeta in H. destruct H as [H _]. exact H.
Defined.

(** * The minute of a trade and the released socket *)



(** X25.  [disconnect] does not detach the handlers of the socket it
    releases.  When that socket was connecting or open and retries are left,
    its close event reports the disconnection, counts a reconnection attempt
    and sets a retry timer, although [this.ws] is [null]; and when no other
    timer was pending, the expiry of that timer opens a new socket. *)
Theorem ws_disconnect_then_close (s : WebSocketService) :
  ws s = Some CONNECTING \/ ws s = Some OPEN ->
  reconnectAttempts s < maxReconnectAttempts s ->
  let s1 := ws_onclose_released (ws_disconnect s) in
  let s2 := ws_step ReconnectTimerExpires s1 in
  ws s1 = None
  /\ effects s1 = effects s ++ [Disconnected; ReconnectTimerSet (reconnectDelay s)]
  /\ reconnectTimers s1 = reconnectTimers s ++ [reconnectDelay s]
  /\ reconnectAttempts s1 = reconnectAttempts s + 1
  /\ (reconnectTimers s = [] ->
      ws s2 = Some CONNECTING /\ effects s2 = effects s1 ++ [SocketCreated]).
Proof.
  intros _ Hleft. cbv zeta.
  unfold ws_onclose_released, ws_disconnect, attemptReconnect.
  cbn [set_subscription set_socket perform set_reconnect ws reconnectAttempts
         maxReconnectAttempts reconnectDelay reconnectTimers effects].
  destruct (Z.ltb_spec (reconnectAttempts s) (maxReconnectAttempts s)); [|lia].
  cbn [set_subscription set_socket perform set_reconnect ws reconnectAttempts
         maxReconnectAttempts reconnectDelay reconnectTimers effects].
  split; [reflexivity|]. split; [now rewrite <- app_assoc|].
  split; [reflexivity|]. split; [reflexivity|].
  intros Hnone. rewrite Hnone.
  cbn [app ws_step reconnectTimers set_reconnect perform set_socket set_subscription].
  unfold reconnect_timer_callback, connect.
  cbn [isConnecting set_reconnect perform set_socket set_subscription negb ws effects].
  split; reflexivity.
Qed.

Lemma ws_disconnect_then_close_witness :
  ws (connected (five_attempts None)) = Some OPEN
  /\ reconnectAttempts (connected (five_attempts None))
     < maxReconnectAttempts (connected (five_attempts None))
  /\ ws (ws_onclose_released (ws_disconnect (connected (five_attempts None)))) = None
  /\ effects (ws_onclose_released (ws_disconnect (connected (five_attempts None))))
     = [SocketCreated; Connected; Disconnected; ReconnectTimerSet 1000]
  /\ ws (ws_step ReconnectTimerExpires
           (ws_onclose_released (ws_disconnect (connected (five_attempts None)))))
     = Some CONNECTING.
Proof.
  assert (Hleft : reconnectAttempts (connected (five_attempts None))
                  < maxReconnectAttempts (connected (five_attempts None)))
    by reflexivity.
  split; [reflexivity|]. split; [exact Hleft|].
  pose proof (ws_disconnect_then_close (connected (five_attempts None))
                (or_intror eq_refl) Hleft) as H.
  cbv zeta in H. destruct H as (Hws & Heffects & _ & _ & Hreopen).
  split; [exact Hws|]. split; [exact Heffects|].
  exact (proj1 (Hreopen eq_refl)).
Defined.
